(** * Monitor–workspace mapping engine of the NamakeWM shell extension

    A shallow embedding of the extension's main class
    ([MultiMonitorsWorkspaceExtension]): the monitor-to-workspace map, the
    relative-position cache, the pending-placement tracker, the switch / swap
    / new-window-placement operations and the enable / disable sequencing,
    followed by the properties of the design document that were checked
    against it.

    Conventions.
    - Pixel coordinates are [Z]; monitor, workspace and window numbers are
      [nat].  A window is identified by its compositor-assigned stable
      sequence number (the source keys its maps by the string
      [seq_<number>], an injective rendering of that number).
    - The source computes a window centre as [rect.x + rect.width / 2] in
      floating point.  For integer rectangles the comparison
      [centerX >= g.x && centerX < g.x + g.width] is exactly
      [2*g.x <= 2*rect.x + rect.width < 2*(g.x + g.width)], which is how it
      is written here.
    - The host compositor is a record; its methods are the record updates a
      call performs on the attributes the extension later reads back, and each
      call is also appended to a trace.  Signal handlers that the host would
      run in reaction to a call are separate operations of the model.
    - [GLib.timeout_add] / [GLib.idle_add] continuations are recorded as data
      in the [timers] queue together with their delay; [runDeferred] gives the
      body of each one.
    - A reference to a window object is the window's id, looked up in the
      host's window list when the source calls a method on it; a reference
      whose window is gone from the list is a destroyed window.  Ids are
      unique in a host ([List.NoDup (window_ids st)], a hypothesis where a
      statement depends on it).
    - Window attributes the host computes on its own ([hidden], [minimized],
      on-all-workspaces, layer) are inputs: no call of the model changes
      them.  The stacking position is an input too, except that [activate]
      raises the window it focuses.
    - The source marks its methods and fields private with a leading
      underscore; the definitions carry the same names without it.
    - The append-only debug log and the on-screen label of [_showOsd] (which
      has no caller) are not part of the state. *)

From Stdlib Require Import ZArith List Lia Bool String Ascii DecimalString.
From stdpp Require Import base gmap list strings fin_maps.

Open Scope Z_scope.

(** ** Geometry *)

Record Rect := mkRect {
  rect_x : Z;
  rect_y : Z;
  rect_width : Z;
  rect_height : Z
}.

(** [px >= geo.x && px < geo.x + geo.width && py >= geo.y && py < geo.y + geo.height] *)
Definition rect_contains (geo : Rect) (px py : Z) : bool :=
  (rect_x geo <=? px) && (px <? rect_x geo + rect_width geo) &&
  (rect_y geo <=? py) && (py <? rect_y geo + rect_height geo).

(** The centre of [rect] lies inside [geo] (coordinates doubled, see above). *)
Definition center_in (rect geo : Rect) : bool :=
  (2 * rect_x geo <=? 2 * rect_x rect + rect_width rect) &&
  (2 * rect_x rect + rect_width rect <? 2 * (rect_x geo + rect_width geo)) &&
  (2 * rect_y geo <=? 2 * rect_y rect + rect_height rect) &&
  (2 * rect_y rect + rect_height rect <? 2 * (rect_y geo + rect_height geo)).

(** [for (let i = 0; i < nMonitors; i++) { if (p(geometry(i))) return i; }] *)
Fixpoint first_monitor_from (p : Rect -> bool) (i : nat) (geos : list Rect) : option nat :=
  match geos with
  | [] => None
  | geo :: rest => if p geo then Some i else first_monitor_from p (S i) rest
  end.

Definition first_monitor (p : Rect -> bool) (geos : list Rect) : option nat :=
  first_monitor_from p 0 geos.

(** ** JavaScript [Map]: insertion-ordered, keys unique *)

Module JsMap.
Section Ops.
Context {K V : Type} `{EqDecision K}.

Fixpoint get (k : K) (m : list (K * V)) : option V :=
  match m with
  | [] => None
  | (k', v) :: rest => if decide (k' = k) then Some v else get k rest
  end.

Definition has (k : K) (m : list (K * V)) : bool :=
  match get k m with Some _ => true | None => false end.

(** [set] keeps the position of an existing key and appends a new one. *)
Fixpoint set (k : K) (v : V) (m : list (K * V)) : list (K * V) :=
  match m with
  | [] => [(k, v)]
  | (k', v') :: rest =>
      if decide (k' = k) then (k', v) :: rest else (k', v') :: set k v rest
  end.

Definition clear (m : list (K * V)) : list (K * V) := [].

Definition keys (m : list (K * V)) : list K := map fst m.
End Ops.
End JsMap.

(** ** Windows *)

Abbreviation WindowId := nat (only parsing).

Inductive WindowType := NORMAL | DIALOG | OTHER_TYPE.

Definition is_normal (t : WindowType) : bool :=
  match t with NORMAL => true | _ => false end.

#[projections(primitive)]
Record Window := mkWindow {
  stable_sequence : WindowId;
  frame_rect : Rect;
  window_type : WindowType;
  skip_taskbar : bool;
  hidden : bool;
  minimized : bool;
  on_all_workspaces : bool;
  win_workspace : option nat;   (* [get_workspace()?.index()] *)
  win_monitor : nat;            (* the host's own monitor association *)
  layer : Z;                    (* [get_layer()] *)
  stack_index : Z               (* position of the actor in [window_group] *)
}.

Definition with_frame (r : Rect) (w : Window) : Window :=
  let 'mkWindow a _ c d e f g h i j k := w in mkWindow a r c d e f g h i j k.
Definition with_workspace (ws : option nat) (w : Window) : Window :=
  let 'mkWindow a b c d e f g _ i j k := w in mkWindow a b c d e f g ws i j k.
Definition with_monitor (m : nat) (w : Window) : Window :=
  let 'mkWindow a b c d e f g h _ j k := w in mkWindow a b c d e f g h m j k.
Definition with_stack_index (z : Z) (w : Window) : Window :=
  let 'mkWindow a b c d e f g h i j _ := w in mkWindow a b c d e f g h i j z.

(** The comparator handed to [windows.sort] by [_cycleFocus] and
    [_swapWindowPosition] (the two arrow functions are textually the same). *)
Definition compareWindows (a b : Window) : Z :=
  let rectA := frame_rect a in
  let rectB := frame_rect b in
  if Z.abs (rect_y rectA - rect_y rectB) <? 50
  then rect_x rectA - rect_x rectB
  else rect_y rectA - rect_y rectB.

(** The ordering the design document describes, written from its words: the
    vertical position is bucketed into 50-pixel bands, a lower band comes
    first, and inside one band the smaller horizontal position comes first. *)
Definition band (w : Window) : Z := rect_y (frame_rect w) / 50.

Definition raster_before (a b : Window) : Prop :=
  band a < band b \/
  (band a = band b /\ rect_x (frame_rect a) < rect_x (frame_rect b)).

(** ** Settings (GSettings of the extension) *)

#[projections(primitive)]
Record Settings := mkSettings {
  workspace_modifier : string;
  workspace_switch_mode : string;
  warp_pointer_to_focus : bool;
  raise_on_cycle_focus : bool;
  show_workspace_indicator : bool;
  strv : gmap string (list string);                      (* string-array keys *)
  saved_system_keybindings : list (string * list string) (* the parsed JSON object; [] for the empty string *)
}.

Definition set_strv (key : string) (value : list string) (s : Settings) : Settings :=
  let 'mkSettings a b c d e f g := s in mkSettings a b c d e (<[key := value]> f) g.
Definition with_saved_system_keybindings (v : list (string * list string)) (s : Settings) : Settings :=
  let 'mkSettings a b c d e f _ := s in mkSettings a b c d e f v.

(** Template-literal rendering of a non-negative integer. *)
Definition num (n : nat) : string := NilEmpty.string_of_uint (Nat.to_uint n).

Definition modKey (modifier : string) : string :=
  if String.eqb modifier "Super" then "<Super>"
  else if String.eqb modifier "Ctrl" then "<Control>"
  else "<Alt>".

Definition switch_key (i : nat) : string := String.append "mmw-switch-ws-" (num i).
Definition move_key (i : nat) : string := String.append "mmw-move-ws-" (num i).

Definition updateWorkspaceKeybindingSettings (s : Settings) : Settings :=
  let modKey := modKey (workspace_modifier s) in
  let s :=
    fold_left (fun s i =>
      let keyName := switch_key i in
      let keyNum := ((i + 1) mod 10)%nat in
      let binding := String.append modKey (num keyNum) in
      set_strv keyName [binding] s) (seq 0 10) s in
  fold_left (fun s i =>
    let keyName := move_key i in
    let keyNum := ((i + 1) mod 10)%nat in
    let binding := String.append modKey (String.append "<Shift>" (num keyNum)) in
    set_strv keyName [binding] s) (seq 0 10) s.

(** The three values the preferences dialog can store, and the accelerator
    prefix each one stands for. *)
Inductive Modifier := Alt | Super | Ctrl.

Definition modifier_setting (m : Modifier) : string :=
  match m with Alt => "Alt" | Super => "Super" | Ctrl => "Ctrl" end.

Definition modifier_accel (m : Modifier) : string :=
  match m with Alt => "<Alt>" | Super => "<Super>" | Ctrl => "<Control>" end.

(** ** The host compositor *)

(** Calls made on the host and on the user-interface collaborators. *)
Inductive HostCall :=
| MoveFrame (w : WindowId) (x y : Z)
| MoveResizeFrame (w : WindowId) (x y width height : Z)
| MoveToMonitor (w : WindowId) (m : nat)
| ChangeWorkspace (w : WindowId) (ws : option nat)
| ActivateWorkspace (ws : option nat)
| AppendNewWorkspace
| WarpPointer (x y : Z)
| FocusWindow (w : WindowId)
| ActivateWindow (w : WindowId)
| UnsetFocus
| SetAnimations (on : bool)
| IndicatorCreate (m : list (nat * nat))
| IndicatorUpdate (m : list (nat * nat))
| IndicatorRebuild (m : list (nat * nat))
| IndicatorHighlight
| IndicatorDestroy
| BannerShow (monitor ws : nat)
| HighlightUpdate.

#[projections(primitive)]
Record Host := mkHost {
  monitors : list Rect;            (* [get_monitor_geometry(i)], [get_n_monitors()] *)
  primary_monitor : nat;
  pointer : Z * Z;
  n_workspaces : nat;
  active_workspace : nat;
  windows : list Window;           (* [global.get_window_actors()], live windows only *)
  focus_window : option WindowId;
  enable_animations : bool;
  wm_keybindings : gmap string (list string);
  settings : Settings;
  calls : list HostCall
}.

Definition with_pointer (v : Z * Z) (h : Host) : Host :=
  let 'mkHost a b _ d e f g i j k l := h in mkHost a b v d e f g i j k l.
Definition with_n_workspaces (v : nat) (h : Host) : Host :=
  let 'mkHost a b c _ e f g i j k l := h in mkHost a b c v e f g i j k l.
Definition with_active_workspace (v : nat) (h : Host) : Host :=
  let 'mkHost a b c d _ f g i j k l := h in mkHost a b c d v f g i j k l.
Definition with_windows (v : list Window) (h : Host) : Host :=
  let 'mkHost a b c d e _ g i j k l := h in mkHost a b c d e v g i j k l.
Definition with_focus_window (v : option WindowId) (h : Host) : Host :=
  let 'mkHost a b c d e f _ i j k l := h in mkHost a b c d e f v i j k l.
Definition with_enable_animations (v : bool) (h : Host) : Host :=
  let 'mkHost a b c d e f g _ j k l := h in mkHost a b c d e f g v j k l.
Definition with_wm_keybindings (v : gmap string (list string)) (h : Host) : Host :=
  let 'mkHost a b c d e f g i _ k l := h in mkHost a b c d e f g i v k l.
Definition with_settings (v : Settings) (h : Host) : Host :=
  let 'mkHost a b c d e f g i j _ l := h in mkHost a b c d e f g i j v l.
Definition with_calls (v : list HostCall) (h : Host) : Host :=
  let 'mkHost a b c d e f g i j k _ := h in mkHost a b c d e f g i j k v.

Definition record_call (c : HostCall) (h : Host) : Host :=
  with_calls (calls h ++ [c]) h.

(** Geometry of a monitor; [None] for an index that is not a monitor.  Where
    the source uses the geometry without a null check, an invalid index
    yields the empty rectangle (it contains no point). *)
Definition get_monitor_geometry (h : Host) (i : nat) : option Rect := monitors h !! i.

Definition monitor_geometry (h : Host) (i : nat) : Rect :=
  default (mkRect 0 0 0 0) (get_monitor_geometry h i).

(** [get_workspace_by_index]: the workspace object, identified by its index. *)
Definition get_workspace_by_index (h : Host) (i : nat) : option nat :=
  if (i <? n_workspaces h)%nat then Some i else None.

Fixpoint find_window (id : WindowId) (ws : list Window) : option Window :=
  match ws with
  | [] => None
  | w :: rest => if decide (stable_sequence w = id) then Some w else find_window id rest
  end.

Definition update_window (id : WindowId) (f : Window -> Window) (ws : list Window) : list Window :=
  map (fun w => if decide (stable_sequence w = id) then f w else w) ws.

(** *** Window methods *)

Definition move_frame (id : WindowId) (x y : Z) (h : Host) : Host :=
  record_call (MoveFrame id x y)
    (with_windows
       (update_window id
          (fun w => with_frame (mkRect x y (rect_width (frame_rect w)) (rect_height (frame_rect w))) w)
          (windows h)) h).

Definition move_resize_frame (id : WindowId) (x y width height : Z) (h : Host) : Host :=
  record_call (MoveResizeFrame id x y width height)
    (with_windows (update_window id (with_frame (mkRect x y width height)) (windows h)) h).

Definition move_to_monitor (id : WindowId) (m : nat) (h : Host) : Host :=
  record_call (MoveToMonitor id m)
    (with_windows (update_window id (with_monitor m) (windows h)) h).

(** [change_workspace(ws)]: the window is tagged with the workspace; a null
    workspace object leaves the tag as it is (only the call is recorded). *)
Definition change_workspace (id : WindowId) (ws : option nat) (h : Host) : Host :=
  record_call (ChangeWorkspace id ws)
    (match ws with
     | Some i => with_windows (update_window id (with_workspace (Some i)) (windows h)) h
     | None => h
     end).

(** [located_on_workspace(ws)] *)
Definition located_on_workspace (w : Window) (ws : nat) : bool :=
  on_all_workspaces w || bool_decide (win_workspace w = Some ws).

Definition focus (id : WindowId) (h : Host) : Host :=
  record_call (FocusWindow id) (with_focus_window (Some id) h).

(** The greatest stacking index among the windows, [-1] when there is none. *)
Definition top_stack_index (ws : list Window) : Z :=
  fold_right (fun w acc => Z.max (stack_index w) acc) (-1) ws.

(** Raising a window: it goes to the top of the stack, so it comes last
    among the window actors and its stacking index exceeds every other one;
    the windows below it keep their order and their indices. *)
Definition raise_window (id : WindowId) (ws : list Window) : list Window :=
  let top := top_stack_index ws in
  List.filter (fun w => negb (bool_decide (stable_sequence w = id))) ws ++
  map (with_stack_index (top + 1))
    (List.filter (fun w => bool_decide (stable_sequence w = id)) ws).

(** [activate(timestamp)]: focus and raise. *)
Definition activate_window (id : WindowId) (h : Host) : Host :=
  record_call (ActivateWindow id)
    (with_focus_window (Some id) (with_windows (raise_window id (windows h)) h)).

(** *** Display, seat and workspace-manager methods *)

Definition warp_pointer (x y : Z) (h : Host) : Host :=
  record_call (WarpPointer x y) (with_pointer (x, y) h).

Definition workspace_activate (ws : option nat) (h : Host) : Host :=
  record_call (ActivateWorkspace ws)
    (match ws with
     | Some i => with_active_workspace i h
     | None => h
     end).

Definition append_new_workspace (h : Host) : Host :=
  record_call AppendNewWorkspace (with_n_workspaces (S (n_workspaces h)) h).

Definition set_animations (on : bool) (h : Host) : Host :=
  record_call (SetAnimations on) (with_enable_animations on h).

Definition unset_input_focus (h : Host) : Host :=
  record_call UnsetFocus (with_focus_window None h).

(** ** The engine instance *)

(** [{ relX, relY, wsIndex }], an entry of the relative-position cache. *)
Record SavedPos := mkSavedPos { relX : Z; relY : Z; wsIndex : nat }.

(** An entry of the snapshot taken by [disable]. *)
Record SavedInfo := mkSavedInfo {
  monitorIndex : nat;
  logicalWs : nat;
  info_relX : Z;
  info_relY : Z;
  info_width : Z;
  info_height : Z
}.

(** Continuations handed to [GLib.timeout_add] / [GLib.idle_add]. *)
Inductive Deferred :=
| ForgetProcessed (w : WindowId)                      (* 1000 ms, [_onWindowCreated] *)
| PlaceWindow (w : WindowId) (targetMonitor : nat)    (* idle, [_onWindowCreated] *)
| ReapplyFrame (w : WindowId) (x y width height : Z)  (* 50 ms, after a move across monitors *)
| PointerRestore (x y : Z)                            (* 50 and 150 ms, [_restorePointerPosition] *)
| FocusAfterSwitch (monitor ws : nat)                 (* 200 ms, [_switchWorkspace] *)
| EnableAnimations                                    (* 50 ms, [_activateWorkspaceWithoutAnimation] *)
| ResetInternalSwitch                                 (* 100 ms, [_activateWorkspaceWithoutAnimation] *)
| RestoreSavedSecondary.                              (* 500 ms, [_continueEnable] *)

#[projections(primitive)]
Record Engine := mkEngine {
  bound : bool;                                        (* the settings handles are non-null *)
  monitorWorkspaceMap : list (nat * nat);              (* monitorIndex -> workspaceIndex *)
  savedWindowPositions : gmap WindowId SavedPos;
  recentlyProcessedWindows : gset WindowId;
  windowsPendingPlacement : gmap WindowId nat;         (* windowId -> targetMonitor *)
  savedWindowsBeforeDisable : list (WindowId * SavedInfo);
  lastWindowPerWorkspace : gmap nat WindowId;          (* wsIndex -> windowId *)
  signalsConnected : bool;
  keybindingsRegistered : bool;
  isInternalSwitch : bool;
  indicatorManager : bool;
  highlighters : bool;
  popupBanner : bool;
  timers : list (nat * Deferred)
}.

Definition with_bound (v : bool) (e : Engine) : Engine :=
  let 'mkEngine _ b c d f g h i j k l m n o := e in mkEngine v b c d f g h i j k l m n o.
Definition with_monitorWorkspaceMap (v : list (nat * nat)) (e : Engine) : Engine :=
  let 'mkEngine a _ c d f g h i j k l m n o := e in mkEngine a v c d f g h i j k l m n o.
Definition with_savedWindowPositions (v : gmap WindowId SavedPos) (e : Engine) : Engine :=
  let 'mkEngine a b _ d f g h i j k l m n o := e in mkEngine a b v d f g h i j k l m n o.
Definition with_recentlyProcessedWindows (v : gset WindowId) (e : Engine) : Engine :=
  let 'mkEngine a b c _ f g h i j k l m n o := e in mkEngine a b c v f g h i j k l m n o.
Definition with_windowsPendingPlacement (v : gmap WindowId nat) (e : Engine) : Engine :=
  let 'mkEngine a b c d _ g h i j k l m n o := e in mkEngine a b c d v g h i j k l m n o.
Definition with_savedWindowsBeforeDisable (v : list (WindowId * SavedInfo)) (e : Engine) : Engine :=
  let 'mkEngine a b c d f _ h i j k l m n o := e in mkEngine a b c d f v h i j k l m n o.
Definition with_lastWindowPerWorkspace (v : gmap nat WindowId) (e : Engine) : Engine :=
  let 'mkEngine a b c d f g _ i j k l m n o := e in mkEngine a b c d f g v i j k l m n o.
Definition with_signalsConnected (v : bool) (e : Engine) : Engine :=
  let 'mkEngine a b c d f g h _ j k l m n o := e in mkEngine a b c d f g h v j k l m n o.
Definition with_keybindingsRegistered (v : bool) (e : Engine) : Engine :=
  let 'mkEngine a b c d f g h i _ k l m n o := e in mkEngine a b c d f g h i v k l m n o.
Definition with_isInternalSwitch (v : bool) (e : Engine) : Engine :=
  let 'mkEngine a b c d f g h i j _ l m n o := e in mkEngine a b c d f g h i j v l m n o.
Definition with_indicatorManager (v : bool) (e : Engine) : Engine :=
  let 'mkEngine a b c d f g h i j k _ m n o := e in mkEngine a b c d f g h i j k v m n o.
Definition with_highlighters (v : bool) (e : Engine) : Engine :=
  let 'mkEngine a b c d f g h i j k l _ n o := e in mkEngine a b c d f g h i j k l v n o.
Definition with_popupBanner (v : bool) (e : Engine) : Engine :=
  let 'mkEngine a b c d f g h i j k l m _ o := e in mkEngine a b c d f g h i j k l m v o.
Definition with_timers (v : list (nat * Deferred)) (e : Engine) : Engine :=
  let 'mkEngine a b c d f g h i j k l m n _ := e in mkEngine a b c d f g h i j k l m n v.

(** The extension instance together with the host it runs in. *)
#[projections(primitive)]
Record State := mkState { host : Host; eng : Engine }.

Definition on_host (f : Host -> Host) (st : State) : State := mkState (f (host st)) (eng st).
Definition on_eng (f : Engine -> Engine) (st : State) : State := mkState (host st) (f (eng st)).

Definition timeout_add (delay : nat) (task : Deferred) (st : State) : State :=
  on_eng (fun e => with_timers (timers e ++ [(delay, task)]) e) st.

Definition idle_add (task : Deferred) (st : State) : State := timeout_add 0 task st.

(** [this._monitorWorkspaceMap.set(m, ws)] *)
Definition map_set (m ws : nat) (st : State) : State :=
  on_eng (fun e => with_monitorWorkspaceMap (JsMap.set m ws (monitorWorkspaceMap e)) e) st.

(** [this._monitorWorkspaceMap.get(m) ?? 0] *)
Definition displayed_ws (st : State) (m : nat) : nat :=
  default 0%nat (JsMap.get m (monitorWorkspaceMap (eng st))).

Definition cache_set (id : WindowId) (p : SavedPos) (st : State) : State :=
  on_eng (fun e => with_savedWindowPositions (<[id := p]> (savedWindowPositions e)) e) st.

Definition cache_delete (id : WindowId) (st : State) : State :=
  on_eng (fun e => with_savedWindowPositions (delete id (savedWindowPositions e)) e) st.

Definition pending_delete (id : WindowId) (st : State) : State :=
  on_eng (fun e => with_windowsPendingPlacement (delete id (windowsPendingPlacement e)) e) st.

(** Calls on the collaborators, made only when the collaborator exists. *)
Definition indicator_update (st : State) : State :=
  if indicatorManager (eng st)
  then on_host (record_call (IndicatorUpdate (monitorWorkspaceMap (eng st)))) st
  else st.

Definition banner_show (monitor ws : nat) (st : State) : State :=
  if popupBanner (eng st) then on_host (record_call (BannerShow monitor ws)) st else st.

(** ** Queries *)

Definition getWindowId (w : Window) : WindowId := stable_sequence w.

Definition findWindowById (st : State) (windowId : WindowId) : option Window :=
  find_window windowId (windows (host st)).

Fixpoint first_monitor_showing (ws : nat) (m : list (nat * nat)) : option nat :=
  match m with
  | [] => None
  | (mon, w) :: rest => if decide (w = ws) then Some mon else first_monitor_showing ws rest
  end.

Definition getMonitorForWorkspace (st : State) (ws : nat) : option nat :=
  first_monitor_showing ws (monitorWorkspaceMap (eng st)).

(** [-1] of the source is [None]. *)
Definition getWindowMonitor (h : Host) (w : Window) : option nat :=
  first_monitor (center_in (frame_rect w)) (monitors h).

Definition getMonitorAtPointer (h : Host) : nat :=
  let '(pointerX, pointerY) := pointer h in
  match first_monitor (fun geo => rect_contains geo pointerX pointerY) (monitors h) with
  | Some i => i
  | None => primary_monitor h
  end.

Definition getWindowsOnMonitor (h : Host) (monitorIndex : nat) (includeHidden : bool) : list Window :=
  let monitorGeo := monitor_geometry h monitorIndex in
  List.filter (fun window =>
      negb (skip_taskbar window) &&
      is_normal (window_type window) &&
      (includeHidden || negb (hidden window)) &&
      center_in (frame_rect window) monitorGeo)
    (windows h).

Definition getWindowsOnWorkspace (h : Host) (wsIndex : nat) : list Window :=
  match get_workspace_by_index h wsIndex with
  | None => []
  | Some workspace =>
      List.filter (fun w =>
          negb (skip_taskbar w) &&
          is_normal (window_type w) &&
          negb (on_all_workspaces w) &&
          bool_decide (win_workspace w = Some workspace))
        (windows h)
  end.

Definition getWindowsOnMonitorForWorkspace (h : Host) (monitorIndex wsIndex : nat) : list Window :=
  let monitorGeo := monitor_geometry h monitorIndex in
  let primaryMonitor := primary_monitor h in
  List.filter (fun win =>
      is_normal (window_type win) &&
      negb (hidden win) &&
      negb (minimized win) &&
      center_in (frame_rect win) monitorGeo &&
      (if decide (monitorIndex = primaryMonitor)
       then bool_decide (win_workspace win = Some wsIndex)
       else true))
    (windows h).

(** [while (get_n_workspaces() <= wsIndex) append_new_workspace(...)]: every
    round adds one workspace, so the loop runs [wsIndex + 1 - n] times. *)
Definition ensureWorkspaceExists (wsIndex : nat) (h : Host) : Host :=
  Nat.iter (S wsIndex - n_workspaces h) append_new_workspace h.

(** ** Mapping initialisation *)

Definition initializeMapping (st : State) : State :=
  let nMonitors := length (monitors (host st)) in
  let primaryMonitor := primary_monitor (host st) in
  let currentWs := active_workspace (host st) in
  let st := on_host (ensureWorkspaceExists 9) st in
  fold_left (fun st i =>
      if decide (i = primaryMonitor)
      then map_set i currentWs st
      else
        let wsIndex := ((currentWs + i) mod 10)%nat in
        map_set i wsIndex st)
    (seq 0 nMonitors) st.

(** The [monitors-changed] handler. *)
Definition onMonitorsChanged (st : State) : State :=
  let st := on_eng (fun e => with_monitorWorkspaceMap (JsMap.clear (monitorWorkspaceMap e)) e) st in
  let st := initializeMapping st in
  if indicatorManager (eng st)
  then on_host (record_call (IndicatorRebuild (monitorWorkspaceMap (eng st)))) st
  else st.

(** ** Focus and pointer *)

Definition unfocusAllWindows (st : State) : State := on_host unset_input_focus st.

(** The loop of [_focusWindowAtPosition] that looks for the window of highest
    layer containing the pointer; the accumulator is
    [(targetWindow, highestLayer)]. *)
Definition topmost_containing (pointerX pointerY : Z) (wins : list Window) : option Window :=
  fst (fold_left (fun acc win =>
      let '(targetWindow, highestLayer) := acc in
      if rect_contains (frame_rect win) pointerX pointerY
      then
        if (highestLayer <? layer win) || (match targetWindow with None => true | Some _ => false end)
        then (Some win, layer win)
        else acc
      else acc)
    wins (None, -1)).

(** [[...windows].sort((a, b) => indexOf(actorB) - indexOf(actorA))[0]]: the
    sort is stable, so the head is the first window of greatest stacking
    index. *)
Definition topmost_by_stack (wins : list Window) : option Window :=
  fold_left (fun best win =>
      match best with
      | None => Some win
      | Some b => if stack_index b <? stack_index win then Some win else best
      end)
    wins None.

Definition focusWindowAtPosition (pointerX pointerY : Z) (monitorIndex : nat) (st : State) : State :=
  let currentWs := displayed_ws st monitorIndex in
  let wins := getWindowsOnMonitorForWorkspace (host st) monitorIndex currentWs in
  match wins with
  | [] => unfocusAllWindows st
  | _ =>
      let targetWindow :=
        match topmost_containing pointerX pointerY wins with
        | Some w => Some w
        | None => topmost_by_stack wins
        end in
      match targetWindow with
      | Some w => on_host (focus (getWindowId w)) st
      | None => st
      end
  end.

Definition floor_center_x (rect : Rect) : Z := rect_x rect + rect_width rect / 2.
Definition floor_center_y (rect : Rect) : Z := rect_y rect + rect_height rect / 2.

Definition delete_lastWindow (wsIndex : nat) (st : State) : State :=
  on_eng (fun e => with_lastWindowPerWorkspace (delete wsIndex (lastWindowPerWorkspace e)) e) st.

Definition focusLastOrAtPosition (monitorIndex wsIndex : nat) (pointerX pointerY : Z) (st : State) : State :=
  match lastWindowPerWorkspace (eng st) !! wsIndex with
  | Some lastWindowId =>
      match findWindowById st lastWindowId with
      | Some window =>
          let windowMonitor := getWindowMonitor (host st) window in
          let isOnActiveWs := located_on_workspace window (active_workspace (host st)) in
          if bool_decide (windowMonitor = Some monitorIndex) && isOnActiveWs
          then
            let rect := frame_rect window in
            let st := on_host (warp_pointer (floor_center_x rect) (floor_center_y rect)) st in
            on_host (focus (getWindowId window)) st
          else
            let st := delete_lastWindow wsIndex st in
            focusWindowAtPosition pointerX pointerY monitorIndex st
      | None =>
          let st := delete_lastWindow wsIndex st in
          focusWindowAtPosition pointerX pointerY monitorIndex st
      end
  | None => focusWindowAtPosition pointerX pointerY monitorIndex st
  end.

Definition warpPointerToMonitor (monitorIndex : nat) (st : State) : State :=
  let nMonitors := length (monitors (host st)) in
  if (nMonitors <=? monitorIndex)%nat then st else
  let geo := monitor_geometry (host st) monitorIndex in
  let wsIndex := displayed_ws st monitorIndex in
  let centre := (rect_x geo + rect_width geo / 2, rect_y geo + rect_height geo / 2) in
  (* [(st, focusedWindow)] after looking at the last-focused record *)
  let '(st, focusedWindow) :=
    match lastWindowPerWorkspace (eng st) !! wsIndex with
    | Some lastWindowId =>
        match findWindowById st lastWindowId with
        | Some window =>
            let windowMonitor := getWindowMonitor (host st) window in
            let isOnActiveWs := located_on_workspace window (active_workspace (host st)) in
            if bool_decide (windowMonitor = Some monitorIndex) && isOnActiveWs
            then (st, Some window)
            else if negb isOnActiveWs
            then (delete_lastWindow wsIndex st, None)
            else (st, None)
        | None => (st, None)
        end
    | None => (st, None)
    end in
  let '(targetX, targetY) :=
    match focusedWindow with
    | Some window => (floor_center_x (frame_rect window), floor_center_y (frame_rect window))
    | None => centre
    end in
  let st := on_host (warp_pointer targetX targetY) st in
  let st :=
    match focusedWindow with
    | Some window => on_host (focus (getWindowId window)) st
    | None => focusWindowAtPosition targetX targetY monitorIndex st
    end in
  if indicatorManager (eng st) then on_host (record_call IndicatorHighlight) st else st.

Definition doPointerRestore (savedX savedY : Z) (st : State) : State :=
  let '(currentX, currentY) := pointer (host st) in
  let dx := Z.abs (currentX - savedX) in
  let dy := Z.abs (currentY - savedY) in
  if (5 <? dx) || (5 <? dy)
  then on_host (warp_pointer savedX savedY) st
  else st.

Definition restorePointerPosition (savedX savedY : Z) (st : State) : State :=
  let st := doPointerRestore savedX savedY st in
  let st := timeout_add 50 (PointerRestore savedX savedY) st in
  timeout_add 150 (PointerRestore savedX savedY) st.

Definition activateWorkspaceWithoutAnimation (workspace : option nat) (st : State) : State :=
  let st := on_eng (with_isInternalSwitch true) st in
  if negb (bound (eng st))
  then
    let st := on_host (workspace_activate workspace) st in
    timeout_add 100 ResetInternalSwitch st
  else
    let wasEnabled := enable_animations (host st) in
    let st := if wasEnabled then on_host (set_animations false) st else st in
    let st := on_host (workspace_activate workspace) st in
    let st := if wasEnabled then timeout_add 50 EnableAnimations st else st in
    timeout_add 100 ResetInternalSwitch st.

(** ** Simple switch *)

(** Body of the first loop of [_simpleSwitch_Primary]: stash the relative
    position of a window visible on the monitor, tagged with the workspace
    being left, and tag the window itself with that workspace. *)
Definition stashWindow (monitorGeo : Rect) (previousWs : nat) (previousWsObj : option nat)
    (st : State) (id : WindowId) : State :=
  match findWindowById st id with
  | None => st
  | Some window =>
      let rect := frame_rect window in
      let relX := rect_x rect - rect_x monitorGeo in
      let relY := rect_y rect - rect_y monitorGeo in
      let windowId := getWindowId window in
      let st := cache_set windowId (mkSavedPos relX relY previousWs) st in
      on_host (change_workspace id previousWsObj) st
  end.

(** Body of the second loop of [_simpleSwitch_Primary]: place a window of the
    target workspace from its cache entry, consuming the entry, or at the
    default quarter offset. *)
Definition restoreWindow (monitorGeo : Rect) (targetWs : nat) (st : State) (id : WindowId) : State :=
  let windowId := id in
  let savedPos := savedWindowPositions (eng st) !! windowId in
  let default_placement :=
    (rect_x monitorGeo + rect_width monitorGeo / 4,
     rect_y monitorGeo + rect_height monitorGeo / 4, st) in
  let '(newX, newY, st) :=
    match savedPos with
    | Some savedPos =>
        if decide (wsIndex savedPos = targetWs)
        then (rect_x monitorGeo + relX savedPos,
              rect_y monitorGeo + relY savedPos,
              cache_delete windowId st)
        else default_placement
    | None => default_placement
    end in
  on_host (move_frame id newX newY) st.

Definition simpleSwitch_Primary (monitorIndex previousWs targetWs : nat) (skipActivate : bool)
    (st : State) : State :=
  let monitorGeo := monitor_geometry (host st) monitorIndex in
  let windowsOnMonitor := getWindowsOnMonitor (host st) monitorIndex false in
  let previousWsObj := get_workspace_by_index (host st) previousWs in
  let st := fold_left (stashWindow monitorGeo previousWs previousWsObj)
              (map getWindowId windowsOnMonitor) st in
  let targetWsWindows := getWindowsOnWorkspace (host st) targetWs in
  let targetWsObj := get_workspace_by_index (host st) targetWs in
  let st := fold_left (restoreWindow monitorGeo targetWs)
              (map getWindowId targetWsWindows) st in
  if negb skipActivate
  then activateWorkspaceWithoutAnimation targetWsObj st
  else st.

(** Body of the loops that carry a window from one monitor to the same
    relative place on another one, size preserved ([_simpleSwitch_Secondary]). *)
Definition carryWindow (fromGeo toGeo : Rect) (toMonitor : nat) (retag : State -> WindowId -> State)
    (st : State) (id : WindowId) : State :=
  match findWindowById st id with
  | None => st
  | Some window =>
      let rect := frame_rect window in
      let relX := rect_x rect - rect_x fromGeo in
      let relY := rect_y rect - rect_y fromGeo in
      let newX := rect_x toGeo + relX in
      let newY := rect_y toGeo + relY in
      let width := rect_width rect in
      let height := rect_height rect in
      let st := on_host (move_resize_frame id newX newY width height) st in
      let st := on_host (move_to_monitor id toMonitor) st in
      let st := timeout_add 50 (ReapplyFrame id newX newY width height) st in
      retag st id
  end.

Definition simpleSwitch_Secondary (monitorIndex previousWs targetWs : nat) (st : State) : State :=
  let monitorGeo := monitor_geometry (host st) monitorIndex in
  let primaryMonitor := primary_monitor (host st) in
  let primaryGeo := monitor_geometry (host st) primaryMonitor in
  (* Step 1: the windows on this secondary go back to the primary *)
  let windowsOnMonitor := getWindowsOnMonitor (host st) monitorIndex false in
  let st :=
    fold_left
      (carryWindow monitorGeo primaryGeo primaryMonitor
         (fun st id =>
            let previousWsObj := get_workspace_by_index (host st) previousWs in
            match previousWsObj with
            | Some _ => on_host (change_workspace id previousWsObj) st
            | None => st
            end))
      (map getWindowId windowsOnMonitor) st in
  (* Step 2: the windows of the target workspace come over from the primary *)
  let primaryWindows := getWindowsOnMonitor (host st) primaryMonitor true in
  let currentGlobalWs := active_workspace (host st) in
  let targetWsWindows :=
    List.filter (fun w => bool_decide (win_workspace w = Some targetWs)) primaryWindows in
  fold_left
    (carryWindow primaryGeo monitorGeo monitorIndex
       (fun st id => on_host (change_workspace id (Some currentGlobalWs)) st))
    (map getWindowId targetWsWindows) st.

(** ** Swap *)

(** [{ window, relX, relY, width, height }], collected before anything moves. *)
Record SwapInfo := mkSwapInfo {
  swap_window : WindowId;
  swap_relX : Z;
  swap_relY : Z;
  swap_width : Z;
  swap_height : Z
}.

Definition swapInfo (geo : Rect) (w : Window) : SwapInfo :=
  let rect := frame_rect w in
  mkSwapInfo (getWindowId w) (rect_x rect - rect_x geo) (rect_y rect - rect_y geo)
    (rect_width rect) (rect_height rect).

(** Body of the two moving loops of [_performSwap]. *)
Definition swapMove (toGeo : Rect) (toMonitor primaryMonitor : nat) (newGlobalWsObj : option nat)
    (st : State) (info : SwapInfo) : State :=
  let window := swap_window info in
  let newX := rect_x toGeo + swap_relX info in
  let newY := rect_y toGeo + swap_relY info in
  let st := on_host (move_resize_frame window newX newY (swap_width info) (swap_height info)) st in
  let st := on_host (move_to_monitor window toMonitor) st in
  let st := timeout_add 50 (ReapplyFrame window newX newY (swap_width info) (swap_height info)) st in
  match newGlobalWsObj with
  | Some _ =>
      if decide (toMonitor = primaryMonitor)
      then on_host (change_workspace window newGlobalWsObj) st
      else st
  | None => st
  end.

Definition performSwap (monitor1 monitor2 ws1 ws2 : nat) (skipActivate : bool) (st : State) : State :=
  let primaryMonitor := primary_monitor (host st) in
  let windows1 := getWindowsOnMonitor (host st) monitor1 false in
  let windows2 := getWindowsOnMonitor (host st) monitor2 false in
  let geo1 := monitor_geometry (host st) monitor1 in
  let geo2 := monitor_geometry (host st) monitor2 in
  let info1 := map (swapInfo geo1) windows1 in
  let info2 := map (swapInfo geo2) windows2 in
  let primaryInvolved :=
    bool_decide (monitor1 = primaryMonitor) || bool_decide (monitor2 = primaryMonitor) in
  let newGlobalWsObj :=
    if primaryInvolved
    then
      let newGlobalWs := if decide (monitor1 = primaryMonitor) then ws2 else ws1 in
      get_workspace_by_index (host st) newGlobalWs
    else None in
  let st := fold_left (swapMove geo2 monitor2 primaryMonitor newGlobalWsObj) info1 st in
  let st := fold_left (swapMove geo1 monitor1 primaryMonitor newGlobalWsObj) info2 st in
  let st :=
    match newGlobalWsObj with
    | Some _ =>
        if primaryInvolved && negb skipActivate
        then activateWorkspaceWithoutAnimation newGlobalWsObj st
        else st
    | None => st
    end in
  let st := map_set monitor1 ws2 st in
  map_set monitor2 ws1 st.

(** ** The switch request *)

Definition switchWorkspace (targetWs : nat) (st : State) : State :=
  let '(savedPointerX, savedPointerY) := pointer (host st) in
  let currentMonitor := getMonitorAtPointer (host st) in
  let primaryMonitor := primary_monitor (host st) in
  let previousWs := displayed_ws st currentMonitor in
  if decide (targetWs = previousWs) then st else
  let st := on_host (ensureWorkspaceExists targetWs) st in
  let existingMonitor := getMonitorForWorkspace st targetWs in
  let finish (st : State) : State :=
    let st := indicator_update st in
    let st := banner_show currentMonitor targetWs st in
    let st := restorePointerPosition savedPointerX savedPointerY st in
    timeout_add 200 (FocusAfterSwitch currentMonitor targetWs) st in
  let simple (st : State) : State :=
    let st :=
      if decide (currentMonitor = primaryMonitor)
      then simpleSwitch_Primary currentMonitor previousWs targetWs false st
      else simpleSwitch_Secondary currentMonitor previousWs targetWs st in
    map_set currentMonitor targetWs st in
  match existingMonitor with
  | Some existingMonitor =>
      if decide (existingMonitor = currentMonitor) then finish (simple st) else
      let switchMode := workspace_switch_mode (settings (host st)) in
      if String.eqb switchMode "warp"
      then
        let st := warpPointerToMonitor existingMonitor st in
        let st := indicator_update st in
        banner_show existingMonitor targetWs st
      else finish (performSwap currentMonitor existingMonitor previousWs targetWs false st)
  | None => finish (simple st)
  end.

(** ** External workspace change *)

Definition saveWorkspaceWindowPositions (monitorIndex wsIndex : nat) (st : State) : State :=
  let monitorGeo := monitor_geometry (host st) monitorIndex in
  let wsWindows := getWindowsOnWorkspace (host st) wsIndex in
  fold_left (fun st id =>
      match findWindowById st id with
      | None => st
      | Some window =>
          let rect := frame_rect window in
          let relX := rect_x rect - rect_x monitorGeo in
          let relY := rect_y rect - rect_y monitorGeo in
          cache_set (getWindowId window) (mkSavedPos relX relY wsIndex) st
      end)
    (map getWindowId wsWindows) st.

(** The [active-workspace-changed] handler. *)
Definition onSystemWorkspaceChanged (st : State) : State :=
  if isInternalSwitch (eng st) then st else
  let targetWs := active_workspace (host st) in
  let primaryMonitor := primary_monitor (host st) in
  let previousWs := displayed_ws st primaryMonitor in
  if decide (targetWs = previousWs) then st else
  let existingMonitor := getMonitorForWorkspace st targetWs in
  let simple (st : State) : State :=
    let st := saveWorkspaceWindowPositions primaryMonitor previousWs st in
    map_set primaryMonitor targetWs st in
  let st :=
    match existingMonitor with
    | Some existingMonitor =>
        if decide (existingMonitor = primaryMonitor) then simple st
        else performSwap primaryMonitor existingMonitor previousWs targetWs true st
    | None => simple st
    end in
  indicator_update st.

(** ** New-window placement *)

Definition finishWindowPlacement (window : WindowId) (windowId : option WindowId)
    (warpX warpY : Z) (st : State) : State :=
  let st :=
    match windowId with
    | Some k => pending_delete k st
    | None => st
    end in
  let st :=
    match findWindowById st window with
    | Some _ => on_host (activate_window window) st
    | None => st
    end in
  if warp_pointer_to_focus (settings (host st))
  then on_host (warp_pointer warpX warpY) st
  else st.

(** The workspace a freshly placed window is tagged with: the monitor's
    logical workspace on the primary monitor (when that workspace exists),
    the host's active workspace on a secondary one. *)
Definition assignWorkspace (window : WindowId) (targetMonitor primaryMonitor logicalWs : nat)
    (currentGlobalWs : nat) (st : State) : State :=
  if decide (targetMonitor = primaryMonitor)
  then
    let logicalWsObj := get_workspace_by_index (host st) logicalWs in
    match logicalWsObj with
    | Some _ => on_host (change_workspace window logicalWsObj) st
    | None => st
    end
  else on_host (change_workspace window (Some currentGlobalWs)) st.

Definition moveWindowToMonitor (window : WindowId) (targetMonitor : nat)
    (windowId : option WindowId) (st : State) : State :=
  match findWindowById st window with
  | None =>
      match windowId with
      | Some k => pending_delete k st
      | None => st
      end
  | Some w =>
      let rect := frame_rect w in
      let logicalWs := displayed_ws st targetMonitor in
      let currentGlobalWs := active_workspace (host st) in
      let primaryMonitor := primary_monitor (host st) in
      match get_monitor_geometry (host st) targetMonitor with
      | None => st
      | Some targetGeo =>
          let sourceMonitor := getWindowMonitor (host st) w in
          let sourceGeo := sourceMonitor ≫= get_monitor_geometry (host st) in
          if decide (sourceMonitor = Some targetMonitor)
          then
            let st := on_host (move_to_monitor window targetMonitor) st in
            let st := assignWorkspace window targetMonitor primaryMonitor logicalWs currentGlobalWs st in
            finishWindowPlacement window windowId (floor_center_x rect) (floor_center_y rect) st
          else
            let '(relX, relY) :=
              match sourceGeo with
              | Some sourceGeo => (rect_x rect - rect_x sourceGeo, rect_y rect - rect_y sourceGeo)
              | None => (Z.rem (rect_x rect) (rect_width targetGeo),
                         Z.rem (rect_y rect) (rect_height targetGeo))
              end in
            let newX := rect_x targetGeo + relX in
            let newY := rect_y targetGeo + relY in
            let newX := Z.max (rect_x targetGeo)
                          (Z.min newX (rect_x targetGeo + rect_width targetGeo - rect_width rect)) in
            let newY := Z.max (rect_y targetGeo)
                          (Z.min newY (rect_y targetGeo + rect_height targetGeo - rect_height rect)) in
            let st := on_host (move_frame window newX newY) st in
            let st := on_host (move_to_monitor window targetMonitor) st in
            let st := assignWorkspace window targetMonitor primaryMonitor logicalWs currentGlobalWs st in
            finishWindowPlacement window windowId
              (newX + rect_width rect / 2) (newY + rect_height rect / 2) st
      end
  end.

(** The [window-created] and [map] handlers. *)
Definition onWindowCreated (window : WindowId) (st : State) : State :=
  match findWindowById st window with
  | None => st
  | Some w =>
      let windowId := getWindowId w in
      if bool_decide (windowId ∈ recentlyProcessedWindows (eng st)) then st else
      let windowType := window_type w in
      let skipTaskbar := skip_taskbar w in
      match windowType with
      | OTHER_TYPE => st
      | _ =>
          if skipTaskbar then st else
          let st := on_eng (fun e =>
                      with_recentlyProcessedWindows ({[windowId]} ∪ recentlyProcessedWindows e) e) st in
          let st := timeout_add 1000 (ForgetProcessed windowId) st in
          let targetMonitor := getMonitorAtPointer (host st) in
          let st := on_eng (fun e =>
                      with_windowsPendingPlacement
                        (<[windowId := targetMonitor]> (windowsPendingPlacement e)) e) st in
          idle_add (PlaceWindow windowId targetMonitor) st
      end
  end.

(** ** Disable, enable and the restore of the snapshot *)

Definition snapshot_set (id : WindowId) (info : SavedInfo) (st : State) : State :=
  on_eng (fun e =>
    with_savedWindowsBeforeDisable (JsMap.set id info (savedWindowsBeforeDisable e)) e) st.

Definition restoreWindowsToLogicalWorkspaces (st : State) : State :=
  let nMonitors := length (monitors (host st)) in
  let primaryMonitor := primary_monitor (host st) in
  let currentGlobalWs := active_workspace (host st) in
  let primaryGeo := monitor_geometry (host st) primaryMonitor in
  let st := on_eng (fun e =>
              with_savedWindowsBeforeDisable (JsMap.clear (savedWindowsBeforeDisable e)) e) st in
  fold_left (fun st monitorIndex =>
      if decide (monitorIndex = primaryMonitor) then st else
      let monitorGeo := monitor_geometry (host st) monitorIndex in
      let windowsOnMonitor := getWindowsOnMonitor (host st) monitorIndex false in
      let logicalWs := displayed_ws st monitorIndex in
      fold_left (fun st id =>
          match findWindowById st id with
          | None => st
          | Some window =>
              let rect := frame_rect window in
              let relX := rect_x rect - rect_x monitorGeo in
              let relY := rect_y rect - rect_y monitorGeo in
              let windowId := getWindowId window in
              let st := snapshot_set windowId
                          (mkSavedInfo monitorIndex logicalWs relX relY
                             (rect_width rect) (rect_height rect)) st in
              let newX := rect_x primaryGeo + relX in
              let newY := rect_y primaryGeo + relY in
              let st := on_host (move_resize_frame id newX newY (rect_width rect) (rect_height rect)) st in
              on_host (change_workspace id (Some currentGlobalWs)) st
          end)
        (map getWindowId windowsOnMonitor) st)
    (seq 0 nMonitors) st.

Definition restoreSystemKeybindings (h : Host) : Host :=
  match saved_system_keybindings (settings h) with
  | [] => h
  | savedBindings =>
      let h := fold_left (fun h kv =>
                  with_wm_keybindings (<[fst kv := snd kv]> (wm_keybindings h)) h)
                savedBindings h in
      with_settings (with_saved_system_keybindings [] (settings h)) h
  end.

Definition destroyCollaborators (st : State) : State :=
  let st :=
    if indicatorManager (eng st)
    then on_eng (with_indicatorManager false) (on_host (record_call IndicatorDestroy) st)
    else st in
  let st := on_eng (with_highlighters false) st in
  on_eng (with_popupBanner false) st.

Definition disable (st : State) : State :=
  let st := restoreWindowsToLogicalWorkspaces st in
  let st := on_eng (with_signalsConnected false) st in
  let st := on_eng (with_keybindingsRegistered false) st in
  let st := on_host restoreSystemKeybindings st in
  let st := destroyCollaborators st in
  let st := on_eng (fun e => with_monitorWorkspaceMap (JsMap.clear (monitorWorkspaceMap e)) e) st in
  let st := on_eng (with_recentlyProcessedWindows ∅) st in
  let st := on_eng (with_windowsPendingPlacement ∅) st in
  on_eng (with_bound false) st.

Definition restoreSavedSecondaryWindows (st : State) : State :=
  match savedWindowsBeforeDisable (eng st) with
  | [] => st
  | saved =>
      let currentGlobalWs := active_workspace (host st) in
      let st :=
        fold_left (fun st entry =>
            let '(windowId, info) := entry in
            match findWindowById st windowId with
            | None => st
            | Some _ =>
                match get_monitor_geometry (host st) (monitorIndex info) with
                | None => st
                | Some monitorGeo =>
                    let newX := rect_x monitorGeo + info_relX info in
                    let newY := rect_y monitorGeo + info_relY info in
                    let st := on_host (move_resize_frame windowId newX newY
                                         (info_width info) (info_height info)) st in
                    let st := on_host (move_to_monitor windowId (monitorIndex info)) st in
                    let st := on_host (change_workspace windowId (Some currentGlobalWs)) st in
                    timeout_add 50 (ReapplyFrame windowId newX newY
                                      (info_width info) (info_height info)) st
                end
            end)
          saved st in
      let st :=
        fold_left (fun st entry => map_set (monitorIndex (snd entry)) (logicalWs (snd entry)) st)
          saved st in
      let st := on_eng (fun e =>
                  with_savedWindowsBeforeDisable (JsMap.clear (savedWindowsBeforeDisable e)) e) st in
      indicator_update st
  end.

(** Conflict detection of [_overrideSystemKeybindings] for one family of
    shortcuts; the accumulator is [(savedBindings, hasConflicts)]. *)
Definition collectConflicts (extKey sysKey : nat -> string) (h : Host)
    (acc : list (string * list string) * bool) : list (string * list string) * bool :=
  fold_left (fun acc i =>
      let '(savedBindings, hasConflicts) := acc in
      match strv (settings h) !! extKey i, wm_keybindings h !! sysKey i with
      | Some extBindings, Some sysBindings =>
          let hasConflicts :=
            hasConflicts ||
            existsb (fun extBinding => bool_decide (extBinding ∈ sysBindings)) extBindings in
          match sysBindings with
          | [] => (savedBindings, hasConflicts)
          | _ => (JsMap.set (sysKey i) sysBindings savedBindings, hasConflicts)
          end
      | _, _ => acc
      end)
    (seq 0 10) acc.

Definition overrideSystemKeybindings (h : Host) : Host :=
  let acc := collectConflicts switch_key
               (fun i => String.append "switch-to-workspace-" (num (i + 1))) h ([], false) in
  let '(savedBindings, hasConflicts) :=
    collectConflicts move_key
      (fun i => String.append "move-to-workspace-" (num (i + 1))) h acc in
  if hasConflicts
  then
    let h := with_settings (with_saved_system_keybindings savedBindings (settings h)) h in
    fold_left (fun h sysKey => with_wm_keybindings (<[sysKey := []]> (wm_keybindings h)) h)
      (JsMap.keys savedBindings) h
  else h.

(** [enable] when the host prerequisites already hold (or were accepted). *)
Definition continueEnable (st : State) : State :=
  let st := on_eng (with_bound true) st in
  let st := on_host (fun h => with_settings (updateWorkspaceKeybindingSettings (settings h)) h) st in
  let st := on_host overrideSystemKeybindings st in
  let st := initializeMapping st in
  let st := on_eng (with_keybindingsRegistered true) st in
  let st := on_eng (with_signalsConnected true) st in
  let st :=
    if show_workspace_indicator (settings (host st))
    then on_eng (with_indicatorManager true)
           (on_host (record_call (IndicatorCreate (monitorWorkspaceMap (eng st)))) st)
    else st in
  let st := on_eng (with_highlighters true) st in
  let st := on_eng (with_popupBanner true) st in
  match savedWindowsBeforeDisable (eng st) with
  | [] => st
  | _ => timeout_add 500 RestoreSavedSecondary st
  end.

(** ** Deferred continuations *)

Definition runDeferred (task : Deferred) (st : State) : State :=
  match task with
  | ForgetProcessed windowId =>
      on_eng (fun e =>
        with_recentlyProcessedWindows (recentlyProcessedWindows e ∖ {[windowId]}) e) st
  | PlaceWindow window targetMonitor =>
      moveWindowToMonitor window targetMonitor (Some window) st
  | ReapplyFrame w x y width height =>
      match findWindowById st w with
      | Some _ => on_host (move_resize_frame w x y width height) st
      | None => st
      end
  | PointerRestore savedX savedY => doPointerRestore savedX savedY st
  | FocusAfterSwitch focusTargetMonitor focusTargetWs =>
      let '(pointerX, pointerY) := pointer (host st) in
      let st := focusLastOrAtPosition focusTargetMonitor focusTargetWs pointerX pointerY st in
      if highlighters (eng st) then on_host (record_call HighlightUpdate) st else st
  | EnableAnimations =>
      if bound (eng st) then on_host (set_animations true) st else st
  | ResetInternalSwitch => on_eng (with_isInternalSwitch false) st
  | RestoreSavedSecondary => restoreSavedSecondaryWindows st
  end.

(** ** Moving the focused window to a workspace *)

(** [global.display.get_focus_window()]: the focused window, when it is a
    live one. *)
Definition get_focus_window (st : State) : option Window :=
  focus_window (host st) ≫= findWindowById st.

Definition moveWindowToWorkspace (targetWs : nat) (st : State) : State :=
  let '(savedPointerX, savedPointerY) := pointer (host st) in
  match get_focus_window st with
  | None => st
  | Some focusedWindow =>
      if negb (is_normal (window_type focusedWindow)) then st else
      let currentWs := win_workspace focusedWindow in
      let currentMonitor := getMonitorAtPointer (host st) in
      if decide (currentWs = Some targetWs) then st else
      let st := on_host (ensureWorkspaceExists targetWs) st in
      let targetWsObj := get_workspace_by_index (host st) targetWs in
      let primaryMonitor := primary_monitor (host st) in
      let primaryGeo := monitor_geometry (host st) primaryMonitor in
      let rect := frame_rect focusedWindow in
      let monitorGeo := monitor_geometry (host st) currentMonitor in
      let relX := rect_x rect - rect_x monitorGeo in
      let relY := rect_y rect - rect_y monitorGeo in
      let windowId := getWindowId focusedWindow in
      let st := cache_set windowId (mkSavedPos relX relY targetWs) st in
      let newX := rect_x primaryGeo + relX in
      let newY := rect_y primaryGeo + relY in
      let st := on_host (move_frame windowId newX newY) st in
      let st := on_host (change_workspace windowId targetWsObj) st in
      restorePointerPosition savedPointerX savedPointerY st
  end.

(** ** Focus changes *)

Definition lastWindow_set (wsIndex : nat) (id : WindowId) (st : State) : State :=
  on_eng (fun e => with_lastWindowPerWorkspace (<[wsIndex := id]> (lastWindowPerWorkspace e)) e) st.

(** [this._windowsPendingPlacement.has(windowId)] *)
Definition pending_has (id : WindowId) (st : State) : bool :=
  match windowsPendingPlacement (eng st) !! id with Some _ => true | None => false end.

(** The second half of [_onFocusWindowChanged], the warp-pointer-to-focus
    feature. *)
Definition warpPointerToFocus (focusWindow : option Window) (st : State) : State :=
  if negb (warp_pointer_to_focus (settings (host st))) then st else
  match focusWindow with
  | None => st
  | Some focusWindow =>
      let windowId := getWindowId focusWindow in
      if pending_has windowId st then st else
      if negb (is_normal (window_type focusWindow)) then st else
      let rect := frame_rect focusWindow in
      let '(pointerX, pointerY) := pointer (host st) in
      if rect_contains rect pointerX pointerY then st else
      on_host (warp_pointer (floor_center_x rect) (floor_center_y rect)) st
  end.

(** The [notify::focus-window] handler. *)
Definition onFocusWindowChanged (st : State) : State :=
  let focusWindow := get_focus_window st in
  let pointerMonitor := getMonitorAtPointer (host st) in
  match focusWindow with
  | Some fw =>
      if is_normal (window_type fw)
      then
        let st :=
          if negb (isInternalSwitch (eng st))
          then
            match getWindowMonitor (host st) fw with
            | Some windowMonitor =>
                match JsMap.get windowMonitor (monitorWorkspaceMap (eng st)) with
                | Some wsIndex => lastWindow_set wsIndex (getWindowId fw) st
                | None => st
                end
            | None => st
            end
          else st in
        let focusWindowMonitor := first_monitor (center_in (frame_rect fw)) (monitors (host st)) in
        match focusWindowMonitor with
        | Some m =>
            if negb (bool_decide (m = pointerMonitor)) && negb (pending_has (getWindowId fw) st)
            then
              let '(pointerX, pointerY) := pointer (host st) in
              focusWindowAtPosition pointerX pointerY pointerMonitor st
            else warpPointerToFocus focusWindow st
        | None => warpPointerToFocus focusWindow st
        end
      else warpPointerToFocus focusWindow st
  | None => warpPointerToFocus focusWindow st
  end.

(** ** Cycling the focus *)

(** [windows.indexOf(focusedWindow)]; [-1] is [None]. *)
Fixpoint index_of (id : WindowId) (l : list Window) : option nat :=
  match l with
  | [] => None
  | w :: rest =>
      if decide (stable_sequence w = id) then Some 0%nat else S <$> index_of id rest
  end.

(** [_cycleFocus]; [sortWindows] is [Array.prototype.sort] with the
    comparator [compareWindows] (what it returns for a comparator that is not
    a consistent order is left to the engine, so the statements only assume
    it permutes its argument). *)
Definition cycleFocus (sortWindows : list Window -> list Window) (forward : bool)
    (st : State) : State :=
  let currentMonitor := getMonitorAtPointer (host st) in
  let currentWs := displayed_ws st currentMonitor in
  let wins := getWindowsOnMonitorForWorkspace (host st) currentMonitor currentWs in
  match wins with
  | [] => st
  | _ =>
      let wins := sortWindows wins in
      let currentIndex := focus_window (host st) ≫= fun id => index_of id wins in
      let nextIndex :=
        match currentIndex with
        | None => 0%nat
        | Some currentIndex =>
            if forward
            then ((currentIndex + 1) mod length wins)%nat
            else ((currentIndex + length wins - 1) mod length wins)%nat
        end in
      match wins !! nextIndex with
      | None => st
      | Some nextWindow =>
          let st :=
            if raise_on_cycle_focus (settings (host st))
            then on_host (activate_window (getWindowId nextWindow)) st
            else on_host (focus (getWindowId nextWindow)) st in
          if warp_pointer_to_focus (settings (host st))
          then
            let rect := frame_rect nextWindow in
            on_host (warp_pointer (floor_center_x rect) (floor_center_y rect)) st
          else st
      end
  end.

(** ** Refresh after a screen unlock *)

Definition refreshSecondaryWindows (st : State) : State :=
  let nMonitors := length (monitors (host st)) in
  let primaryMonitor := primary_monitor (host st) in
  let currentGlobalWs := active_workspace (host st) in
  fold_left (fun st monitorIndex =>
      if decide (monitorIndex = primaryMonitor) then st else
      match JsMap.get monitorIndex (monitorWorkspaceMap (eng st)) with
      | None => st
      | Some logicalWs =>
          let windowsOnMonitor := getWindowsOnMonitor (host st) monitorIndex false in
          fold_left (fun st id =>
              match findWindowById st id with
              | None => st
              | Some window =>
                  let rect := frame_rect window in
                  let st := on_host (change_workspace id (Some currentGlobalWs)) st in
                  let st := on_host (move_resize_frame id (rect_x rect) (rect_y rect)
                                       (rect_width rect) (rect_height rect)) st in
                  timeout_add 50 (ReapplyFrame id (rect_x rect) (rect_y rect)
                                    (rect_width rect) (rect_height rect)) st
              end)
            (map getWindowId windowsOnMonitor) st
      end)
    (seq 0 nMonitors) st.

(** ** Host prerequisites *)

(** The two keys of [org.gnome.mutter] the extension depends on. *)
Inductive MutterKey := WorkspacesOnlyOnPrimary | DynamicWorkspaces.

Record MutterSettings := mkMutterSettings {
  workspaces_only_on_primary : bool;
  dynamic_workspaces : bool
}.

(** [{ key, current, required }] *)
Record Change := mkChange {
  change_key : MutterKey;
  change_current : bool;
  change_required : bool
}.

Definition mutter_get_boolean (key : MutterKey) (m : MutterSettings) : bool :=
  match key with
  | WorkspacesOnlyOnPrimary => workspaces_only_on_primary m
  | DynamicWorkspaces => dynamic_workspaces m
  end.

Definition mutter_set_boolean (key : MutterKey) (v : bool) (m : MutterSettings) : MutterSettings :=
  match key with
  | WorkspacesOnlyOnPrimary => mkMutterSettings v (dynamic_workspaces m)
  | DynamicWorkspaces => mkMutterSettings (workspaces_only_on_primary m) v
  end.

Definition checkPrerequisites (m : MutterSettings) : list Change :=
  let changes := [] in
  let changes :=
    if negb (mutter_get_boolean WorkspacesOnlyOnPrimary m)
    then changes ++ [mkChange WorkspacesOnlyOnPrimary false true]
    else changes in
  if mutter_get_boolean DynamicWorkspaces m
  then changes ++ [mkChange DynamicWorkspaces true false]
  else changes.

Definition applyPrerequisiteChanges (changes : list Change) (m : MutterSettings) : MutterSettings :=
  fold_left (fun m change => mutter_set_boolean (change_key change) (change_required change) m)
    changes m.

(** ** Labels of the indicator and of the banner *)

(** [wsIndexToDisplayKey] of the top-bar indicator. *)
Definition wsIndexToDisplayKey (wsIndex : nat) : string := num ((wsIndex + 1) mod 10).

(** The two labels [PopupBanner.show] writes: [String(monitorIndex + 1)] and
    [String(wsIndex + 1)]. *)
Definition bannerLabels (monitorIndex wsIndex : nat) : string * string :=
  (num (monitorIndex + 1), num (wsIndex + 1)).

(** ** The loop bodies of the snapshot and of its restore, by name *)

(** Body of the inner loop of [_restoreWindowsToLogicalWorkspaces]. *)
Definition snapshotWindow (monitorGeo : Rect) (monitorIndex logicalWs : nat)
    (primaryGeo : Rect) (currentGlobalWs : nat) (st : State) (id : WindowId) : State :=
  match findWindowById st id with
  | None => st
  | Some window =>
      let rect := frame_rect window in
      let relX := rect_x rect - rect_x monitorGeo in
      let relY := rect_y rect - rect_y monitorGeo in
      let windowId := getWindowId window in
      let st := snapshot_set windowId
                  (mkSavedInfo monitorIndex logicalWs relX relY
                     (rect_width rect) (rect_height rect)) st in
      let newX := rect_x primaryGeo + relX in
      let newY := rect_y primaryGeo + relY in
      let st := on_host (move_resize_frame id newX newY (rect_width rect) (rect_height rect)) st in
      on_host (change_workspace id (Some currentGlobalWs)) st
  end.

(** Body of the first loop of [_restoreSavedSecondaryWindows]. *)
Definition restoreSavedWindow (currentGlobalWs : nat) (st : State)
    (entry : WindowId * SavedInfo) : State :=
  let '(windowId, info) := entry in
  match findWindowById st windowId with
  | None => st
  | Some _ =>
      match get_monitor_geometry (host st) (monitorIndex info) with
      | None => st
      | Some monitorGeo =>
          let newX := rect_x monitorGeo + info_relX info in
          let newY := rect_y monitorGeo + info_relY info in
          let st := on_host (move_resize_frame windowId newX newY
                               (info_width info) (info_height info)) st in
          let st := on_host (move_to_monitor windowId (monitorIndex info)) st in
          let st := on_host (change_workspace windowId (Some currentGlobalWs)) st in
          timeout_add 50 (ReapplyFrame windowId newX newY
                            (info_width info) (info_height info)) st
      end
  end.

(** ** Predicates used by the statements *)

(** No two distinct monitors are mapped to the same workspace. *)
Definition mapping_injective (m : list (nat * nat)) : Prop :=
  forall m1 m2 ws, JsMap.get m1 m = Some ws -> JsMap.get m2 m = Some ws -> m1 = m2.

(** The frame lies inside the monitor rectangle. *)
Definition frame_within (rect geo : Rect) : Prop :=
  rect_x geo <= rect_x rect /\
  rect_x rect + rect_width rect <= rect_x geo + rect_width geo /\
  rect_y geo <= rect_y rect /\
  rect_y rect + rect_height rect <= rect_y geo + rect_height geo.

Definition is_activate (c : HostCall) : bool :=
  match c with ActivateWorkspace _ => true | _ => false end.

(** Number of host-level workspace [activate] calls in a trace. *)
Definition activate_calls (l : list HostCall) : nat := length (List.filter is_activate l).

Definition window_ids (st : State) : list WindowId := map stable_sequence (windows (host st)).

(** A window list that differs from another one only by windows retagged
    with workspace [act]. *)
Definition retagged (act : nat) (ws' ws : list Window) : Prop :=
  List.Forall2 (fun w' w => w' = w \/ w' = with_workspace (Some act) w) ws' ws.

(** A window carried from one monitor to another: same offset inside the
    monitor, same size, associated with the new monitor. *)
Definition carried (fromGeo toGeo : Rect) (toMonitor : nat) (w : Window) : Window :=
  let rect := frame_rect w in
  with_monitor toMonitor
    (with_frame (mkRect (rect_x toGeo + (rect_x rect - rect_x fromGeo))
                   (rect_y toGeo + (rect_y rect - rect_y fromGeo))
                   (rect_width rect) (rect_height rect)) w).

(** The optional retagging that follows a move: with an existing workspace
    object the window is tagged with it, with none it keeps its tag. *)
Definition tagged (ws : option nat) (w : Window) : Window :=
  match ws with Some i => with_workspace (Some i) w | None => w end.

(** What the window-moving loops keep: the window ids, the screen layout
    and the workspace pool. *)
Definition same_layout (st s : State) : Prop :=
  window_ids s = window_ids st /\
  monitors (host s) = monitors (host st) /\
  primary_monitor (host s) = primary_monitor (host st) /\
  n_workspaces (host s) = n_workspaces (host st) /\
  active_workspace (host s) = active_workspace (host st).

(** What the snapshot loop keeps of the state it started from. *)
Definition snapshot_stable (st s : State) : Prop :=
  same_layout st s /\ monitorWorkspaceMap (eng s) = monitorWorkspaceMap (eng st).

(** The remembered window of a monitor: the window recorded as last focused
    for the workspace the monitor displays, when it is alive, centred on that
    monitor and located on the active workspace. *)
Definition rememberedWindow (st : State) (monitorIndex : nat) : option Window :=
  match lastWindowPerWorkspace (eng st) !! displayed_ws st monitorIndex with
  | Some lastWindowId =>
      match findWindowById st lastWindowId with
      | Some window =>
          if bool_decide (getWindowMonitor (host st) window = Some monitorIndex) &&
             located_on_workspace window (active_workspace (host st))
          then Some window
          else None
      | None => None
      end
  | None => None
  end.

(** The point [_warpPointerToMonitor] warps to: the centre of the remembered
    window, or the centre of the monitor when there is none. *)
Definition warpTarget (st : State) (monitorIndex : nat) : Z * Z :=
  match rememberedWindow st monitorIndex with
  | Some window => (floor_center_x (frame_rect window), floor_center_y (frame_rect window))
  | None =>
      let geo := monitor_geometry (host st) monitorIndex in
      (rect_x geo + rect_width geo / 2, rect_y geo + rect_height geo / 2)
  end.

(** No point of the screen belongs to two monitors. *)
Definition monitors_disjoint (h : Host) : Prop :=
  forall i j gi gj px py,
    monitors h !! i = Some gi -> monitors h !! j = Some gj ->
    rect_contains gi px py = true -> rect_contains gj px py = true -> i = j.

(** ** Concrete states used as examples *)

Definition sample_settings : Settings :=
  mkSettings "Alt" "swap" false true false ∅ [].

Definition sample_window (id : WindowId) (x y width height : Z) (ws : option nat) : Window :=
  mkWindow id (mkRect x y width height) NORMAL false false false false ws 0 2 0.

Definition sample_host (geos : list Rect) (primary : nat) (ptr : Z * Z) (active : nat)
    (wins : list Window) : Host :=
  mkHost geos primary ptr 10 active wins None true ∅ sample_settings [].

Definition sample_engine (m : list (nat * nat)) : Engine :=
  mkEngine true m ∅ ∅ ∅ [] ∅ true true false false true true [].

Definition left_monitor : Rect := mkRect 0 0 1920 1080.
Definition right_monitor : Rect := mkRect 1920 0 1920 1080.

(** The part of the engine that only the mapping operations themselves
    write: every map, without the timer queue and the internal-switch flag. *)
Definition engine_maps (e : Engine) :=
  (monitorWorkspaceMap e, savedWindowPositions e, windowsPendingPlacement e,
   savedWindowsBeforeDisable e, lastWindowPerWorkspace e, recentlyProcessedWindows e).

(** The workspace tag [_moveWindowToMonitor] leaves on the window. *)
Definition placement_tag (st : State) (targetMonitor : nat) (w : Window) : option nat :=
  if decide (targetMonitor = primary_monitor (host st))
  then
    if (displayed_ws st targetMonitor <? n_workspaces (host st))%nat
    then Some (displayed_ws st targetMonitor)
    else win_workspace w
  else Some (active_workspace (host st)).

(** ** Proof automation *)

(** Case analysis on every conditional of an operation, then computation. *)
Ltac frame := intros; repeat case_match; simplify_eq; reflexivity.

(** Unfolding of the host methods down to the call trace. *)
Ltac unfold_host_calls :=
  cbn [host eng on_host on_eng timeout_add calls record_call with_calls with_windows
         with_pointer with_enable_animations with_active_workspace with_focus_window
         change_workspace move_to_monitor move_resize_frame move_frame warp_pointer
         set_animations workspace_activate].

(** Counting [activate] calls in the trace an operation leaves. *)
Ltac count_calls :=
  repeat first [case_match | progress unfold_host_calls];
  unfold activate_calls; rewrite ?List.filter_app, ?List.length_app; simpl;
  rewrite ?Nat.add_0_r, ?Nat.add_1_r; reflexivity.

(** All equalities between monitors that injectivity of the map gives from
    the lookups at hand. *)
Ltac saturate_injective Hinj :=
  repeat match goal with
  | Ha : JsMap.get ?x ?m = Some ?v, Hb : JsMap.get ?y ?m = Some ?v |- _ =>
      lazymatch goal with
      | _ : x = y |- _ => fail
      | _ => assert (x = y) by (exact (Hinj x y v Ha Hb))
      end
  end.

(** * Properties *)

(** ** Facts about the insertion-ordered map *)

Module JsMapFacts.
Section Facts.
Context {K V : Type} `{EqDecision K}.
Implicit Types (m : list (K * V)) (k : K) (v : V).

Lemma get_set_same k v m : JsMap.get k (JsMap.set k v m) = Some v.
Proof.
  induction m as [|[k' v'] m IH]; simpl.
  - destruct (decide (k = k)); congruence.
  - destruct (decide (k' = k)) as [->|Hne]; simpl.
    + destruct (decide (k = k)); congruence.
    + destruct (decide (k' = k)); [contradiction | exact IH].
Qed.

Lemma get_set_other k k' v m : k <> k' -> JsMap.get k' (JsMap.set k v m) = JsMap.get k' m.
Proof.
  intros Hne. induction m as [|[k0 v0] m IH]; simpl.
  - destruct (decide (k = k')); congruence.
  - destruct (decide (k0 = k)) as [->|Hk]; simpl.
    + destruct (decide (k = k')); congruence.
    + destruct (decide (k0 = k')); [reflexivity | exact IH].
Qed.

Lemma set_same_value k v m : JsMap.get k m = Some v -> JsMap.set k v m = m.
Proof.
  induction m as [|[k0 v0] m IH]; simpl; [discriminate|].
  destruct (decide (k0 = k)) as [->|Hk]; intros Hg.
  - congruence.
  - rewrite IH by exact Hg. reflexivity.
Qed.

Lemma set_set_same k v v' m : JsMap.set k v (JsMap.set k v' m) = JsMap.set k v m.
Proof.
  induction m as [|[k0 v0] m IH]; simpl.
  - destruct (decide (k = k)); congruence.
  - destruct (decide (k0 = k)) as [->|Hk]; simpl.
    + destruct (decide (k = k)); congruence.
    + destruct (decide (k0 = k)); [contradiction | rewrite IH; reflexivity].
Qed.

Lemma set_comm k1 k2 v1 v2 m :
  k1 <> k2 -> is_Some (JsMap.get k1 m) ->
  JsMap.set k1 v1 (JsMap.set k2 v2 m) = JsMap.set k2 v2 (JsMap.set k1 v1 m).
Proof.
  intros Hne. induction m as [|[k0 v0] m IH]; simpl; intros Hs.
  - destruct Hs as [? Hs]; discriminate.
  - destruct (decide (k0 = k2)) as [E2|H2], (decide (k0 = k1)) as [E1|H1]; simpl.
    + congruence.
    + destruct (decide (k0 = k1)); [congruence|].
      destruct (decide (k0 = k2)); congruence.
    + destruct (decide (k0 = k1)); [|congruence].
      destruct (decide (k0 = k2)); congruence.
    + destruct (decide (k0 = k1)); [congruence|].
      destruct (decide (k0 = k2)); [congruence|].
      rewrite IH by exact Hs. reflexivity.
Qed.

Lemma keys_set_present k v m :
  is_Some (JsMap.get k m) -> JsMap.keys (JsMap.set k v m) = JsMap.keys m.
Proof.
  unfold JsMap.keys. induction m as [|[k0 v0] m IH]; simpl; intros Hs.
  - destruct Hs as [? Hs]; discriminate.
  - destruct (decide (k0 = k)); simpl; [reflexivity|].
    rewrite IH by exact Hs. reflexivity.
Qed.
End Facts.
End JsMapFacts.

(** ** The monitor under the pointer *)

Lemma first_monitor_from_range p i geos k :
  first_monitor_from p i geos = Some k -> (i <= k < i + length geos)%nat.
Proof.
  revert i. induction geos as [|geo rest IH]; simpl; intros i Hk; [discriminate|].
  destruct (p geo).
  - inversion Hk; subst. lia.
  - apply IH in Hk. lia.
Qed.

Lemma first_monitor_from_holds p i geos k :
  first_monitor_from p i geos = Some k ->
  exists geo, geos !! (k - i)%nat = Some geo /\ p geo = true.
Proof.
  revert i. induction geos as [|geo rest IH]; simpl; intros i Hk; [discriminate|].
  destruct (p geo) eqn:Hp.
  - inversion Hk; subst. exists geo. rewrite Nat.sub_diag. split; [reflexivity | exact Hp].
  - pose proof (first_monitor_from_range _ _ _ _ Hk) as Hr.
    destruct (IH _ Hk) as (g & Hg & Hpg). exists g. split; [|exact Hpg].
    replace (k - i)%nat with (S (k - S i)) by lia. exact Hg.
Qed.

Lemma first_monitor_from_none p i geos :
  (forall geo, In geo geos -> p geo = false) -> first_monitor_from p i geos = None.
Proof.
  revert i. induction geos as [|geo rest IH]; simpl; intros i Hall; [reflexivity|].
  rewrite (Hall geo) by (left; reflexivity). apply IH. intros g Hg. apply Hall. right; exact Hg.
Qed.

(** C10. With the primary monitor being one of the monitors, the
    monitor-at-pointer lookup returns, for every pointer position, the index
    of an existing monitor: the first monitor whose rectangle contains the
    pointer, and the primary monitor when no rectangle contains it. *)
Theorem getMonitorAtPointer_total (h : Host) :
  (primary_monitor h < length (monitors h))%nat ->
  (getMonitorAtPointer h < length (monitors h))%nat /\
  is_Some (get_monitor_geometry h (getMonitorAtPointer h)) /\
  ((forall geo, In geo (monitors h) -> rect_contains geo (fst (pointer h)) (snd (pointer h)) = false) ->
   getMonitorAtPointer h = primary_monitor h) /\
  ((exists geo, In geo (monitors h) /\ rect_contains geo (fst (pointer h)) (snd (pointer h)) = true) ->
   exists geo, get_monitor_geometry h (getMonitorAtPointer h) = Some geo /\
               rect_contains geo (fst (pointer h)) (snd (pointer h)) = true).
Proof.
  intros Hprim.
  assert (Hlt : (getMonitorAtPointer h < length (monitors h))%nat).
  { unfold getMonitorAtPointer, first_monitor. destruct (pointer h) as [px py].
    destruct (first_monitor_from _ 0 (monitors h)) as [k|] eqn:Hk; [|exact Hprim].
    apply first_monitor_from_range in Hk. lia. }
  split; [exact Hlt|]. split; [|split].
  - unfold get_monitor_geometry. apply lookup_lt_is_Some_2. exact Hlt.
  - intros Hnone. unfold getMonitorAtPointer, first_monitor.
    destruct (pointer h) as [px py]; simpl in Hnone.
    rewrite first_monitor_from_none by exact Hnone. reflexivity.
  - intros (geo & Hin & Hc). unfold getMonitorAtPointer, first_monitor, get_monitor_geometry.
    destruct (pointer h) as [px py]; simpl in *.
    destruct (first_monitor_from _ 0 (monitors h)) as [k|] eqn:Hk.
    + destruct (first_monitor_from_holds _ _ _ _ Hk) as (g & Hg & Hpg).
      rewrite Nat.sub_0_r in Hg. exists g. split; assumption.
    + exfalso. clear Hprim Hlt. revert Hk Hin Hc. generalize 0%nat.
      induction (monitors h) as [|g rest IH]; simpl; intros i Hk Hin Hc; [contradiction|].
      destruct (rect_contains g px py) eqn:Hg; [discriminate Hk|].
      destruct Hin as [->|Hin]; [congruence|]. eapply IH; eassumption.
Qed.

(** A pointer left of both monitors: the lookup falls back to the primary. *)
Lemma getMonitorAtPointer_total_witness :
  let h := sample_host [left_monitor; right_monitor] 1 (-5, 40) 0 [] in
  (getMonitorAtPointer h < length (monitors h))%nat /\ getMonitorAtPointer h = 1%nat.
Proof.
  intros h.
  destruct (getMonitorAtPointer_total h) as (Hlt & _ & Hfall & _).
  - simpl. lia.
  - split; [exact Hlt|]. apply Hfall. simpl.
    intros geo [<-|[<-|[]]]; reflexivity.
Defined.

(** ** The ordering used by cycle-focus and swap-window-position *)

Lemma compareWindows_antisym (a b : Window) : compareWindows b a = - compareWindows a b.
Proof.
  unfold compareWindows; simpl.
  replace (rect_y (frame_rect b) - rect_y (frame_rect a))
    with (- (rect_y (frame_rect a) - rect_y (frame_rect b))) by lia.
  rewrite Z.abs_opp.
  destruct (Z.abs (rect_y (frame_rect a) - rect_y (frame_rect b)) <? 50); lia.
Qed.

Lemma same_band_close (a b : Window) :
  band a = band b -> Z.abs (rect_y (frame_rect a) - rect_y (frame_rect b)) < 50.
Proof.
  unfold band. intros Hb.
  pose proof (Z.div_mod (rect_y (frame_rect a)) 50 ltac:(lia)) as Ha.
  pose proof (Z.div_mod (rect_y (frame_rect b)) 50 ltac:(lia)) as Hb'.
  pose proof (Z.mod_pos_bound (rect_y (frame_rect a)) 50 ltac:(lia)).
  pose proof (Z.mod_pos_bound (rect_y (frame_rect b)) 50 ltac:(lia)).
  rewrite Hb in Ha. lia.
Qed.

Lemma far_apart_bands (a b : Window) :
  rect_y (frame_rect a) + 50 <= rect_y (frame_rect b) -> band a < band b.
Proof.
  unfold band. intros Hfar.
  pose proof (Z.div_mod (rect_y (frame_rect a)) 50 ltac:(lia)) as Ha.
  pose proof (Z.div_mod (rect_y (frame_rect b)) 50 ltac:(lia)) as Hb.
  pose proof (Z.mod_pos_bound (rect_y (frame_rect a)) 50 ltac:(lia)).
  pose proof (Z.mod_pos_bound (rect_y (frame_rect b)) 50 ltac:(lia)).
  lia.
Qed.

Lemma band_mono (a b : Window) :
  rect_y (frame_rect a) <= rect_y (frame_rect b) -> band a <= band b.
Proof. unfold band. intros Hle. apply Z.div_le_mono; lia. Qed.

(** C6, as the code has it.  The comparator agrees with the band-wise raster
    order on every pair of windows that lie in the same 50-pixel band or
    whose vertical positions differ by at least 50 pixels.  (For the
    remaining pairs, windows in neighbouring bands less than 50 pixels
    apart, the comparator looks at the horizontal position only.) *)
Theorem compareWindows_raster (a b : Window) :
  band a = band b \/ 50 <= Z.abs (rect_y (frame_rect a) - rect_y (frame_rect b)) ->
  (compareWindows a b < 0 <-> raster_before a b).
Proof.
  intros [Hsame | Hfar].
  - pose proof (same_band_close a b Hsame) as Hclose.
    unfold compareWindows, raster_before; simpl.
    destruct (Z.ltb_spec (Z.abs (rect_y (frame_rect a) - rect_y (frame_rect b))) 50); [|lia].
    split.
    + intros Hx. right. split; [exact Hsame | lia].
    + intros [Hlt | [_ Hx]]; lia.
  - unfold compareWindows, raster_before; simpl.
    destruct (Z.ltb_spec (Z.abs (rect_y (frame_rect a) - rect_y (frame_rect b))) 50); [lia|].
    split.
    + intros Hy. left. apply far_apart_bands. lia.
    + intros [Hlt | [Heq _]].
      * destruct (Z.le_gt_cases (rect_y (frame_rect b)) (rect_y (frame_rect a))) as [Hle|Hgt]; [|lia].
        pose proof (band_mono b a Hle). lia.
      * pose proof (same_band_close a b Heq). lia.
Qed.

Lemma compareWindows_raster_witness :
  let a := sample_window 1 300 10 100 100 None in
  let b := sample_window 2 0 120 100 100 None in
  compareWindows a b < 0 <-> raster_before a b.
Proof.
  intros a b. apply (compareWindows_raster a b). right. vm_compute. discriminate.
Defined.

(** C6, as the design document words it, fails: a window at [y = 49] lies in
    band 0 and a window at [y = 51] in band 1, so the band order puts the
    first before the second, but the comparator, seeing them less than 50
    pixels apart, orders them by [x] and puts the second first. *)
Lemma compareWindows_not_band_order :
  let a := sample_window 1 100 49 200 200 None in
  let b := sample_window 2 0 51 200 200 None in
  raster_before a b /\ ~ compareWindows a b < 0 /\ compareWindows b a < 0.
Proof.
  intros a b. split; [|split].
  - left. vm_compute. reflexivity.
  - vm_compute. discriminate.
  - vm_compute. reflexivity.
Qed.

(** The comparator is not transitive, so it is not the comparator of any
    total order: three windows 40 pixels apart vertically, with decreasing
    [x], are ordered in a cycle. *)
Lemma compareWindows_cycle :
  let a := sample_window 1 2 0 10 10 None in
  let b := sample_window 2 1 40 10 10 None in
  let c := sample_window 3 0 80 10 10 None in
  compareWindows b a < 0 /\ compareWindows c b < 0 /\ compareWindows a c < 0.
Proof. intros a b c. vm_compute. repeat split. Qed.

(** ** Keybinding rewrite *)

Lemma strv_set_strv key value s : strv (set_strv key value s) = <[key := value]> (strv s).
Proof. destruct s; reflexivity. Qed.

Lemma modKey_setting (m : Modifier) : modKey (modifier_setting m) = modifier_accel m.
Proof. destruct m; reflexivity. Qed.

Lemma workspace_modifier_set_strv key value s :
  workspace_modifier (set_strv key value s) = workspace_modifier s.
Proof. destruct s; reflexivity. Qed.

(** C8. For each of the three modifier settings and each workspace index
    [i] in 0..9, after the rewrite the switch binding of workspace [i] is the
    modifier key followed by the digit [(i+1) mod 10] and the move binding is
    the modifier key, [<Shift>] and that digit. *)
Theorem updateWorkspaceKeybindingSettings_bindings (s : Settings) (m : Modifier) (i : nat) :
  workspace_modifier s = modifier_setting m ->
  (i < 10)%nat ->
  let s' := updateWorkspaceKeybindingSettings s in
  strv s' !! switch_key i =
    Some [String.append (modifier_accel m) (num ((i + 1) mod 10))] /\
  strv s' !! move_key i =
    Some [String.append (modifier_accel m) (String.append "<Shift>" (num ((i + 1) mod 10)))].
Proof.
  intros Hmod Hi s'. subst s'. unfold updateWorkspaceKeybindingSettings.
  rewrite Hmod, modKey_setting. simpl fold_left.
  rewrite !strv_set_strv.
  do 10 (destruct i as [|i]; [split; vm_compute num; vm_compute switch_key; vm_compute move_key;
                              simplify_map_eq; reflexivity |]).
  lia.
Qed.

Lemma updateWorkspaceKeybindingSettings_bindings_witness :
  let s' := updateWorkspaceKeybindingSettings
              (mkSettings "Ctrl" "swap" false true false ∅ []) in
  strv s' !! switch_key 9 = Some ["<Control>0"%string] /\
  strv s' !! move_key 9 = Some ["<Control><Shift>0"%string].
Proof.
  apply (updateWorkspaceKeybindingSettings_bindings
           (mkSettings "Ctrl" "swap" false true false ∅ []) Ctrl 9).
  - reflexivity.
  - lia.
Defined.


(** ** Frame lemmas: what each step leaves alone *)

Lemma fold_left_preserves {A B : Type} (proj : State -> B) (f : State -> A -> State)
    (l : list A) (st : State) :
  (forall s x, proj (f s x) = proj s) -> proj (fold_left f l st) = proj st.
Proof.
  intros Hf. revert st. induction l as [|x l IH]; simpl; intros st; [reflexivity|].
  rewrite IH. apply Hf.
Qed.

Lemma fold_left_invariant {A : Type} (P : State -> Prop) (f : State -> A -> State)
    (l : list A) (st : State) :
  (forall s x, In x l -> P s -> P (f s x)) -> P st -> P (fold_left f l st).
Proof.
  revert st. induction l as [|x l IH]; simpl; intros st Hf Hst; [exact Hst|].
  apply IH; [intros s y Hy; apply Hf; right; exact Hy|].
  apply Hf; [left; reflexivity | exact Hst].
Qed.

Lemma activateWorkspaceWithoutAnimation_maps ws st :
  engine_maps (eng (activateWorkspaceWithoutAnimation ws st)) = engine_maps (eng st).
Proof. unfold activateWorkspaceWithoutAnimation. frame. Qed.

Lemma activateWorkspaceWithoutAnimation_windows ws st :
  windows (host (activateWorkspaceWithoutAnimation ws st)) = windows (host st).
Proof. unfold activateWorkspaceWithoutAnimation, workspace_activate. frame. Qed.

Lemma swapMove_maps toGeo toMonitor primaryMonitor obj st info :
  engine_maps (eng (swapMove toGeo toMonitor primaryMonitor obj st info)) = engine_maps (eng st).
Proof. unfold swapMove. frame. Qed.

Lemma performSwap_map monitor1 monitor2 ws1 ws2 skipActivate st :
  monitorWorkspaceMap (eng (performSwap monitor1 monitor2 ws1 ws2 skipActivate st)) =
  JsMap.set monitor2 ws1 (JsMap.set monitor1 ws2 (monitorWorkspaceMap (eng st))).
Proof.
  unfold performSwap. cbn [map_set on_eng eng monitorWorkspaceMap with_monitorWorkspaceMap].
  do 2 f_equal.
  match goal with |- monitorWorkspaceMap (eng ?s) = _ =>
    change (fst (fst (fst (fst (fst (engine_maps (eng s)))))) =
            fst (fst (fst (fst (fst (engine_maps (eng st)))))))
  end.
  do 5 f_equal.
  repeat case_match; rewrite ?activateWorkspaceWithoutAnimation_maps;
    rewrite !(fold_left_preserves (fun s => engine_maps (eng s)));
    auto using swapMove_maps.
Qed.

(** ** Swap *)

(** C4. Two monitors that display [W1] and [W2]: one swap exchanges the two
    map entries, and a second swap of the same pair gives back the map the
    first one started from. *)
Theorem performSwap_twice (st : State) (M1 M2 W1 W2 : nat) (skip1 skip2 : bool) :
  M1 <> M2 ->
  JsMap.get M1 (monitorWorkspaceMap (eng st)) = Some W1 ->
  JsMap.get M2 (monitorWorkspaceMap (eng st)) = Some W2 ->
  let swap := fun skip s => performSwap M1 M2 (displayed_ws s M1) (displayed_ws s M2) skip s in
  let st1 := swap skip1 st in
  let st2 := swap skip2 st1 in
  JsMap.get M1 (monitorWorkspaceMap (eng st1)) = Some W2 /\
  JsMap.get M2 (monitorWorkspaceMap (eng st1)) = Some W1 /\
  monitorWorkspaceMap (eng st2) = monitorWorkspaceMap (eng st).
Proof.
  intros Hne H1 H2 swap st1 st2.
  assert (Hd1 : displayed_ws st M1 = W1) by (unfold displayed_ws; rewrite H1; reflexivity).
  assert (Hd2 : displayed_ws st M2 = W2) by (unfold displayed_ws; rewrite H2; reflexivity).
  assert (Hm1 : monitorWorkspaceMap (eng st1) =
                JsMap.set M2 W1 (JsMap.set M1 W2 (monitorWorkspaceMap (eng st)))).
  { subst st1 swap. cbv beta. rewrite performSwap_map, Hd1, Hd2. reflexivity. }
  assert (Hg1 : JsMap.get M1 (monitorWorkspaceMap (eng st1)) = Some W2).
  { rewrite Hm1, JsMapFacts.get_set_other by congruence. apply JsMapFacts.get_set_same. }
  assert (Hg2 : JsMap.get M2 (monitorWorkspaceMap (eng st1)) = Some W1).
  { rewrite Hm1. apply JsMapFacts.get_set_same. }
  split; [exact Hg1 | split; [exact Hg2 |]].
  subst st2 swap. cbv beta. rewrite performSwap_map.
  unfold displayed_ws. rewrite Hg1, Hg2. simpl default. rewrite Hm1.
  rewrite (JsMapFacts.set_comm M1 M2) by
    (try congruence; rewrite JsMapFacts.get_set_same; eexists; reflexivity).
  rewrite !JsMapFacts.set_set_same.
  rewrite (JsMapFacts.set_same_value M1 W1) by exact H1.
  apply JsMapFacts.set_same_value. exact H2.
Qed.

Lemma performSwap_twice_witness :
  let st := mkState (sample_host [left_monitor; right_monitor] 0 (10, 10) 3
                       [sample_window 7 100 100 400 300 (Some 3%nat)])
                    (sample_engine [(0, 3); (1, 5)]%nat) in
  let swap := fun skip s => performSwap 0 1 (displayed_ws s 0) (displayed_ws s 1) skip s in
  JsMap.get 0%nat (monitorWorkspaceMap (eng (swap false st))) = Some 5%nat /\
  JsMap.get 1%nat (monitorWorkspaceMap (eng (swap false st))) = Some 3%nat /\
  monitorWorkspaceMap (eng (swap false (swap false st))) = monitorWorkspaceMap (eng st).
Proof.
  intros st swap.
  apply (performSwap_twice st 0 1 3 5 false false); [lia | reflexivity | reflexivity].
Defined.

(** ** The switch request *)

(** C2. A switch request for the workspace the monitor under the pointer
    already displays returns the state it was given: no window is moved,
    resized or re-tagged, no map entry changes, nothing is scheduled. *)
Theorem switchWorkspace_same_noop (st : State) (M W : nat) :
  getMonitorAtPointer (host st) = M ->
  JsMap.get M (monitorWorkspaceMap (eng st)) = Some W ->
  switchWorkspace W st = st.
Proof.
  intros HM HW. unfold switchWorkspace.
  destruct (pointer (host st)) as [savedPointerX savedPointerY].
  rewrite HM. unfold displayed_ws. rewrite HW. simpl default.
  destruct (decide (W = W)); [reflexivity | congruence].
Qed.

Lemma switchWorkspace_same_noop_witness :
  let st := mkState (sample_host [left_monitor; right_monitor] 0 (2000, 10) 3
                       [sample_window 7 2100 100 400 300 None])
                    (sample_engine [(0, 3); (1, 5)]%nat) in
  switchWorkspace 5 st = st.
Proof.
  intros st. apply (switchWorkspace_same_noop st 1 5); reflexivity.
Defined.

(** ** External workspace change *)

Lemma activate_calls_record (c : HostCall) (h : Host) :
  activate_calls (calls (record_call c h)) =
  (activate_calls (calls h) + (if is_activate c then 1 else 0))%nat.
Proof.
  unfold activate_calls, record_call. cbn [calls with_calls].
  rewrite List.filter_app, List.length_app. simpl. destruct (is_activate c); reflexivity.
Qed.

Lemma swapMove_activate_calls toGeo toMonitor primaryMonitor obj st info :
  activate_calls (calls (host (swapMove toGeo toMonitor primaryMonitor obj st info))) =
  activate_calls (calls (host st)).
Proof. unfold swapMove. repeat case_match; count_calls. Qed.

Lemma activateWorkspaceWithoutAnimation_activate_calls ws st :
  activate_calls (calls (host (activateWorkspaceWithoutAnimation ws st))) =
  S (activate_calls (calls (host st))).
Proof. unfold activateWorkspaceWithoutAnimation. repeat case_match; count_calls. Qed.

Lemma indicator_update_frame st :
  windows (host (indicator_update st)) = windows (host st) /\
  eng (indicator_update st) = eng st /\
  activate_calls (calls (host (indicator_update st))) = activate_calls (calls (host st)).
Proof.
  unfold indicator_update. destruct (indicatorManager (eng st)); repeat split.
  cbn [host on_host]. rewrite activate_calls_record. simpl. apply Nat.add_0_r.
Qed.

Lemma banner_show_frame m ws st :
  windows (host (banner_show m ws st)) = windows (host st) /\
  eng (banner_show m ws st) = eng st /\
  activate_calls (calls (host (banner_show m ws st))) = activate_calls (calls (host st)).
Proof.
  unfold banner_show. destruct (popupBanner (eng st)); repeat split.
  cbn [host on_host]. rewrite activate_calls_record. simpl. apply Nat.add_0_r.
Qed.

Lemma restorePointerPosition_frame x y st :
  windows (host (restorePointerPosition x y st)) = windows (host st) /\
  engine_maps (eng (restorePointerPosition x y st)) = engine_maps (eng st) /\
  activate_calls (calls (host (restorePointerPosition x y st))) = activate_calls (calls (host st)).
Proof.
  unfold restorePointerPosition, doPointerRestore.
  destruct (pointer (host st)) as [cx cy].
  destruct ((5 <? Z.abs (cx - x)) || (5 <? Z.abs (cy - y))); repeat split.
  cbn [host on_host timeout_add on_eng]. unfold warp_pointer.
  rewrite activate_calls_record. simpl. apply Nat.add_0_r.
Qed.

Lemma map_set_maps_congr m ws s1 s2 :
  engine_maps (eng s1) = engine_maps (eng s2) ->
  engine_maps (eng (map_set m ws s1)) = engine_maps (eng (map_set m ws s2)).
Proof.
  destruct s1 as [h1 []], s2 as [h2 []]. unfold engine_maps, map_set. cbn.
  intros [= -> -> -> -> -> ->]. reflexivity.
Qed.

(** What a swap does to the windows, the maps and the number of [activate]
    calls, with and without the activation step. *)
Lemma performSwap_skipActivate monitor1 monitor2 ws1 ws2 st :
  windows (host (performSwap monitor1 monitor2 ws1 ws2 true st)) =
    windows (host (performSwap monitor1 monitor2 ws1 ws2 false st)) /\
  engine_maps (eng (performSwap monitor1 monitor2 ws1 ws2 true st)) =
    engine_maps (eng (performSwap monitor1 monitor2 ws1 ws2 false st)) /\
  activate_calls (calls (host (performSwap monitor1 monitor2 ws1 ws2 true st))) =
    activate_calls (calls (host st)).
Proof.
  unfold performSwap.
  set (primaryMonitor := primary_monitor (host st)).
  set (obj := if _ || _ then _ else None).
  set (moved := fold_left _ _ (fold_left _ _ st)).
  assert (Hcalls : activate_calls (calls (host moved)) = activate_calls (calls (host st))).
  { subst moved.
    rewrite !(fold_left_preserves (fun s => activate_calls (calls (host s))));
      auto using swapMove_activate_calls. }
  cbn [negb]. rewrite !andb_false_r.
  split; [|split].
  - cbn [map_set on_eng host].
    repeat case_match; rewrite ?activateWorkspaceWithoutAnimation_windows; reflexivity.
  - do 2 apply map_set_maps_congr.
    repeat case_match; rewrite ?activateWorkspaceWithoutAnimation_maps; reflexivity.
  - cbn [map_set on_eng host].
    repeat case_match; exact Hcalls.
Qed.

Lemma performSwap_activates monitor1 monitor2 ws1 ws2 st :
  monitor1 = primary_monitor (host st) ->
  (ws2 < n_workspaces (host st))%nat ->
  activate_calls (calls (host (performSwap monitor1 monitor2 ws1 ws2 false st))) =
    S (activate_calls (calls (host st))).
Proof.
  intros Hprim Hws. unfold performSwap. rewrite <- Hprim.
  rewrite bool_decide_eq_true_2 by reflexivity. cbn [orb andb negb].
  destruct (decide (monitor1 = monitor1)); [|congruence].
  unfold get_workspace_by_index. destruct (Nat.ltb_spec ws2 (n_workspaces (host st))); [|lia].
  cbn [map_set on_eng host].
  rewrite activateWorkspaceWithoutAnimation_activate_calls.
  rewrite !(fold_left_preserves (fun s => activate_calls (calls (host s))));
    auto using swapMove_activate_calls.
Qed.

(** C7. The host changed the active workspace to [W] on its own, and [W] is
    shown on a monitor [M2] other than the primary.  The handler performs the
    swap of the primary monitor with [M2] (the two map entries are exchanged)
    and issues no host-level [activate] call.  Compared with an internally
    requested switch to [W] made with the pointer on the primary monitor in
    swap mode, it leaves the windows and every map of the engine exactly the
    same, where the internal request issues one [activate] call. *)
Theorem onSystemWorkspaceChanged_swap (st : State) (W M2 : nat) :
  isInternalSwitch (eng st) = false ->
  active_workspace (host st) = W ->
  displayed_ws st (primary_monitor (host st)) <> W ->
  getMonitorForWorkspace st W = Some M2 ->
  M2 <> primary_monitor (host st) ->
  let P := primary_monitor (host st) in
  let external := onSystemWorkspaceChanged st in
  external = indicator_update (performSwap P M2 (displayed_ws st P) W true st) /\
  monitorWorkspaceMap (eng external) =
    JsMap.set M2 (displayed_ws st P) (JsMap.set P W (monitorWorkspaceMap (eng st))) /\
  activate_calls (calls (host external)) = activate_calls (calls (host st)) /\
  ((W < n_workspaces (host st))%nat ->
   getMonitorAtPointer (host st) = P ->
   String.eqb (workspace_switch_mode (settings (host st))) "warp" = false ->
   let internal := switchWorkspace W st in
   windows (host external) = windows (host internal) /\
   engine_maps (eng external) = engine_maps (eng internal) /\
   activate_calls (calls (host internal)) = S (activate_calls (calls (host st)))).
Proof.
  intros Hflag Hactive Hprev Hshown HM2 P external.
  assert (Hext : external = indicator_update (performSwap P M2 (displayed_ws st P) W true st)).
  { subst external. unfold onSystemWorkspaceChanged. rewrite Hflag, Hactive.
    fold P. destruct (decide (W = displayed_ws st P)) as [e|_]; [exfalso; apply Hprev; symmetry; exact e|].
    rewrite Hshown. destruct (decide (M2 = P)); [contradiction | reflexivity]. }
  destruct (performSwap_skipActivate P M2 (displayed_ws st P) W st) as (Hw & Hm & Hc).
  destruct (indicator_update_frame (performSwap P M2 (displayed_ws st P) W true st))
    as (Hiw & Hie & Hic).
  split; [exact Hext|]. split; [|split].
  - rewrite Hext, Hie. apply performSwap_map.
  - rewrite Hext, Hic. exact Hc.
  - intros Hexists Hptr Hmode internal.
    assert (Hint : internal =
                   timeout_add 200 (FocusAfterSwitch P W)
                     (restorePointerPosition (fst (pointer (host st))) (snd (pointer (host st)))
                        (banner_show P W
                           (indicator_update (performSwap P M2 (displayed_ws st P) W false st))))).
    { subst internal. unfold switchWorkspace.
      destruct (pointer (host st)) as [px py] eqn:Hp. rewrite Hptr. fold P.
      destruct (decide (W = displayed_ws st P)) as [e|_]; [exfalso; apply Hprev; symmetry; exact e|].
      assert (Hens : ensureWorkspaceExists W (host st) = host st).
      { unfold ensureWorkspaceExists. replace (S W - n_workspaces (host st))%nat with 0%nat by lia.
        reflexivity. }
      assert (Hst : on_host (ensureWorkspaceExists W) st = st).
      { unfold on_host. rewrite Hens. reflexivity. }
      rewrite Hst, Hshown. destruct (decide (M2 = P)); [contradiction|].
      rewrite Hmode. reflexivity. }
    destruct (indicator_update_frame (performSwap P M2 (displayed_ws st P) W false st))
      as (Hiw' & Hie' & Hic').
    destruct (banner_show_frame P W
                (indicator_update (performSwap P M2 (displayed_ws st P) W false st)))
      as (Hbw & Hbe & Hbc).
    destruct (restorePointerPosition_frame (fst (pointer (host st))) (snd (pointer (host st)))
                (banner_show P W
                   (indicator_update (performSwap P M2 (displayed_ws st P) W false st))))
      as (Hrw & Hre & Hrc).
    rewrite Hext, Hint. cbn [timeout_add on_eng host eng].
    change (engine_maps (with_timers ?t ?e)) with (engine_maps e).
    rewrite Hrw, Hre, Hrc, Hbw, Hbe, Hbc, Hiw, Hie, Hiw', Hie', Hic'.
    repeat split; try assumption.
    apply performSwap_activates; [reflexivity | exact Hexists].
Qed.

Lemma onSystemWorkspaceChanged_swap_witness :
  let st := mkState (sample_host [left_monitor; right_monitor] 0 (10, 10) 4
                       [sample_window 7 100 100 400 300 (Some 1%nat);
                        sample_window 8 2100 100 400 300 None])
                    (sample_engine [(0, 1); (1, 4)]%nat) in
  let external := onSystemWorkspaceChanged st in
  let internal := switchWorkspace 4 st in
  monitorWorkspaceMap (eng external) = [(0, 4); (1, 1)]%nat /\
  activate_calls (calls (host external)) = 0%nat /\
  windows (host external) = windows (host internal) /\
  engine_maps (eng external) = engine_maps (eng internal) /\
  activate_calls (calls (host internal)) = 1%nat.
Proof.
  intros st.
  destruct (onSystemWorkspaceChanged_swap st 4 1) as (_ & Hmap & Hcalls & Hcmp);
    [reflexivity | reflexivity | vm_compute; discriminate | reflexivity | discriminate |].
  destruct Hcmp as (Hw & Hm & Hc); [simpl; lia | reflexivity | reflexivity |].
  repeat split; assumption.
Defined.

(** ** Disable *)

Lemma restoreWindowsToLogicalWorkspaces_frame st :
  let st' := restoreWindowsToLogicalWorkspaces st in
  monitorWorkspaceMap (eng st') = monitorWorkspaceMap (eng st) /\
  savedWindowPositions (eng st') = savedWindowPositions (eng st) /\
  lastWindowPerWorkspace (eng st') = lastWindowPerWorkspace (eng st).
Proof.
  set (proj := fun s : State =>
         (monitorWorkspaceMap (eng s), savedWindowPositions (eng s), lastWindowPerWorkspace (eng s))).
  assert (H : proj (restoreWindowsToLogicalWorkspaces st) = proj st).
  { unfold restoreWindowsToLogicalWorkspaces. cbv zeta.
    rewrite (fold_left_preserves proj); [reflexivity|].
    intros s monitorIndex. destruct (decide _); [reflexivity|].
    rewrite (fold_left_preserves proj); [reflexivity|].
    intros s' id. destruct (findWindowById s' id); reflexivity. }
  intros st'. subst st' proj. cbv beta in H. injection H as H1 H2 H3. auto.
Qed.

Lemma disable_snapshot st :
  savedWindowsBeforeDisable (eng (disable st)) =
  savedWindowsBeforeDisable (eng (restoreWindowsToLogicalWorkspaces st)).
Proof. unfold disable, destroyCollaborators. frame. Qed.

Lemma set_Forall_values {K V : Type} `{EqDecision K} (P : V -> Prop) (k : K) (v : V)
    (m : list (K * V)) :
  List.Forall (fun kv => P (snd kv)) m -> P v ->
  List.Forall (fun kv => P (snd kv)) (JsMap.set k v m).
Proof.
  intros Hall Hv. induction m as [|[k0 v0] m IH]; simpl.
  - constructor; [exact Hv | constructor].
  - apply List.Forall_cons_iff in Hall as [H0 Hall].
    destruct (decide (k0 = k)); constructor; auto.
Qed.

(** Every entry of the snapshot [disable] takes names a secondary monitor
    and the workspace that monitor displayed. *)
Lemma restoreWindowsToLogicalWorkspaces_snapshot st :
  List.Forall
    (fun kv =>
       (monitorIndex (snd kv) < length (monitors (host st)))%nat /\
       monitorIndex (snd kv) <> primary_monitor (host st) /\
       logicalWs (snd kv) = displayed_ws st (monitorIndex (snd kv)))
    (savedWindowsBeforeDisable (eng (restoreWindowsToLogicalWorkspaces st))).
Proof.
  unfold restoreWindowsToLogicalWorkspaces. cbv zeta.
  set (good := fun info : SavedInfo =>
         (monitorIndex info < length (monitors (host st)))%nat /\
         monitorIndex info <> primary_monitor (host st) /\
         logicalWs info = displayed_ws st (monitorIndex info)).
  set (Q := fun s : State =>
         List.Forall (fun kv => good (snd kv)) (savedWindowsBeforeDisable (eng s)) /\
         monitorWorkspaceMap (eng s) = monitorWorkspaceMap (eng st)).
  match goal with |- List.Forall _ (savedWindowsBeforeDisable (eng ?s)) =>
    assert (HQ : Q s); [|exact (proj1 HQ)]
  end.
  apply fold_left_invariant; [|split; [constructor | reflexivity]].
  intros s monitor Hmon HQ. apply List.in_seq in Hmon.
  destruct (decide (monitor = primary_monitor (host st))) as [|Hsec]; [exact HQ|].
  assert (Hd : displayed_ws s monitor = displayed_ws st monitor)
    by (unfold displayed_ws; rewrite (proj2 HQ); reflexivity).
  rewrite Hd.
  apply fold_left_invariant; [|exact HQ].
  intros s' id _ [Hall Hmap]. destruct (findWindowById s' id) as [window|]; [|split; assumption].
  split; [|exact Hmap].
  cbn [eng on_host snapshot_set on_eng savedWindowsBeforeDisable with_savedWindowsBeforeDisable].
  apply set_Forall_values; [exact Hall|].
  subst good. cbn. repeat split; [lia | exact Hsec].
Qed.

(** C9, as the design document words it, fails on the snapshot: with a
    window on the secondary monitor and an empty snapshot, [disable] leaves a
    snapshot with an entry for that window. *)
Lemma disable_rewrites_snapshot :
  let st := mkState (sample_host [left_monitor; right_monitor] 0 (10, 10) 0
                       [sample_window 7 2100 100 400 300 None])
                    (sample_engine [(0, 0); (1, 1)]%nat) in
  savedWindowsBeforeDisable (eng st) = [] /\
  savedWindowsBeforeDisable (eng (disable st)) =
    [(7%nat, mkSavedInfo 1 1 180 100 400 300)] /\
  savedWindowsBeforeDisable (eng (disable st)) <> savedWindowsBeforeDisable (eng st).
Proof.
  intros st.
  assert (H : savedWindowsBeforeDisable (eng (disable st)) =
              [(7%nat, mkSavedInfo 1 1 180 100 400 300)]) by (vm_compute; reflexivity).
  split; [reflexivity | split; [exact H |]].
  rewrite H. discriminate.
Qed.

(** ** Window lookup and update *)

Lemma find_window_id id ws w : find_window id ws = Some w -> stable_sequence w = id.
Proof.
  induction ws as [|w0 ws IH]; simpl; [discriminate|].
  destruct (decide (stable_sequence w0 = id)); [intros [= <-]; assumption | exact IH].
Qed.

Lemma find_window_In id ws w : find_window id ws = Some w -> In w ws.
Proof.
  induction ws as [|w0 ws IH]; simpl; [discriminate|].
  destruct (decide (stable_sequence w0 = id)); [intros [= <-]; left; reflexivity|].
  intros H; right; apply IH; exact H.
Qed.

Lemma find_update_same id f ws :
  (forall w, stable_sequence (f w) = stable_sequence w) ->
  find_window id (update_window id f ws) = f <$> find_window id ws.
Proof.
  intros Hf. induction ws as [|w0 ws IH]; simpl; [reflexivity|].
  destruct (decide (stable_sequence w0 = id)) as [E|N].
  - rewrite Hf. destruct (decide (stable_sequence w0 = id)); [reflexivity | contradiction].
  - destruct (decide (stable_sequence w0 = id)); [contradiction | exact IH].
Qed.

Lemma find_update_other id id' f ws :
  (forall w, stable_sequence (f w) = stable_sequence w) ->
  id <> id' ->
  find_window id' (update_window id f ws) = find_window id' ws.
Proof.
  intros Hf Hne. induction ws as [|w0 ws IH]; simpl; [reflexivity|].
  destruct (decide (stable_sequence w0 = id)) as [E|N].
  - rewrite Hf. destruct (decide (stable_sequence w0 = id')); [congruence | exact IH].
  - destruct (decide (stable_sequence w0 = id')); [reflexivity | exact IH].
Qed.

Lemma update_window_ids id f ws :
  (forall w, stable_sequence (f w) = stable_sequence w) ->
  map stable_sequence (update_window id f ws) = map stable_sequence ws.
Proof.
  intros Hf. unfold update_window. rewrite List.map_map. apply List.map_ext.
  intros w. destruct (decide _); [apply Hf | reflexivity].
Qed.

(** ** New-window placement *)

Lemma findWindowById_host s1 s2 id :
  host s1 = host s2 -> findWindowById s1 id = findWindowById s2 id.
Proof. intros H. unfold findWindowById. exact (f_equal (fun h => find_window id (windows h)) H). Qed.

Lemma findWindowById_windows s1 s2 id :
  windows (host s1) = windows (host s2) -> findWindowById s1 id = findWindowById s2 id.
Proof. intros H. unfold findWindowById. exact (f_equal (find_window id) H). Qed.

Lemma findWindowById_move_to_monitor st id m :
  findWindowById (on_host (move_to_monitor id m) st) id = with_monitor m <$> findWindowById st id.
Proof. unfold findWindowById. cbn. apply find_update_same. reflexivity. Qed.

Lemma findWindowById_move_frame st id x y :
  findWindowById (on_host (move_frame id x y) st) id =
  (fun w => with_frame (mkRect x y (rect_width (frame_rect w)) (rect_height (frame_rect w))) w)
    <$> findWindowById st id.
Proof. unfold findWindowById. cbn. apply find_update_same. reflexivity. Qed.

Lemma findWindowById_change_workspace st id ws :
  findWindowById (on_host (change_workspace id (Some ws)) st) id =
  with_workspace (Some ws) <$> findWindowById st id.
Proof. unfold findWindowById. cbn. apply find_update_same. reflexivity. Qed.

Lemma find_window_app id l1 l2 :
  find_window id (l1 ++ l2) =
  match find_window id l1 with Some w => Some w | None => find_window id l2 end.
Proof.
  induction l1 as [|a l1 IH]; cbn; [reflexivity|].
  destruct (decide (stable_sequence a = id)); [reflexivity | exact IH].
Qed.

Lemma find_window_filter_keep id (p : Window -> bool) ws :
  (forall w, stable_sequence w = id -> p w = true) ->
  find_window id (List.filter p ws) = find_window id ws.
Proof.
  intros Hp. induction ws as [|a ws IH]; cbn; [reflexivity|].
  destruct (decide (stable_sequence a = id)) as [E|NE].
  - rewrite (Hp a E). cbn. destruct (decide (stable_sequence a = id)); [reflexivity | contradiction].
  - destruct (p a); [|exact IH]. cbn.
    destruct (decide (stable_sequence a = id)); [contradiction | exact IH].
Qed.

Lemma find_window_filter_drop id (p : Window -> bool) ws :
  (forall w, stable_sequence w = id -> p w = false) ->
  find_window id (List.filter p ws) = None.
Proof.
  intros Hp. induction ws as [|a ws IH]; cbn; [reflexivity|].
  destruct (p a) eqn:Ha; [|exact IH]. cbn.
  destruct (decide (stable_sequence a = id)) as [E|_]; [|exact IH].
  rewrite (Hp a E) in Ha. discriminate.
Qed.

Lemma find_window_map id (f : Window -> Window) ws :
  (forall w, stable_sequence (f w) = stable_sequence w) ->
  find_window id (map f ws) = f <$> find_window id ws.
Proof.
  intros Hf. induction ws as [|a ws IH]; cbn; [reflexivity|].
  rewrite (Hf a). destruct (decide (stable_sequence a = id)); [reflexivity | exact IH].
Qed.

(** Raising a window changes its stacking index and nothing else of any
    window. *)
Lemma find_raise_window id id' ws :
  find_window id' (raise_window id ws) =
  (if decide (id' = id) then with_stack_index (top_stack_index ws + 1) else (fun w => w))
    <$> find_window id' ws.
Proof.
  unfold raise_window. cbv zeta. rewrite find_window_app.
  destruct (decide (id' = id)) as [->|Hne].
  - rewrite find_window_filter_drop.
    + rewrite find_window_map by reflexivity. f_equal.
      apply find_window_filter_keep. intros w Hw. apply bool_decide_eq_true_2. exact Hw.
    + intros w Hw. rewrite bool_decide_eq_true_2 by exact Hw. reflexivity.
  - rewrite find_window_filter_keep.
    + destruct (find_window id' ws) as [w|]; [reflexivity|].
      rewrite find_window_map by reflexivity.
      rewrite find_window_filter_drop; [reflexivity|].
      intros w Hw. apply bool_decide_eq_false_2. congruence.
    + intros w Hw. rewrite bool_decide_eq_false_2; [reflexivity|]. congruence.
Qed.

Lemma findWindowById_activate st id id' :
  findWindowById (on_host (activate_window id) st) id' =
  (if decide (id' = id)
   then with_stack_index (top_stack_index (windows (host st)) + 1)
   else (fun w => w)) <$> findWindowById st id'.
Proof. unfold findWindowById. cbn. apply find_raise_window. Qed.

Lemma finishWindowPlacement_frame window k warpX warpY st :
  (forall id w, findWindowById st id = Some w ->
     exists w',
       findWindowById (finishWindowPlacement window (Some k) warpX warpY st) id = Some w' /\
       frame_rect w' = frame_rect w /\ win_workspace w' = win_workspace w /\
       win_monitor w' = win_monitor w) /\
  windowsPendingPlacement (eng (finishWindowPlacement window (Some k) warpX warpY st)) =
    delete k (windowsPendingPlacement (eng st)).
Proof.
  split.
  - intros id w Hw. unfold finishWindowPlacement. cbv zeta.
    set (s1 := pending_delete k st).
    assert (H1 : findWindowById s1 id = Some w)
      by (etransitivity; [apply (findWindowById_host s1 st); reflexivity | exact Hw]).
    set (s2 := match findWindowById s1 window with
               | Some _ => on_host (activate_window window) s1
               | None => s1
               end).
    assert (H2 : exists w', findWindowById s2 id = Some w' /\
                   frame_rect w' = frame_rect w /\ win_workspace w' = win_workspace w /\
                   win_monitor w' = win_monitor w).
    { subst s2. destruct (findWindowById s1 window).
      - eexists. split.
        + etransitivity; [apply findWindowById_activate|].
          exact (f_equal (fmap _) H1).
        + destruct (decide (id = window)); repeat split.
      - exists w. repeat split. exact H1. }
    destruct H2 as (w' & Hf & Hrest). exists w'. split; [|exact Hrest].
    etransitivity; [|exact Hf]. apply findWindowById_windows.
    destruct (warp_pointer_to_focus (settings (host s2))); reflexivity.
  - unfold finishWindowPlacement. frame.
Qed.

Lemma assignWorkspace_find window targetMonitor primaryMonitor logicalWs currentGlobalWs st w :
  findWindowById st window = Some w ->
  exists w',
    findWindowById
      (assignWorkspace window targetMonitor primaryMonitor logicalWs currentGlobalWs st) window
      = Some w' /\
    frame_rect w' = frame_rect w /\
    win_workspace w' =
      (if decide (targetMonitor = primaryMonitor)
       then if (logicalWs <? n_workspaces (host st))%nat then Some logicalWs else win_workspace w
       else Some currentGlobalWs).
Proof.
  intros Hw. unfold assignWorkspace, get_workspace_by_index.
  destruct (decide (targetMonitor = primaryMonitor)).
  - destruct (logicalWs <? n_workspaces (host st))%nat.
    + eexists. rewrite findWindowById_change_workspace, Hw. simpl. repeat split.
    + exists w. repeat split. exact Hw.
  - eexists. rewrite findWindowById_change_workspace, Hw. simpl. repeat split.
Qed.

(** The placement of a new normal window that the task bar shows. *)
Lemma new_window_placement_shown (st : State) (id : WindowId) (w : Window) (M1 : nat) (geo : Rect) :
  findWindowById st id = Some w ->
  window_type w = NORMAL ->
  skip_taskbar w = false ->
  id ∉ recentlyProcessedWindows (eng st) ->
  getMonitorAtPointer (host st) = M1 ->
  get_monitor_geometry (host st) M1 = Some geo ->
  let created := onWindowCreated id st in
  let placed := runDeferred (PlaceWindow id M1) created in
  windowsPendingPlacement (eng created) !! id = Some M1 /\
  In (0%nat, PlaceWindow id M1) (timers (eng created)) /\
  windowsPendingPlacement (eng placed) !! id = None /\
  exists w',
    findWindowById placed id = Some w' /\
    win_workspace w' = placement_tag st M1 w /\
    (getWindowMonitor (host st) w = Some M1 -> frame_rect w' = frame_rect w) /\
    (getWindowMonitor (host st) w <> Some M1 ->
     rect_width (frame_rect w) <= rect_width geo ->
     rect_height (frame_rect w) <= rect_height geo ->
     frame_within (frame_rect w') geo).
Proof.
  intros Hw Htype Hskip Hfresh Hptr Hgeo created placed.
  pose proof (find_window_id _ _ _ Hw) as Hid.
  assert (Hcreated : created =
            idle_add (PlaceWindow id M1)
              (on_eng (fun e => with_windowsPendingPlacement
                                  (<[id := M1]> (windowsPendingPlacement e)) e)
                 (timeout_add 1000 (ForgetProcessed id)
                    (on_eng (fun e => with_recentlyProcessedWindows
                                        ({[id]} ∪ recentlyProcessedWindows e) e) st)))).
  { subst created. unfold onWindowCreated. rewrite Hw. unfold getWindowId. rewrite Hid.
    rewrite bool_decide_eq_false_2 by exact Hfresh. rewrite Htype, Hskip.
    cbn [host timeout_add on_eng]. rewrite Hptr. reflexivity. }
  split; [rewrite Hcreated; cbn; apply lookup_insert_eq|].
  split; [rewrite Hcreated; cbn; apply in_or_app; right; left; reflexivity|].
  assert (Hhost : host created = host st) by (rewrite Hcreated; reflexivity).
  assert (Hdisp : displayed_ws created M1 = displayed_ws st M1)
    by (rewrite Hcreated; reflexivity).
  assert (Hwc : findWindowById created id = Some w)
    by (rewrite (findWindowById_host created st) by exact Hhost; exact Hw).
  clearbody created. clear Hcreated.
  subst placed. cbn [runDeferred]. unfold moveWindowToMonitor.
  rewrite Hwc, Hhost, Hgeo, Hdisp.
  destruct (decide (getWindowMonitor (host st) w = Some M1)) as [Hon|Hoff].
  - (* already on the target monitor *)
    match goal with |- context [finishWindowPlacement id (Some id) ?x ?y ?s] =>
      destruct (finishWindowPlacement_frame id id x y s) as (Hfw & Hfp);
      set (fin := finishWindowPlacement id (Some id) x y s) in *
    end.
    split; [rewrite Hfp; apply lookup_delete_eq|].
    match type of Hfw with context [assignWorkspace id M1 ?p ?l ?g ?s] =>
      destruct (assignWorkspace_find id M1 p l g s (with_monitor M1 w)) as (w' & Hf' & Hfr & Htag)
    end.
    { rewrite findWindowById_move_to_monitor, Hwc. reflexivity. }
    destruct (Hfw id w' Hf') as (w2 & Hf2 & Hfr2 & Htag2 & _).
    exists w2. split; [exact Hf2|].
    split; [|split].
    + rewrite Htag2, Htag. unfold placement_tag. cbn [host on_host]. rewrite Hhost. reflexivity.
    + intros _. rewrite Hfr2. exact Hfr.
    + intros Hcontra. contradiction.
  - (* moved onto the target monitor *)
    set (sourceGeo := getWindowMonitor (host st) w ≫= get_monitor_geometry (host st)).
    destruct (match sourceGeo with
              | Some sourceGeo =>
                  (rect_x (frame_rect w) - rect_x sourceGeo, rect_y (frame_rect w) - rect_y sourceGeo)
              | None =>
                  (Z.rem (rect_x (frame_rect w)) (rect_width geo),
                   Z.rem (rect_y (frame_rect w)) (rect_height geo))
              end) as [relX relY] eqn:Hrel.
    match goal with |- context [finishWindowPlacement id (Some id) ?x ?y ?s] =>
      destruct (finishWindowPlacement_frame id id x y s) as (Hfw & Hfp);
      set (fin := finishWindowPlacement id (Some id) x y s) in *
    end.
    split; [rewrite Hfp; apply lookup_delete_eq|].
    set (newX := Z.max (rect_x geo)
                   (Z.min (rect_x geo + relX) (rect_x geo + rect_width geo - rect_width (frame_rect w)))) in *.
    set (newY := Z.max (rect_y geo)
                   (Z.min (rect_y geo + relY) (rect_y geo + rect_height geo - rect_height (frame_rect w)))) in *.
    set (moved := with_monitor M1
                    (with_frame (mkRect newX newY (rect_width (frame_rect w))
                                   (rect_height (frame_rect w))) w)).
    match type of Hfw with context [assignWorkspace id M1 ?p ?l ?g ?s] =>
      destruct (assignWorkspace_find id M1 p l g s moved) as (w' & Hf' & Hfr & Htag)
    end.
    { rewrite findWindowById_move_to_monitor, findWindowById_move_frame, Hwc. reflexivity. }
    destruct (Hfw id w' Hf') as (w2 & Hf2 & Hfr2 & Htag2 & _).
    exists w2. split; [exact Hf2|].
    split; [|split].
    + rewrite Htag2, Htag. unfold placement_tag. cbn [host on_host]. rewrite Hhost. reflexivity.
    + intros Hcontra. contradiction.
    + intros _ Hwd Hht. rewrite Hfr2, Hfr. subst moved. unfold frame_within. cbn.
      subst newX newY. lia.
Qed.

(** C5, as the code has it.  A new normal window is created while the pointer
    is on monitor [M1].  A window that is marked skip-taskbar is ignored:
    the creation handler changes nothing, so nothing is recorded or scheduled
    for it.  For any other normal window the handler marks it pending for
    [M1] and schedules the placement; once the placement has run, the pending
    entry is gone and the window is tagged with [M1]'s logical workspace if
    [M1] is the primary monitor (and that workspace exists) and with the
    host's active workspace if [M1] is a secondary monitor.  A window whose
    centre already lies on [M1] keeps its frame; any other window that is no
    larger than [M1] is moved to a frame inside [M1]'s bounds. *)
Theorem new_window_placement (st : State) (id : WindowId) (w : Window) (M1 : nat) (geo : Rect) :
  findWindowById st id = Some w ->
  window_type w = NORMAL ->
  id ∉ recentlyProcessedWindows (eng st) ->
  getMonitorAtPointer (host st) = M1 ->
  get_monitor_geometry (host st) M1 = Some geo ->
  let created := onWindowCreated id st in
  let placed := runDeferred (PlaceWindow id M1) created in
  (skip_taskbar w = true -> created = st) /\
  (skip_taskbar w = false ->
   windowsPendingPlacement (eng created) !! id = Some M1 /\
   In (0%nat, PlaceWindow id M1) (timers (eng created)) /\
   windowsPendingPlacement (eng placed) !! id = None /\
   exists w',
     findWindowById placed id = Some w' /\
     win_workspace w' = placement_tag st M1 w /\
     (getWindowMonitor (host st) w = Some M1 -> frame_rect w' = frame_rect w) /\
     (getWindowMonitor (host st) w <> Some M1 ->
      rect_width (frame_rect w) <= rect_width geo ->
      rect_height (frame_rect w) <= rect_height geo ->
      frame_within (frame_rect w') geo)).
Proof.
  intros Hw Htype Hfresh Hptr Hgeo created placed. split.
  - intros Hskip. subst created. unfold onWindowCreated. rewrite Hw.
    destruct (bool_decide (getWindowId w ∈ recentlyProcessedWindows (eng st))); [reflexivity|].
    rewrite Htype, Hskip. reflexivity.
  - intros Hskip.
    exact (new_window_placement_shown st id w M1 geo Hw Htype Hskip Hfresh Hptr Hgeo).
Qed.

Lemma new_window_placement_witness :
  let w := sample_window 7 100 100 400 300 None in
  let st := mkState (sample_host [left_monitor; right_monitor] 0 (2000, 500) 0 [w])
                    (sample_engine [(0, 0); (1, 2)]%nat) in
  let created := onWindowCreated 7 st in
  let placed := runDeferred (PlaceWindow 7 1) created in
  skip_taskbar w = false /\
  windowsPendingPlacement (eng created) !! 7%nat = Some 1%nat /\
  In (0%nat, PlaceWindow 7 1) (timers (eng created)) /\
  windowsPendingPlacement (eng placed) !! 7%nat = None /\
  exists w',
    findWindowById placed 7 = Some w' /\
    win_workspace w' = placement_tag st 1 w /\
    frame_within (frame_rect w') right_monitor.
Proof.
  intros w st created placed.
  assert (Hfresh : 7%nat ∉ recentlyProcessedWindows (eng st)) by apply not_elem_of_empty.
  destruct (new_window_placement st 7 w 1 right_monitor eq_refl eq_refl Hfresh eq_refl eq_refl)
    as (_ & Hshown).
  destruct (Hshown eq_refl) as (H1 & H2 & H3 & w' & Hf & Htag & _ & Hclamp).
  split; [reflexivity|]. split; [exact H1|]. split; [exact H2|]. split; [exact H3|].
  exists w'. split; [exact Hf|]. split; [exact Htag|].
  apply Hclamp; [discriminate | cbn; lia | cbn; lia].
Defined.

(** C5, as the design document words it, fails on the tag: the pointer is on
    the secondary monitor [M1], which displays workspace 2, while the host's
    active workspace is 0; the new window ends up on [M1] tagged with
    workspace 0, not 2. *)
Lemma new_window_on_secondary_tagged_active :
  let w := sample_window 7 100 100 400 300 None in
  let st := mkState (sample_host [left_monitor; right_monitor] 0 (2000, 500) 0 [w])
                    (sample_engine [(0, 0); (1, 2)]%nat) in
  let placed := runDeferred (PlaceWindow 7 1) (onWindowCreated 7 st) in
  getMonitorAtPointer (host st) = 1%nat /\
  displayed_ws st 1 = 2%nat /\
  win_workspace <$> findWindowById placed 7 = Some (Some 0%nat) /\
  win_workspace <$> findWindowById placed 7 <> Some (Some 2%nat).
Proof.
  intros w st placed.
  assert (H : win_workspace <$> findWindowById placed 7 = Some (Some 0%nat))
    by (vm_compute; reflexivity).
  repeat split; try reflexivity; try exact H.
  rewrite H. discriminate.
Qed.

(** A window whose centre is on the target monitor but which sticks out of it
    is left where it is: the placement does not clamp it. *)
Lemma new_window_on_target_not_clamped :
  let w := sample_window 7 1800 100 400 300 None in
  let st := mkState (sample_host [left_monitor; right_monitor] 0 (2000, 500) 0 [w])
                    (sample_engine [(0, 0); (1, 2)]%nat) in
  let placed := runDeferred (PlaceWindow 7 1) (onWindowCreated 7 st) in
  getWindowMonitor (host st) w = Some 1%nat /\
  frame_rect <$> findWindowById placed 7 = Some (mkRect 1800 100 400 300) /\
  ~ frame_within (mkRect 1800 100 400 300) right_monitor.
Proof.
  intros w st placed. split; [reflexivity|]. split; [vm_compute; reflexivity|].
  unfold frame_within. simpl. lia.
Qed.

(** ** The relative-position cache *)

Lemma NoDup_map_filter {A B : Type} (f : A -> B) (p : A -> bool) (l : list A) :
  List.NoDup (map f l) -> List.NoDup (map f (List.filter p l)).
Proof.
  induction l as [|a l IH]; simpl; intros Hnd; [constructor|].
  apply List.NoDup_cons_iff in Hnd as [Hnotin Hnd].
  destruct (p a); simpl; [|apply IH; exact Hnd].
  apply List.NoDup_cons_iff. split; [|apply IH; exact Hnd].
  intros Hin. apply Hnotin. apply List.in_map_iff in Hin as (x & Hx & Hxin).
  apply List.in_map_iff. exists x. split; [exact Hx|].
  apply List.filter_In in Hxin. tauto.
Qed.

Lemma NoDup_map_inj_In {A B : Type} (f : A -> B) (l : list A) (a b : A) :
  List.NoDup (map f l) -> In a l -> In b l -> f a = f b -> a = b.
Proof.
  induction l as [|x l IH]; simpl; intros Hnd Ha Hb Hf; [contradiction|].
  apply List.NoDup_cons_iff in Hnd as [Hnotin Hnd].
  destruct Ha as [->|Ha], Hb as [->|Hb]; auto.
  - exfalso. apply Hnotin. rewrite Hf. apply List.in_map. exact Hb.
  - exfalso. apply Hnotin. rewrite <- Hf. apply List.in_map. exact Ha.
Qed.

Lemma find_window_NoDup ws w :
  List.NoDup (map stable_sequence ws) -> In w ws -> find_window (stable_sequence w) ws = Some w.
Proof.
  induction ws as [|w0 ws IH]; simpl; intros Hnd Hin; [contradiction|].
  apply List.NoDup_cons_iff in Hnd as [Hnotin Hnd].
  destruct (decide (stable_sequence w0 = stable_sequence w)) as [E|N].
  - destruct Hin as [->|Hin]; [reflexivity|].
    exfalso. apply Hnotin. apply List.in_map_iff. exists w. split; [symmetry; exact E | exact Hin].
  - destruct Hin as [->|Hin]; [congruence | apply IH; assumption].
Qed.

Lemma findWindowById_change_workspace_other st id id' ws :
  id <> id' ->
  findWindowById (on_host (change_workspace id ws) st) id' = findWindowById st id'.
Proof.
  intros Hne. unfold findWindowById, change_workspace. destruct ws; cbn; [|reflexivity].
  apply find_update_other; [reflexivity | exact Hne].
Qed.

Lemma findWindowById_move_frame_other st id id' x y :
  id <> id' ->
  findWindowById (on_host (move_frame id x y) st) id' = findWindowById st id'.
Proof.
  intros Hne. unfold findWindowById. cbn. apply find_update_other; [reflexivity | exact Hne].
Qed.

Lemma window_ids_change_workspace st id ws :
  window_ids (on_host (change_workspace id ws) st) = window_ids st.
Proof.
  unfold window_ids, change_workspace. destruct ws; cbn; [|reflexivity].
  apply update_window_ids. reflexivity.
Qed.

Lemma window_ids_move_frame st id x y :
  window_ids (on_host (move_frame id x y) st) = window_ids st.
Proof. unfold window_ids. cbn. apply update_window_ids. reflexivity. Qed.

(** What the stash loop leaves alone for a window it does not visit. *)
Lemma stashWindow_other monitorGeo previousWs previousWsObj st id id' :
  id' <> id ->
  findWindowById (stashWindow monitorGeo previousWs previousWsObj st id') id = findWindowById st id /\
  savedWindowPositions (eng (stashWindow monitorGeo previousWs previousWsObj st id')) !! id =
    savedWindowPositions (eng st) !! id.
Proof.
  intros Hne. unfold stashWindow.
  destruct (findWindowById st id') as [window|] eqn:Hf; [|split; reflexivity].
  apply find_window_id in Hf. unfold getWindowId. rewrite Hf. split.
  - rewrite findWindowById_change_workspace_other by exact Hne. reflexivity.
  - cbn. apply lookup_insert_ne. exact Hne.
Qed.

Lemma stashWindow_static monitorGeo previousWs previousWsObj st id' :
  window_ids (stashWindow monitorGeo previousWs previousWsObj st id') = window_ids st /\
  n_workspaces (host (stashWindow monitorGeo previousWs previousWsObj st id')) = n_workspaces (host st).
Proof.
  unfold stashWindow. destruct (findWindowById st id'); [|split; reflexivity].
  split; [rewrite window_ids_change_workspace; reflexivity|].
  unfold change_workspace. destruct previousWsObj; reflexivity.
Qed.

(** The restore step, for the window it visits and for the others. *)
Lemma restoreWindow_same monitorGeo targetWs st id w rx ry :
  findWindowById st id = Some w ->
  savedWindowPositions (eng st) !! id = Some (mkSavedPos rx ry targetWs) ->
  findWindowById (restoreWindow monitorGeo targetWs st id) id =
    Some (with_frame (mkRect (rect_x monitorGeo + rx) (rect_y monitorGeo + ry)
                        (rect_width (frame_rect w)) (rect_height (frame_rect w))) w) /\
  savedWindowPositions (eng (restoreWindow monitorGeo targetWs st id)) !! id = None.
Proof.
  intros Hw Hc. unfold restoreWindow. rewrite Hc. cbn [wsIndex relX relY].
  destruct (decide (targetWs = targetWs)); [|congruence]. split.
  - rewrite findWindowById_move_frame.
    rewrite (findWindowById_host (cache_delete id st) st) by reflexivity.
    rewrite Hw. reflexivity.
  - cbn. apply lookup_delete_eq.
Qed.

Lemma restoreWindow_other monitorGeo targetWs st id id' :
  id' <> id ->
  findWindowById (restoreWindow monitorGeo targetWs st id') id = findWindowById st id /\
  savedWindowPositions (eng (restoreWindow monitorGeo targetWs st id')) !! id =
    savedWindowPositions (eng st) !! id.
Proof.
  intros Hne. unfold restoreWindow.
  destruct (savedWindowPositions (eng st) !! id') as [sp|]; [destruct (decide _)|];
    (split; [rewrite findWindowById_move_frame_other by exact Hne; reflexivity|]); cbn;
    try reflexivity.
  apply lookup_delete_ne. exact Hne.
Qed.

Lemma activateWorkspaceWithoutAnimation_find ws st id :
  findWindowById (activateWorkspaceWithoutAnimation ws st) id = findWindowById st id.
Proof. apply findWindowById_windows. apply activateWorkspaceWithoutAnimation_windows. Qed.

Lemma activateWorkspaceWithoutAnimation_cache ws st :
  savedWindowPositions (eng (activateWorkspaceWithoutAnimation ws st)) =
  savedWindowPositions (eng st).
Proof. unfold activateWorkspaceWithoutAnimation. frame. Qed.

(** The restore made by a simple switch of the primary monitor, for a window
    of the target workspace that the stash loop of the same switch does not
    visit: the window is moved to the cached offset and the entry is
    deleted. *)
Lemma simpleSwitch_Primary_restores (st : State) (M prev W : nat) (skip : bool)
    (w : Window) (rx ry : Z) :
  List.NoDup (window_ids st) ->
  In w (getWindowsOnWorkspace (host st) W) ->
  ~ In w (getWindowsOnMonitor (host st) M false) ->
  savedWindowPositions (eng st) !! stable_sequence w = Some (mkSavedPos rx ry W) ->
  let geo := monitor_geometry (host st) M in
  let st' := simpleSwitch_Primary M prev W skip st in
  findWindowById st' (stable_sequence w) =
    Some (with_frame (mkRect (rect_x geo + rx) (rect_y geo + ry)
                        (rect_width (frame_rect w)) (rect_height (frame_rect w))) w) /\
  savedWindowPositions (eng st') !! stable_sequence w = None.
Proof.
  intros Hnd Hin Hnot Hcache geo st'.
  set (id := stable_sequence w) in *.
  (* what membership in the workspace list says *)
  unfold getWindowsOnWorkspace in Hin.
  destruct (get_workspace_by_index (host st) W) as [wsObj|] eqn:Hobj; [|contradiction].
  assert (HwsObj : wsObj = W).
  { unfold get_workspace_by_index in Hobj. destruct (W <? n_workspaces (host st))%nat; congruence. }
  subst wsObj. apply List.filter_In in Hin as [Hinw Hpred].
  assert (Hfind : findWindowById st id = Some w)
    by (apply find_window_NoDup; assumption).
  subst st'. unfold simpleSwitch_Primary. cbv zeta. fold geo.
  set (obj := get_workspace_by_index (host st) prev).
  set (L1 := map getWindowId (getWindowsOnMonitor (host st) M false)).
  set (s1 := fold_left (stashWindow geo prev obj) L1 st).
  (* the stash loop does not visit [w] *)
  assert (HL1 : ~ In id L1).
  { intros Hc. apply List.in_map_iff in Hc as (w2 & Hid2 & Hin2). apply Hnot.
    assert (w2 = w); [|subst; exact Hin2].
    apply (NoDup_map_inj_In stable_sequence (windows (host st))); try assumption.
    apply List.filter_In in Hin2. tauto. }
  assert (Hs1 : findWindowById s1 id = Some w /\
                savedWindowPositions (eng s1) !! id = Some (mkSavedPos rx ry W) /\
                window_ids s1 = window_ids st /\
                n_workspaces (host s1) = n_workspaces (host st)).
  { subst s1. apply fold_left_invariant; [|auto].
    intros s x Hx (Hf & Hc & Hids & Hn).
    assert (Hne : x <> id) by (intros ->; contradiction).
    destruct (stashWindow_other geo prev obj s id x Hne) as (Hf' & Hc').
    destruct (stashWindow_static geo prev obj s x) as (Hids' & Hn').
    rewrite Hf', Hc', Hids', Hn'. auto. }
  destruct Hs1 as (Hf1 & Hc1 & Hids1 & Hn1).
  (* [w] is in the list of windows to restore, once *)
  assert (Hobj1 : get_workspace_by_index (host s1) W = Some W).
  { unfold get_workspace_by_index in *. rewrite Hn1. exact Hobj. }
  set (L2 := map getWindowId (getWindowsOnWorkspace (host s1) W)).
  assert (HinL2 : In id L2).
  { subst L2. unfold getWindowsOnWorkspace. rewrite Hobj1.
    apply List.in_map_iff. exists w. split; [reflexivity|].
    apply List.filter_In. split; [|exact Hpred].
    apply (find_window_In id). exact Hf1. }
  assert (HndL2 : List.NoDup L2).
  { subst L2. unfold getWindowsOnWorkspace. rewrite Hobj1.
    apply NoDup_map_filter. rewrite <- Hids1 in Hnd. exact Hnd. }
  destruct (List.in_split _ _ HinL2) as (A & B & HL2).
  rewrite HL2 in HndL2 |- *.
  apply List.NoDup_remove_2 in HndL2.
  assert (HA : ~ In id A) by (intros Hc; apply HndL2, List.in_or_app; left; exact Hc).
  assert (HB : ~ In id B) by (intros Hc; apply HndL2, List.in_or_app; right; exact Hc).
  rewrite List.fold_left_app. cbn [fold_left].
  set (sA := fold_left (restoreWindow geo W) A s1).
  assert (HsA : findWindowById sA id = Some w /\
                savedWindowPositions (eng sA) !! id = Some (mkSavedPos rx ry W)).
  { subst sA. apply fold_left_invariant; [|auto].
    intros s x Hx (Hf & Hc).
    assert (Hne : x <> id) by (intros ->; contradiction).
    destruct (restoreWindow_other geo W s id x Hne) as (Hf' & Hc').
    rewrite Hf', Hc'. auto. }
  destruct HsA as (HfA & HcA).
  destruct (restoreWindow_same geo W sA id w rx ry HfA HcA) as (Hfr & Hcr).
  set (w' := with_frame (mkRect (rect_x geo + rx) (rect_y geo + ry)
                           (rect_width (frame_rect w)) (rect_height (frame_rect w))) w) in *.
  set (sB := fold_left (restoreWindow geo W) B (restoreWindow geo W sA id)).
  assert (HsB : findWindowById sB id = Some w' /\ savedWindowPositions (eng sB) !! id = None).
  { subst sB. apply fold_left_invariant; [|auto].
    intros s x Hx (Hf & Hc).
    assert (Hne : x <> id) by (intros ->; contradiction).
    destruct (restoreWindow_other geo W s id x Hne) as (Hf' & Hc').
    rewrite Hf', Hc'. auto. }
  destruct HsB as (HfB & HcB).
  destruct skip; cbn [negb].
  - split; assumption.
  - split.
    + rewrite activateWorkspaceWithoutAnimation_find. exact HfB.
    + rewrite activateWorkspaceWithoutAnimation_cache. exact HcB.
Qed.

(** The stash made by the external-change path: every window of the
    workspace gets its offset inside the monitor recorded under that
    workspace; nothing on the host changes. *)
Lemma saveWorkspaceWindowPositions_stashes (st : State) (M W : nat) (w : Window) :
  List.NoDup (window_ids st) ->
  In w (getWindowsOnWorkspace (host st) W) ->
  let geo := monitor_geometry (host st) M in
  let st1 := saveWorkspaceWindowPositions M W st in
  host st1 = host st /\
  savedWindowPositions (eng st1) !! stable_sequence w =
    Some (mkSavedPos (rect_x (frame_rect w) - rect_x geo) (rect_y (frame_rect w) - rect_y geo) W).
Proof.
  intros Hnd Hin geo st1.
  assert (Hinw : In w (windows (host st))).
  { unfold getWindowsOnWorkspace in Hin. destruct (get_workspace_by_index _ _); [|contradiction].
    apply List.filter_In in Hin. tauto. }
  assert (Hfind : findWindowById st (stable_sequence w) = Some w)
    by (apply find_window_NoDup; assumption).
  set (e := mkSavedPos (rect_x (frame_rect w) - rect_x geo) (rect_y (frame_rect w) - rect_y geo) W).
  subst st1. unfold saveWorkspaceWindowPositions. cbv zeta. fold geo.
  set (L := map getWindowId (getWindowsOnWorkspace (host st) W)).
  assert (HL : In (stable_sequence w) L) by (apply List.in_map; exact Hin).
  set (body := fun (st0 : State) (id : WindowId) => _).
  assert (Hgen : forall l s,
             host s = host st ->
             In (stable_sequence w) l \/ savedWindowPositions (eng s) !! stable_sequence w = Some e ->
             host (fold_left body l s) = host st /\
             savedWindowPositions (eng (fold_left body l s)) !! stable_sequence w = Some e).
  { induction l as [|x l IH]; simpl; intros s Hh Hor.
    - destruct Hor as [[]|Hc]. auto.
    - assert (Hfx : findWindowById s x = findWindowById st x)
        by (apply findWindowById_host; exact Hh).
      apply IH.
      + subst body. cbv beta. rewrite Hfx. destruct (findWindowById st x); exact Hh.
      + destruct (decide (x = stable_sequence w)) as [->|Hne].
        * right. subst body. cbv beta. rewrite Hfx, Hfind. cbn. apply lookup_insert_eq.
        * destruct Hor as [[Hx|Hl]|Hc]; [congruence | left; exact Hl |].
          right. subst body. cbv beta. rewrite Hfx.
          destruct (findWindowById st x) as [wx|] eqn:Hwx; [|exact Hc].
          apply find_window_id in Hwx. cbn. unfold getWindowId. rewrite Hwx.
          rewrite lookup_insert_ne by exact Hne. exact Hc. }
  apply Hgen; [reflexivity | left; exact HL].
Qed.

(** The entry the stash loop of a simple switch of the primary monitor
    leaves in the cache, after the whole switch. *)
Lemma simpleSwitch_Primary_stash_entry (st : State) (M prev target : nat) (skip : bool) (w : Window) :
  List.NoDup (window_ids st) ->
  In w (getWindowsOnMonitor (host st) M false) ->
  prev <> target ->
  let geo := monitor_geometry (host st) M in
  savedWindowPositions (eng (simpleSwitch_Primary M prev target skip st)) !! stable_sequence w =
    Some (mkSavedPos (rect_x (frame_rect w) - rect_x geo) (rect_y (frame_rect w) - rect_y geo) prev).
Proof.
  intros Hnd Hin Hne geo.
  assert (Hinw : In w (windows (host st))) by (apply List.filter_In in Hin; tauto).
  assert (Hfind : findWindowById st (stable_sequence w) = Some w)
    by (apply find_window_NoDup; assumption).
  set (id := stable_sequence w) in *.
  set (e := mkSavedPos (rect_x (frame_rect w) - rect_x geo) (rect_y (frame_rect w) - rect_y geo) prev).
  unfold simpleSwitch_Primary. cbv zeta. fold geo.
  set (obj := get_workspace_by_index (host st) prev).
  set (L1 := map getWindowId (getWindowsOnMonitor (host st) M false)).
  assert (HL1 : In id L1) by (apply List.in_map; exact Hin).
  assert (Hgen : forall l s,
             (exists w2, findWindowById s id = Some w2 /\ frame_rect w2 = frame_rect w) ->
             In id l \/ savedWindowPositions (eng s) !! id = Some e ->
             savedWindowPositions (eng (fold_left (stashWindow geo prev obj) l s)) !! id = Some e).
  { induction l as [|x l IH]; simpl; intros s Hw2 Hor.
    - destruct Hor as [[]|Hc]. exact Hc.
    - destruct (decide (x = id)) as [->|Hx].
      + destruct Hw2 as (w2 & Hf2 & Hfr2).
        pose proof (find_window_id _ _ _ Hf2) as Hid2.
        apply IH.
        * exists (match obj with Some i => with_workspace (Some i) w2 | None => w2 end).
          unfold stashWindow. rewrite Hf2. destruct obj.
          -- rewrite findWindowById_change_workspace.
             rewrite (findWindowById_host (cache_set _ _ s) s) by reflexivity.
             rewrite Hf2. split; [reflexivity | exact Hfr2].
          -- rewrite (findWindowById_windows _ s) by reflexivity. split; [exact Hf2 | exact Hfr2].
        * right. unfold stashWindow. rewrite Hf2. cbn. unfold getWindowId. rewrite Hid2, Hfr2.
          apply lookup_insert_eq.
      + destruct (stashWindow_other geo prev obj s id x Hx) as (Hf' & Hc').
        apply IH.
        * rewrite Hf'. exact Hw2.
        * rewrite Hc'. destruct Hor as [[Hxe|Hl]|Hc]; [congruence | left; exact Hl | right; exact Hc]. }
  set (s1 := fold_left (stashWindow geo prev obj) L1 st).
  assert (Hc1 : savedWindowPositions (eng s1) !! id = Some e).
  { subst s1. apply Hgen; [exists w; split; [exact Hfind | reflexivity] | left; exact HL1]. }
  set (L2 := map getWindowId (getWindowsOnWorkspace (host s1) target)).
  assert (Hc2 : savedWindowPositions (eng (fold_left (restoreWindow geo target) L2 s1)) !! id = Some e).
  { apply (fold_left_invariant (fun s => savedWindowPositions (eng s) !! id = Some e)); [|exact Hc1].
    intros s x _ Hc. destruct (decide (x = id)) as [->|Hx].
    - unfold restoreWindow. rewrite Hc. cbn [wsIndex e].
      destruct (decide (prev = target)); [contradiction | exact Hc].
    - destruct (restoreWindow_other geo target s id x Hx) as (_ & Hc'). rewrite Hc'. exact Hc. }
  destruct skip; cbn [negb]; [exact Hc2|].
  rewrite activateWorkspaceWithoutAnimation_cache. exact Hc2.
Qed.

(** X10. The stash made by a simple switch of the primary monitor: a window
    visible on the monitor gets its offset recorded under the workspace being
    left, and the entry survives the rest of the switch. *)
Lemma simpleSwitch_Primary_stashes (st : State) (M prev target : nat) (skip : bool) (w : Window) :
  List.NoDup (window_ids st) ->
  In w (getWindowsOnMonitor (host st) M false) ->
  prev <> target ->
  let geo := monitor_geometry (host st) M in
  savedWindowPositions (eng (simpleSwitch_Primary M prev target skip st)) !! stable_sequence w =
    Some (mkSavedPos (rect_x (frame_rect w) - rect_x geo) (rect_y (frame_rect w) - rect_y geo) prev).
Proof. exact (simpleSwitch_Primary_stash_entry st M prev target skip w). Qed.

(** X9. The round trip through the two operations: an offset stashed by the
    external-change path and still in the cache when the monitor, with the
    same geometry, is switched back to the workspace puts the window back at
    the position it had when it was stashed. *)
Corollary stash_then_restore_same_position (st0 st2 : State) (M prev W : nat) (skip : bool)
    (w w2 : Window) :
  List.NoDup (window_ids st0) ->
  In w (getWindowsOnWorkspace (host st0) W) ->
  let st1 := saveWorkspaceWindowPositions M W st0 in
  List.NoDup (window_ids st2) ->
  In w2 (getWindowsOnWorkspace (host st2) W) ->
  stable_sequence w2 = stable_sequence w ->
  ~ In w2 (getWindowsOnMonitor (host st2) M false) ->
  savedWindowPositions (eng st2) !! stable_sequence w =
    savedWindowPositions (eng st1) !! stable_sequence w ->
  monitor_geometry (host st2) M = monitor_geometry (host st0) M ->
  exists w',
    findWindowById (simpleSwitch_Primary M prev W skip st2) (stable_sequence w) = Some w' /\
    rect_x (frame_rect w') = rect_x (frame_rect w) /\
    rect_y (frame_rect w') = rect_y (frame_rect w) /\
    savedWindowPositions (eng (simpleSwitch_Primary M prev W skip st2)) !! stable_sequence w = None.
Proof.
  intros Hnd0 Hin0 st1 Hnd2 Hin2 Hid Hhidden Hcache Hgeo.
  destruct (saveWorkspaceWindowPositions_stashes st0 M W w Hnd0 Hin0) as (_ & Hstash).
  fold st1 in Hstash. rewrite Hstash in Hcache. rewrite <- Hid in Hcache.
  destruct (simpleSwitch_Primary_restores st2 M prev W skip w2 _ _ Hnd2 Hin2 Hhidden Hcache)
    as (Hf & Hc).
  eexists. rewrite <- Hid. split; [exact Hf|].
  rewrite Hgeo. cbn. repeat split; [lia | lia | exact Hc].
Qed.

(** ** The one-monitor-per-workspace invariant *)

(** C1 fails at initialisation.  Two monitors, the primary one being monitor
    1, the host on workspace 0: the primary monitor gets workspace 0, and
    monitor 0 gets [(0 + 0) mod 10 = 0] as well. *)
Lemma initializeMapping_collision :
  let st := mkState (sample_host [left_monitor; right_monitor] 1 (10, 10) 0 [])
                    (sample_engine []) in
  let m := monitorWorkspaceMap (eng (initializeMapping st)) in
  m = [(0, 0); (1, 0)]%nat /\
  JsMap.get 0%nat m = Some 0%nat /\
  JsMap.get 1%nat m = Some 0%nat /\
  ~ mapping_injective m.
Proof.
  intros st m.
  assert (Hm : m = [(0, 0); (1, 0)]%nat) by reflexivity.
  split; [exact Hm|]. rewrite Hm. split; [reflexivity|]. split; [reflexivity|].
  intros Hinj. specialize (Hinj 0%nat 1%nat 0%nat eq_refl eq_refl). discriminate.
Qed.

(** The same happens on a monitor hot-plug, which clears the map and runs the
    initialisation again. *)
Lemma onMonitorsChanged_collision :
  let st := mkState (sample_host [left_monitor; right_monitor] 1 (10, 10) 0 [])
                    (sample_engine [(0, 3); (1, 0)]%nat) in
  mapping_injective (monitorWorkspaceMap (eng st)) /\
  monitorWorkspaceMap (eng (onMonitorsChanged st)) = [(0, 0); (1, 0)]%nat.
Proof.
  intros st. split; [|reflexivity].
  intros m1 m2 ws H1 H2. simpl in H1, H2.
  repeat case_decide; congruence.
Qed.

(** The restore of the snapshot after enable writes the recorded workspace
    back without looking at the other monitors: monitor 1 had a window and
    displayed workspace 2 before disable, monitor 2 had none; after enable the
    fresh map is 0, 1, 2 and the restore sets monitor 1 to workspace 2, which
    monitor 2 displays already. *)
Lemma restoreSavedSecondaryWindows_collision :
  let third_monitor := mkRect 3840 0 1920 1080 in
  let st := mkState (sample_host [left_monitor; right_monitor; third_monitor] 0 (10, 10) 0
                       [sample_window 7 100 100 400 300 (Some 0%nat)])
                    (with_savedWindowsBeforeDisable
                       [(7%nat, mkSavedInfo 1 2 180 100 400 300)]
                       (sample_engine [(0, 0); (1, 1); (2, 2)]%nat)) in
  mapping_injective (monitorWorkspaceMap (eng st)) /\
  monitorWorkspaceMap (eng (restoreSavedSecondaryWindows st)) = [(0, 0); (1, 2); (2, 2)]%nat.
Proof.
  intros third_monitor st. split; [|reflexivity].
  intros m1 m2 ws H1 H2. simpl in H1, H2.
  repeat case_decide; congruence.
Qed.

(** *** Where the invariant is kept *)

Lemma get_set (k k' v : nat) (m : list (nat * nat)) :
  JsMap.get k' (JsMap.set k v m) = if decide (k = k') then Some v else JsMap.get k' m.
Proof.
  destruct (decide (k = k')) as [->|Hne].
  - apply JsMapFacts.get_set_same.
  - apply JsMapFacts.get_set_other. exact Hne.
Qed.

Lemma get_Some_key (k v : nat) (m : list (nat * nat)) :
  JsMap.get k m = Some v -> In k (JsMap.keys m).
Proof.
  induction m as [|[k0 v0] m IH]; simpl; [discriminate|].
  destruct (decide (k0 = k)); [left; assumption | right; apply IH; assumption].
Qed.

Lemma in_keys_set (a k v : nat) (m : list (nat * nat)) :
  In a (JsMap.keys (JsMap.set k v m)) <-> a = k \/ In a (JsMap.keys m).
Proof.
  unfold JsMap.keys. induction m as [|[k0 v0] m IH]; simpl.
  - intuition.
  - destruct (decide (k0 = k)) as [->|Hne]; simpl; [intuition|].
    rewrite IH. intuition.
Qed.

Lemma set_keys_NoDup (k v : nat) (m : list (nat * nat)) :
  List.NoDup (JsMap.keys m) -> List.NoDup (JsMap.keys (JsMap.set k v m)).
Proof.
  induction m as [|[k0 v0] m IH]; simpl; intros Hnd.
  - constructor; [intros [] | constructor].
  - apply List.NoDup_cons_iff in Hnd as [Hnotin Hnd].
    destruct (decide (k0 = k)) as [->|Hne]; simpl.
    + apply List.NoDup_cons_iff. split; assumption.
    + apply List.NoDup_cons_iff. split; [|apply IH; exact Hnd].
      intros Hin. apply in_keys_set in Hin as [->|Hin]; [congruence | contradiction].
Qed.

Lemma first_monitor_showing_None ws m :
  first_monitor_showing ws m = None -> forall k, JsMap.get k m <> Some ws.
Proof.
  induction m as [|[k0 v0] m IH]; simpl; intros Hnone k; [discriminate|].
  destruct (decide (v0 = ws)); [discriminate|].
  destruct (decide (k0 = k)); [congruence | apply IH; exact Hnone].
Qed.

Lemma first_monitor_showing_Some ws m k :
  List.NoDup (JsMap.keys m) ->
  first_monitor_showing ws m = Some k -> JsMap.get k m = Some ws.
Proof.
  induction m as [|[k0 v0] m IH]; simpl; intros Hnd Hsome; [discriminate|].
  apply List.NoDup_cons_iff in Hnd as [Hnotin Hnd].
  destruct (decide (v0 = ws)) as [->|Hv].
  - injection Hsome as ->. destruct (decide (k = k)); congruence.
  - specialize (IH Hnd Hsome). destruct (decide (k0 = k)) as [->|_]; [|exact IH].
    exfalso. apply Hnotin. eapply get_Some_key. exact IH.
Qed.

Lemma injective_set_fresh m cur ws :
  mapping_injective m ->
  (forall k, k <> cur -> JsMap.get k m <> Some ws) ->
  mapping_injective (JsMap.set cur ws m).
Proof.
  intros Hinj Hfresh a b v. rewrite !get_set.
  destruct (decide (cur = a)) as [<-|Ha], (decide (cur = b)) as [<-|Hb]; intros H1 H2.
  - reflexivity.
  - injection H1 as <-. exfalso. apply (Hfresh b); [congruence | exact H2].
  - injection H2 as <-. exfalso. apply (Hfresh a); [congruence | exact H1].
  - eapply Hinj; eassumption.
Qed.

Lemma injective_swap m m1 m2 w1 w2 :
  mapping_injective m ->
  JsMap.get m1 m = Some w1 ->
  JsMap.get m2 m = Some w2 ->
  mapping_injective (JsMap.set m2 w1 (JsMap.set m1 w2 m)).
Proof.
  intros Hinj H1 H2 a b v. rewrite !get_set.
  repeat case_decide; intros Ga Gb; simplify_eq; saturate_injective Hinj; congruence.
Qed.

Lemma focusWindowAtPosition_eng x y monitor st :
  eng (focusWindowAtPosition x y monitor st) = eng st.
Proof. unfold focusWindowAtPosition, unfocusAllWindows. frame. Qed.

Lemma warpPointerToMonitor_map monitor st :
  monitorWorkspaceMap (eng (warpPointerToMonitor monitor st)) = monitorWorkspaceMap (eng st).
Proof.
  unfold warpPointerToMonitor.
  repeat case_match; simplify_eq; cbn [eng on_host on_eng delete_lastWindow];
    rewrite ?focusWindowAtPosition_eng; reflexivity.
Qed.

Lemma simpleSwitch_Primary_map monitor previousWs targetWs skipActivate st :
  monitorWorkspaceMap (eng (simpleSwitch_Primary monitor previousWs targetWs skipActivate st)) =
  monitorWorkspaceMap (eng st).
Proof.
  unfold simpleSwitch_Primary. cbv zeta.
  assert (Hact : forall ws s, monitorWorkspaceMap (eng (activateWorkspaceWithoutAnimation ws s)) =
                              monitorWorkspaceMap (eng s))
    by (intros; unfold activateWorkspaceWithoutAnimation; frame).
  destruct (negb skipActivate); rewrite ?Hact;
    rewrite !(fold_left_preserves (fun s => monitorWorkspaceMap (eng s))); try reflexivity;
    intros s x; unfold restoreWindow, stashWindow; frame.
Qed.

Lemma simpleSwitch_Secondary_map monitor previousWs targetWs st :
  monitorWorkspaceMap (eng (simpleSwitch_Secondary monitor previousWs targetWs st)) =
  monitorWorkspaceMap (eng st).
Proof.
  unfold simpleSwitch_Secondary. cbv zeta.
  rewrite !(fold_left_preserves (fun s => monitorWorkspaceMap (eng s))); try reflexivity;
    intros s x; unfold carryWindow; frame.
Qed.

Lemma saveWorkspaceWindowPositions_map monitor ws st :
  monitorWorkspaceMap (eng (saveWorkspaceWindowPositions monitor ws st)) =
  monitorWorkspaceMap (eng st).
Proof.
  unfold saveWorkspaceWindowPositions. cbv zeta.
  rewrite (fold_left_preserves (fun s => monitorWorkspaceMap (eng s))); [reflexivity|].
  intros s x. frame.
Qed.

Lemma ensureWorkspaceExists_settings wsIndex h :
  settings (ensureWorkspaceExists wsIndex h) = settings h.
Proof.
  unfold ensureWorkspaceExists. induction (S wsIndex - n_workspaces h)%nat as [|n IH];
    [reflexivity | exact IH].
Qed.

Lemma finish_switch_map s a b c d :
  monitorWorkspaceMap
    (eng (timeout_add 200 (FocusAfterSwitch a b)
            (restorePointerPosition c d (banner_show a b (indicator_update s))))) =
  monitorWorkspaceMap (eng s).
Proof.
  cbn [timeout_add on_eng eng monitorWorkspaceMap with_timers].
  destruct (restorePointerPosition_frame c d (banner_show a b (indicator_update s))) as (_ & Hr & _).
  destruct (banner_show_frame a b (indicator_update s)) as (_ & Hb & _).
  destruct (indicator_update_frame s) as (_ & Hi & _).
  unfold engine_maps in Hr. injection Hr as Hr _ _ _ _ _.
  etransitivity; [exact Hr|]. rewrite Hb, Hi. reflexivity.
Qed.

(** The map a switch request leaves, case by case. *)
Lemma switchWorkspace_map targetWs st :
  let cur := getMonitorAtPointer (host st) in
  let prev := displayed_ws st cur in
  let m := monitorWorkspaceMap (eng st) in
  monitorWorkspaceMap (eng (switchWorkspace targetWs st)) =
    if decide (targetWs = prev) then m
    else match first_monitor_showing targetWs m with
         | Some existing =>
             if decide (existing = cur) then JsMap.set cur targetWs m
             else if String.eqb (workspace_switch_mode (settings (host st))) "warp" then m
             else JsMap.set existing prev (JsMap.set cur targetWs m)
         | None => JsMap.set cur targetWs m
         end.
Proof.
  intros cur prev m. unfold switchWorkspace.
  destruct (pointer (host st)) as [px py]. fold cur. fold prev.
  destruct (decide (targetWs = prev)); [reflexivity|].
  unfold getMonitorForWorkspace. cbn [eng on_host]. fold m.
  assert (Hsimple : forall s,
            monitorWorkspaceMap
              (eng (map_set cur targetWs
                      (if decide (cur = primary_monitor (host st))
                       then simpleSwitch_Primary cur prev targetWs false s
                       else simpleSwitch_Secondary cur prev targetWs s))) =
            JsMap.set cur targetWs (monitorWorkspaceMap (eng s))).
  { intros s. cbn [map_set on_eng eng monitorWorkspaceMap with_monitorWorkspaceMap].
    destruct (decide _); rewrite ?simpleSwitch_Primary_map, ?simpleSwitch_Secondary_map; reflexivity. }
  destruct (first_monitor_showing targetWs m) as [existing|].
  - destruct (decide (existing = cur)).
    + rewrite finish_switch_map. apply Hsimple.
    + pose proof (f_equal (fun s => String.eqb (workspace_switch_mode s) "warp")
                    (ensureWorkspaceExists_settings targetWs (host st))) as Hmode.
      cbv beta in Hmode.
      match goal with |- monitorWorkspaceMap (eng (if ?c then _ else _)) = _ =>
        replace c with (String.eqb (workspace_switch_mode (settings (host st))) "warp")
          by (symmetry; exact Hmode)
      end.
      clear Hmode.
      destruct (String.eqb (workspace_switch_mode (settings (host st))) "warp").
      * destruct (banner_show_frame existing targetWs
                    (indicator_update
                       (warpPointerToMonitor existing
                          (mkState (ensureWorkspaceExists targetWs (host st)) (eng st)))))
          as (_ & Hb & _).
        destruct (indicator_update_frame
                    (warpPointerToMonitor existing
                       (mkState (ensureWorkspaceExists targetWs (host st)) (eng st))))
          as (_ & Hi & _).
        etransitivity; [exact (f_equal monitorWorkspaceMap Hb)|].
        etransitivity; [exact (f_equal monitorWorkspaceMap Hi)|].
        apply warpPointerToMonitor_map.
      * rewrite finish_switch_map, performSwap_map. reflexivity.
  - rewrite finish_switch_map. apply Hsimple.
Qed.

Lemma onSystemWorkspaceChanged_map st :
  let P := primary_monitor (host st) in
  let prev := displayed_ws st P in
  let targetWs := active_workspace (host st) in
  let m := monitorWorkspaceMap (eng st) in
  monitorWorkspaceMap (eng (onSystemWorkspaceChanged st)) =
    if isInternalSwitch (eng st) then m
    else if decide (targetWs = prev) then m
    else match first_monitor_showing targetWs m with
         | Some existing =>
             if decide (existing = P) then JsMap.set P targetWs m
             else JsMap.set existing prev (JsMap.set P targetWs m)
         | None => JsMap.set P targetWs m
         end.
Proof.
  intros P prev targetWs m. unfold onSystemWorkspaceChanged.
  destruct (isInternalSwitch (eng st)); [reflexivity|].
  fold P. fold prev. fold targetWs.
  destruct (decide (targetWs = prev)); [reflexivity|].
  unfold getMonitorForWorkspace. fold m.
  assert (Hind : forall s, monitorWorkspaceMap (eng (indicator_update s)) = monitorWorkspaceMap (eng s)).
  { intros s. destruct (indicator_update_frame s) as (_ & Hi & _).
    exact (f_equal monitorWorkspaceMap Hi). }
  assert (Hsimple : monitorWorkspaceMap
                      (eng (map_set P targetWs (saveWorkspaceWindowPositions P prev st))) =
                    JsMap.set P targetWs m).
  { cbn [map_set on_eng eng monitorWorkspaceMap with_monitorWorkspaceMap].
    rewrite saveWorkspaceWindowPositions_map. reflexivity. }
  rewrite Hind.
  destruct (first_monitor_showing targetWs m) as [existing|]; [|exact Hsimple].
  destruct (decide (existing = P)); [exact Hsimple|].
  apply performSwap_map.
Qed.

(** X7. A switch request keeps the invariant that no two monitors display
    the same workspace: the simple switch only installs a
    workspace no monitor displays, the swap exchanges two entries, the warp
    changes nothing. *)
Theorem switchWorkspace_keeps_injective (targetWs : nat) (st : State) :
  List.NoDup (JsMap.keys (monitorWorkspaceMap (eng st))) ->
  mapping_injective (monitorWorkspaceMap (eng st)) ->
  is_Some (JsMap.get (getMonitorAtPointer (host st)) (monitorWorkspaceMap (eng st))) ->
  mapping_injective (monitorWorkspaceMap (eng (switchWorkspace targetWs st))) /\
  List.NoDup (JsMap.keys (monitorWorkspaceMap (eng (switchWorkspace targetWs st)))).
Proof.
  intros Hnd Hinj [prev Hprev]. rewrite switchWorkspace_map. cbv zeta.
  assert (Hd : displayed_ws st (getMonitorAtPointer (host st)) = prev)
    by (unfold displayed_ws; rewrite Hprev; reflexivity).
  rewrite Hd. set (cur := getMonitorAtPointer (host st)) in *.
  set (m := monitorWorkspaceMap (eng st)) in *.
  destruct (decide (targetWs = prev)) as [|Hne]; [split; assumption|].
  destruct (first_monitor_showing targetWs m) as [existing|] eqn:Hshow.
  - pose proof (first_monitor_showing_Some _ _ _ Hnd Hshow) as Hex.
    destruct (decide (existing = cur)) as [->|Hec]; [congruence|].
    destruct (String.eqb _ "warp"); [split; assumption|].
    split; [apply injective_swap; assumption | do 2 apply set_keys_NoDup; exact Hnd].
  - split; [|apply set_keys_NoDup; exact Hnd].
    apply injective_set_fresh; [exact Hinj|].
    intros k _. apply first_monitor_showing_None. exact Hshow.
Qed.

(** X8. The handler of an external workspace change keeps the invariant
    that no two monitors display the same workspace. *)
Theorem onSystemWorkspaceChanged_keeps_injective (st : State) :
  List.NoDup (JsMap.keys (monitorWorkspaceMap (eng st))) ->
  mapping_injective (monitorWorkspaceMap (eng st)) ->
  is_Some (JsMap.get (primary_monitor (host st)) (monitorWorkspaceMap (eng st))) ->
  mapping_injective (monitorWorkspaceMap (eng (onSystemWorkspaceChanged st))) /\
  List.NoDup (JsMap.keys (monitorWorkspaceMap (eng (onSystemWorkspaceChanged st)))).
Proof.
  intros Hnd Hinj [prev Hprev]. rewrite onSystemWorkspaceChanged_map. cbv zeta.
  assert (Hd : displayed_ws st (primary_monitor (host st)) = prev)
    by (unfold displayed_ws; rewrite Hprev; reflexivity).
  rewrite Hd. set (P := primary_monitor (host st)) in *.
  set (m := monitorWorkspaceMap (eng st)) in *.
  set (targetWs := active_workspace (host st)).
  destruct (isInternalSwitch (eng st)); [split; assumption|].
  destruct (decide (targetWs = prev)) as [|Hne]; [split; assumption|].
  destruct (first_monitor_showing targetWs m) as [existing|] eqn:Hshow.
  - pose proof (first_monitor_showing_Some _ _ _ Hnd Hshow) as Hex.
    destruct (decide (existing = P)) as [->|Hec]; [congruence|].
    split; [apply injective_swap; assumption | do 2 apply set_keys_NoDup; exact Hnd].
  - split; [|apply set_keys_NoDup; exact Hnd].
    apply injective_set_fresh; [exact Hinj|].
    intros k _. apply first_monitor_showing_None. exact Hshow.
Qed.

(** The workspace the initialisation gives monitor [i]. *)
Lemma initializeMapping_map st :
  let P := primary_monitor (host st) in
  let c := active_workspace (host st) in
  monitorWorkspaceMap (eng (initializeMapping st)) =
  fold_left (fun m i => JsMap.set i (if decide (i = P) then c else ((c + i) mod 10)%nat) m)
    (seq 0 (length (monitors (host st)))) (monitorWorkspaceMap (eng st)).
Proof.
  intros P c. unfold initializeMapping. cbv zeta. fold P. fold c.
  change (monitorWorkspaceMap (eng st))
    with (monitorWorkspaceMap (eng (on_host (ensureWorkspaceExists 9) st))).
  generalize (on_host (ensureWorkspaceExists 9) st).
  induction (seq 0 (length (monitors (host st)))) as [|i l IH]; intros s; simpl; [reflexivity|].
  rewrite IH. f_equal. destruct (decide (i = P)); reflexivity.
Qed.

Lemma get_fold_set_in (f : nat -> nat) (l : list nat) (m0 : list (nat * nat)) (k : nat) :
  In k l \/ JsMap.get k m0 = Some (f k) ->
  JsMap.get k (fold_left (fun m i => JsMap.set i (f i) m) l m0) = Some (f k).
Proof.
  revert m0. induction l as [|x l IH]; simpl; intros m0 Hor.
  - destruct Hor as [[]|H]. exact H.
  - apply IH. rewrite get_set. destruct (decide (x = k)) as [->|Hne]; [right; reflexivity|].
    destruct Hor as [[H|H]|H]; [congruence | left; exact H | right; exact H].
Qed.

Lemma get_fold_set_notin (f : nat -> nat) (l : list nat) (m0 : list (nat * nat)) (k : nat) :
  ~ In k l ->
  JsMap.get k (fold_left (fun m i => JsMap.set i (f i) m) l m0) = JsMap.get k m0.
Proof.
  revert m0. induction l as [|x l IH]; simpl; intros m0 Hnot; [reflexivity|].
  rewrite IH by tauto. rewrite get_set. destruct (decide (x = k)); [tauto | reflexivity].
Qed.

(** X6. With the primary monitor being monitor 0 and at most ten monitors, the
    initialisation of an empty map gives every monitor a workspace of its
    own. *)
Theorem initializeMapping_injective (st : State) :
  primary_monitor (host st) = 0%nat ->
  (length (monitors (host st)) <= 10)%nat ->
  monitorWorkspaceMap (eng st) = [] ->
  mapping_injective (monitorWorkspaceMap (eng (initializeMapping st))).
Proof.
  intros HP Hn Hempty a b v. rewrite initializeMapping_map. cbv zeta. rewrite HP, Hempty.
  set (c := active_workspace (host st)).
  set (f := fun i : nat => if decide (i = 0%nat) then c else ((c + i) mod 10)%nat).
  assert (Hin : forall k w, JsMap.get k (fold_left (fun m i => JsMap.set i (f i) m)
                                           (seq 0 (length (monitors (host st)))) []) = Some w ->
                            (k < 10)%nat /\ w = f k).
  { intros k w Hk.
    destruct (List.in_dec Nat.eq_dec k (seq 0 (length (monitors (host st))))) as [Hi|Hni].
    - rewrite get_fold_set_in in Hk by (left; exact Hi). apply List.in_seq in Hi.
      split; [lia | congruence].
    - rewrite get_fold_set_notin in Hk by exact Hni. discriminate. }
  intros Ha Hb. apply Hin in Ha as [Ha ->]. apply Hin in Hb as [Hb Heq].
  subst f. cbv beta in Heq.
  pose proof (Nat.mod_upper_bound (c + a) 10 ltac:(lia)).
  pose proof (Nat.mod_upper_bound (c + b) 10 ltac:(lia)).
  pose proof (Nat.div_mod_eq (c + a) 10).
  pose proof (Nat.div_mod_eq (c + b) 10).
  destruct (decide (a = 0%nat)), (decide (b = 0%nat)); lia.
Qed.

(** ** The scenarios of the design document, run on the model *)

(** Three monitors showing workspaces 0, 1, 2; a switch to workspace 1 with
    the pointer on monitor 0 swaps monitors 0 and 1 and leaves monitor 2. *)
Example scenario_swap_three_monitors :
  let st := mkState (sample_host [left_monitor; right_monitor; mkRect 3840 0 1920 1080]
                       0 (10, 10) 0
                       [sample_window 7 100 100 400 300 (Some 0%nat);
                        sample_window 8 2100 100 400 300 None])
                    (sample_engine [(0, 0); (1, 1); (2, 2)]%nat) in
  let st' := switchWorkspace 1 st in
  monitorWorkspaceMap (eng st') = [(0, 1); (1, 0); (2, 2)]%nat /\
  frame_rect <$> findWindowById st' 7 = Some (mkRect 2020 100 400 300) /\
  frame_rect <$> findWindowById st' 8 = Some (mkRect 180 100 400 300) /\
  active_workspace (host st') = 1%nat.
Proof. vm_compute. repeat split. Qed.

(** One monitor; a switch to workspace 5, displayed nowhere, is a simple
    switch. *)
Example scenario_simple_switch :
  let st := mkState (sample_host [left_monitor] 0 (10, 10) 0
                       [sample_window 7 100 100 400 300 (Some 0%nat)])
                    (sample_engine [(0, 0)]%nat) in
  let st' := switchWorkspace 5 st in
  monitorWorkspaceMap (eng st') = [(0, 5)]%nat /\
  savedWindowPositions (eng st') !! 7%nat = Some (mkSavedPos 100 100 0) /\
  active_workspace (host st') = 5%nat.
Proof. vm_compute. repeat split. Qed.

(** * Further properties of the engine *)

(** ** Invariant, witnesses *)

Lemma initializeMapping_injective_witness :
  let st := mkState (sample_host [left_monitor; right_monitor; mkRect 3840 0 1920 1080]
                       0 (10, 10) 8 [])
                    (sample_engine []) in
  monitorWorkspaceMap (eng (initializeMapping st)) = [(0, 8); (1, 9); (2, 0)]%nat /\
  mapping_injective (monitorWorkspaceMap (eng (initializeMapping st))).
Proof.
  intros st. split; [reflexivity|].
  apply (initializeMapping_injective st); [reflexivity | simpl; lia | reflexivity].
Defined.

Lemma switchWorkspace_keeps_injective_witness :
  let st := mkState (sample_host [left_monitor; right_monitor] 0 (2000, 10) 3
                       [sample_window 7 2100 100 400 300 None])
                    (sample_engine [(0, 3); (1, 5)]%nat) in
  mapping_injective (monitorWorkspaceMap (eng (switchWorkspace 3 st))) /\
  List.NoDup (JsMap.keys (monitorWorkspaceMap (eng (switchWorkspace 3 st)))).
Proof.
  intros st. apply (switchWorkspace_keeps_injective 3 st).
  - repeat constructor; simpl; intuition discriminate.
  - intros m1 m2 ws H1 H2. simpl in H1, H2. repeat case_decide; congruence.
  - eexists. reflexivity.
Defined.

Lemma onSystemWorkspaceChanged_keeps_injective_witness :
  let st := mkState (sample_host [left_monitor; right_monitor] 0 (10, 10) 5
                       [sample_window 7 2100 100 400 300 None])
                    (sample_engine [(0, 3); (1, 5)]%nat) in
  mapping_injective (monitorWorkspaceMap (eng (onSystemWorkspaceChanged st))) /\
  List.NoDup (JsMap.keys (monitorWorkspaceMap (eng (onSystemWorkspaceChanged st)))).
Proof.
  intros st. apply (onSystemWorkspaceChanged_keeps_injective st).
  - repeat constructor; simpl; intuition discriminate.
  - intros m1 m2 ws H1 H2. simpl in H1, H2. repeat case_decide; congruence.
  - eexists. reflexivity.
Defined.

(** ** Lookup of the monitor that shows a workspace *)

Lemma first_monitor_showing_first ws m k :
  first_monitor_showing ws m = Some k ->
  exists before after,
    m = before ++ (k, ws) :: after /\ (forall kv, In kv before -> snd kv <> ws).
Proof.
  induction m as [|[k0 v0] m IH]; simpl; intros Hsome; [discriminate|].
  destruct (decide (v0 = ws)) as [->|Hv].
  - injection Hsome as ->. exists [], m. split; [reflexivity | intros kv []].
  - destruct (IH Hsome) as (before & after & -> & Hbefore).
    exists ((k0, v0) :: before), after. split; [reflexivity|].
    intros kv [<-|Hin]; [exact Hv | apply Hbefore; exact Hin].
Qed.

(** X1. [_getMonitorForWorkspace] on a map with unique keys: it answers
    [null] exactly when no monitor displays the workspace; an answer [k] is a
    monitor that displays it, and it is the first one in insertion order. *)
Theorem getMonitorForWorkspace_spec (st : State) (ws : nat) :
  List.NoDup (JsMap.keys (monitorWorkspaceMap (eng st))) ->
  (getMonitorForWorkspace st ws = None <->
   forall k, JsMap.get k (monitorWorkspaceMap (eng st)) <> Some ws) /\
  (forall k, getMonitorForWorkspace st ws = Some k ->
     JsMap.get k (monitorWorkspaceMap (eng st)) = Some ws /\
     exists before after,
       monitorWorkspaceMap (eng st) = before ++ (k, ws) :: after /\
       forall kv, In kv before -> snd kv <> ws).
Proof.
  intros Hnd. unfold getMonitorForWorkspace. split; [split|].
  - apply first_monitor_showing_None.
  - intros Hnone. destruct (first_monitor_showing ws _) as [k|] eqn:Hk; [|reflexivity].
    exfalso. apply (Hnone k). apply first_monitor_showing_Some; assumption.
  - intros k Hk. split; [apply first_monitor_showing_Some; assumption|].
    apply first_monitor_showing_first. exact Hk.
Qed.

Lemma getMonitorForWorkspace_spec_witness :
  let st := mkState (sample_host [left_monitor; right_monitor] 0 (10, 10) 3 [])
                    (sample_engine [(0, 3); (1, 5)]%nat) in
  getMonitorForWorkspace st 5 = Some 1%nat /\
  JsMap.get 1%nat (monitorWorkspaceMap (eng st)) = Some 5%nat /\
  (getMonitorForWorkspace st 4 = None <->
   forall k, JsMap.get k (monitorWorkspaceMap (eng st)) <> Some 4%nat).
Proof.
  intros st.
  assert (Hnd : List.NoDup (JsMap.keys (monitorWorkspaceMap (eng st))))
    by (repeat constructor; simpl; intuition discriminate).
  destruct (getMonitorForWorkspace_spec st 5 Hnd) as (_ & Hsome).
  destruct (getMonitorForWorkspace_spec st 4 Hnd) as (Hnone & _).
  split; [reflexivity|]. split; [|exact Hnone].
  apply (Hsome 1%nat). reflexivity.
Defined.

(** ** Pointer restore *)

(** X2. After [_doPointerRestore] the pointer is within 5 pixels of the saved
    position on both axes: a pointer that drifted further is warped back onto
    the saved position, a pointer within the threshold is left alone and then
    nothing at all changes. *)
Theorem doPointerRestore_within_threshold (savedX savedY : Z) (st : State) :
  let st' := doPointerRestore savedX savedY st in
  Z.abs (fst (pointer (host st')) - savedX) <= 5 /\
  Z.abs (snd (pointer (host st')) - savedY) <= 5 /\
  (Z.abs (fst (pointer (host st)) - savedX) <= 5 ->
   Z.abs (snd (pointer (host st)) - savedY) <= 5 -> st' = st) /\
  (5 < Z.abs (fst (pointer (host st)) - savedX) \/ 5 < Z.abs (snd (pointer (host st)) - savedY) ->
   pointer (host st') = (savedX, savedY)) /\
  windows (host st') = windows (host st) /\
  eng st' = eng st.
Proof.
  unfold doPointerRestore. destruct (pointer (host st)) as [cx cy] eqn:Hp. cbn [fst snd].
  destruct (Z.ltb_spec 5 (Z.abs (cx - savedX))) as [Hx|Hx];
    destruct (Z.ltb_spec 5 (Z.abs (cy - savedY))) as [Hy|Hy]; cbn [orb];
    try (cbn; repeat split; try reflexivity; lia).
  cbv zeta. rewrite ?Hp. cbn [fst snd].
  repeat split; try reflexivity; try lia.
Qed.

(** ** Workspace pool *)

Lemma iter_append_n_workspaces (k : nat) (h : Host) :
  n_workspaces (Nat.iter k append_new_workspace h) = (n_workspaces h + k)%nat /\
  windows (Nat.iter k append_new_workspace h) = windows h /\
  monitors (Nat.iter k append_new_workspace h) = monitors h /\
  active_workspace (Nat.iter k append_new_workspace h) = active_workspace h /\
  pointer (Nat.iter k append_new_workspace h) = pointer h /\
  primary_monitor (Nat.iter k append_new_workspace h) = primary_monitor h /\
  calls (Nat.iter k append_new_workspace h) = calls h ++ repeat AppendNewWorkspace k.
Proof.
  induction k as [|k IH].
  - cbn [Nat.iter repeat]. rewrite Nat.add_0_r, List.app_nil_r. repeat split.
  - destruct IH as (Hn & Hw & Hm & Ha & Hp & Hpr & Hc).
    cbn [Nat.iter]. set (h0 := Nat.iter k append_new_workspace h) in *.
    split; [|split; [|split; [|split; [|split; [|split]]]]].
    + transitivity (S (n_workspaces h0)); [reflexivity|]. rewrite Hn. lia.
    + transitivity (windows h0); [reflexivity | exact Hw].
    + transitivity (monitors h0); [reflexivity | exact Hm].
    + transitivity (active_workspace h0); [reflexivity | exact Ha].
    + transitivity (pointer h0); [reflexivity | exact Hp].
    + transitivity (primary_monitor h0); [reflexivity | exact Hpr].
    + transitivity (calls h0 ++ [AppendNewWorkspace]); [reflexivity|].
      rewrite Hc, <- List.app_assoc. f_equal.
      change (repeat AppendNewWorkspace k ++ [AppendNewWorkspace] =
              repeat AppendNewWorkspace (S k)).
      symmetry. apply List.repeat_cons.
Qed.

(** X3. [_ensureWorkspaceExists(i)] leaves a pool of [max n (i+1)]
    workspaces, so workspace [i] exists afterwards; it appends exactly the
    missing workspaces and nothing when [i] exists already; it touches no
    window, monitor, pointer or the active workspace. *)
Theorem ensureWorkspaceExists_pool (wsIndex : nat) (h : Host) :
  let h' := ensureWorkspaceExists wsIndex h in
  n_workspaces h' = Nat.max (n_workspaces h) (S wsIndex) /\
  get_workspace_by_index h' wsIndex = Some wsIndex /\
  calls h' = calls h ++ repeat AppendNewWorkspace (S wsIndex - n_workspaces h) /\
  ((wsIndex < n_workspaces h)%nat -> h' = h) /\
  windows h' = windows h /\ monitors h' = monitors h /\
  pointer h' = pointer h /\ active_workspace h' = active_workspace h.
Proof.
  intros h'. subst h'. unfold ensureWorkspaceExists.
  destruct (iter_append_n_workspaces (S wsIndex - n_workspaces h) h)
    as (Hn & Hw & Hm & Ha & Hp & _ & Hc).
  split; [rewrite Hn; lia|]. split.
  - unfold get_workspace_by_index. rewrite Hn.
    destruct (Nat.ltb_spec wsIndex (n_workspaces h + (S wsIndex - n_workspaces h))); [reflexivity | lia].
  - split; [exact Hc|]. split; [|auto].
    intros Hlt. replace (S wsIndex - n_workspaces h)%nat with 0%nat by lia. reflexivity.
Qed.

(** ** New-window bookkeeping *)

Lemma onWindowCreated_already_processed (window : WindowId) (w : Window) (st : State) :
  findWindowById st window = Some w ->
  getWindowId w ∈ recentlyProcessedWindows (eng st) ->
  onWindowCreated window st = st.
Proof.
  intros Hw Hin. unfold onWindowCreated. rewrite Hw.
  rewrite bool_decide_eq_true_2 by exact Hin. reflexivity.
Qed.

(** X4. The creation handler is idempotent: a second notification for the
    same window (the [map] signal after [window-created]) changes nothing,
    whether the first one was processed or skipped. *)
Theorem onWindowCreated_idempotent (window : WindowId) (st : State) :
  onWindowCreated window (onWindowCreated window st) = onWindowCreated window st.
Proof.
  unfold onWindowCreated at 2 3.
  destruct (findWindowById st window) as [w|] eqn:Hw.
  2: { unfold onWindowCreated. rewrite Hw. reflexivity. }
  destruct (bool_decide (getWindowId w ∈ recentlyProcessedWindows (eng st))) eqn:Hrec.
  { apply (onWindowCreated_already_processed window w); [exact Hw|].
    apply bool_decide_eq_true in Hrec. exact Hrec. }
  destruct (window_type w) eqn:Ht.
  3: { unfold onWindowCreated. rewrite Hw, Hrec, Ht. reflexivity. }
  all: destruct (skip_taskbar w) eqn:Hs;
    [unfold onWindowCreated; rewrite Hw, Hrec, Ht, Hs; reflexivity|].
  all: cbv zeta; apply (onWindowCreated_already_processed window w);
    [rewrite <- Hw; apply findWindowById_host; reflexivity
    | apply elem_of_union_l, elem_of_singleton; reflexivity].
Qed.

(** X5. The deferred placement never leaves the pending mark behind when its
    target monitor exists or the window is gone; for a window destroyed
    before the placement runs, removing the mark is all it does. *)
Theorem moveWindowToMonitor_clears_pending (window : WindowId) (targetMonitor : nat) (st : State) :
  is_Some (get_monitor_geometry (host st) targetMonitor) \/ findWindowById st window = None ->
  let st' := moveWindowToMonitor window targetMonitor (Some window) st in
  windowsPendingPlacement (eng st') !! window = None /\
  (findWindowById st window = None ->
   host st' = host st /\
   windowsPendingPlacement (eng st') = delete window (windowsPendingPlacement (eng st)) /\
   monitorWorkspaceMap (eng st') = monitorWorkspaceMap (eng st) /\
   timers (eng st') = timers (eng st)).
Proof.
  intros Hor st'. subst st'. unfold moveWindowToMonitor.
  destruct (findWindowById st window) as [w|] eqn:Hw.
  - destruct Hor as [[geo Hgeo]|Hnone]; [|discriminate]. rewrite Hgeo.
    split; [|discriminate].
    destruct (decide (getWindowMonitor (host st) w = Some targetMonitor)).
    + match goal with |- context [finishWindowPlacement window (Some window) ?x ?y ?s] =>
        destruct (finishWindowPlacement_frame window window x y s) as (_ & Hfp)
      end.
      rewrite Hfp. apply lookup_delete_eq.
    + destruct (match getWindowMonitor (host st) w ≫= get_monitor_geometry (host st) with
                | Some sourceGeo => _ | None => _ end) as [relX relY].
      match goal with |- context [finishWindowPlacement window (Some window) ?x ?y ?s] =>
        destruct (finishWindowPlacement_frame window window x y s) as (_ & Hfp)
      end.
      rewrite Hfp. apply lookup_delete_eq.
  - split; [cbn; apply lookup_delete_eq|]. intros _. repeat split.
Qed.

Lemma moveWindowToMonitor_clears_pending_witness :
  let st := mkState (sample_host [left_monitor; right_monitor] 0 (2000, 500) 0
                       [sample_window 7 100 100 800 600 (Some 0%nat)])
                    (with_windowsPendingPlacement {[7%nat := 1%nat]}
                       (sample_engine [(0, 0); (1, 2)]%nat)) in
  windowsPendingPlacement (eng st) !! 7%nat = Some 1%nat /\
  windowsPendingPlacement (eng (moveWindowToMonitor 7 1 (Some 7%nat) st)) !! 7%nat = None.
Proof.
  intros st. split; [reflexivity|].
  apply (moveWindowToMonitor_clears_pending 7 1 st). left. eexists. reflexivity.
Defined.

(** ** Stash and restore, witnesses *)

Lemma simpleSwitch_Primary_stashes_witness :
  let w := sample_window 7 500 300 400 300 (Some 1%nat) in
  let st := mkState (sample_host [left_monitor; right_monitor] 0 (10, 10) 1 [w])
                    (sample_engine [(0, 1); (1, 4)]%nat) in
  savedWindowPositions (eng (simpleSwitch_Primary 0 1 3 false st)) !! 7%nat =
    Some (mkSavedPos 500 300 1).
Proof.
  intros w st.
  apply (simpleSwitch_Primary_stashes st 0 1 3 false w).
  - constructor; [intros [] | constructor].
  - left. reflexivity.
  - discriminate.
Defined.

Lemma stash_then_restore_same_position_witness :
  let w := sample_window 7 500 300 400 300 (Some 3%nat) in
  let w2 := mkWindow 7 (mkRect 40 40 400 300) NORMAL false true false false (Some 3%nat) 0 2 0 in
  let st0 := mkState (sample_host [left_monitor; right_monitor] 0 (10, 10) 3 [w])
                     (sample_engine [(0, 3); (1, 4)]%nat) in
  let st2 := mkState (sample_host [left_monitor; right_monitor] 0 (10, 10) 1 [w2])
                     (eng (saveWorkspaceWindowPositions 0 3 st0)) in
  exists w',
    findWindowById (simpleSwitch_Primary 0 1 3 false st2) 7 = Some w' /\
    rect_x (frame_rect w') = 500 /\
    rect_y (frame_rect w') = 300 /\
    savedWindowPositions (eng (simpleSwitch_Primary 0 1 3 false st2)) !! 7%nat = None.
Proof.
  intros w w2 st0 st2.
  apply (stash_then_restore_same_position st0 st2 0 1 3 false w w2).
  - constructor; [intros [] | constructor].
  - left. reflexivity.
  - constructor; [intros [] | constructor].
  - left. reflexivity.
  - reflexivity.
  - intros [].
  - reflexivity.
  - reflexivity.
Defined.

(** ** The window comparator as a sort order *)

(** X11. The comparator of [_cycleFocus] and [_swapWindowPosition] is
    antisymmetric, and two windows compare equal exactly when they have the
    same position or sit in one row (less than 50 pixels apart vertically) at
    the same horizontal position; but it is not transitive, so it is not a
    consistent order for [Array.prototype.sort]. *)
Theorem compareWindows_sort_order :
  (forall a b, compareWindows b a = - compareWindows a b) /\
  (forall a b, compareWindows a b = 0 <->
     rect_x (frame_rect a) = rect_x (frame_rect b) /\
     Z.abs (rect_y (frame_rect a) - rect_y (frame_rect b)) < 50) /\
  ~ (forall a b c, compareWindows a b < 0 -> compareWindows b c < 0 -> compareWindows a c < 0).
Proof.
  split; [|split].
  - intros a b. unfold compareWindows. cbv zeta.
    replace (Z.abs (rect_y (frame_rect b) - rect_y (frame_rect a)))
      with (Z.abs (rect_y (frame_rect a) - rect_y (frame_rect b))) by lia.
    destruct (Z.ltb_spec (Z.abs (rect_y (frame_rect a) - rect_y (frame_rect b))) 50); lia.
  - intros a b. unfold compareWindows. cbv zeta.
    destruct (Z.ltb_spec (Z.abs (rect_y (frame_rect a) - rect_y (frame_rect b))) 50); lia.
  - intros Htrans.
    pose proof (Htrans (sample_window 3 0 80 10 10 None) (sample_window 2 1 40 10 10 None)
                  (sample_window 1 2 0 10 10 None)) as H.
    vm_compute in H. specialize (H eq_refl eq_refl). discriminate H.
Qed.

(** ** Warping the pointer to a monitor *)

Lemma center_floor_inside (rect geo : Rect) :
  center_in rect geo = true ->
  rect_contains geo (floor_center_x rect) (floor_center_y rect) = true.
Proof.
  unfold center_in, rect_contains, floor_center_x, floor_center_y.
  rewrite !andb_true_iff, !Z.leb_le, !Z.ltb_lt.
  intros (((H1 & H2) & H3) & H4).
  pose proof (Z.div_mod (rect_width rect) 2 ltac:(lia)).
  pose proof (Z.mod_pos_bound (rect_width rect) 2 ltac:(lia)).
  pose proof (Z.div_mod (rect_height rect) 2 ltac:(lia)).
  pose proof (Z.mod_pos_bound (rect_height rect) 2 ltac:(lia)).
  repeat split; lia.
Qed.

Lemma monitor_centre_inside (geo : Rect) :
  0 < rect_width geo -> 0 < rect_height geo ->
  rect_contains geo (rect_x geo + rect_width geo / 2) (rect_y geo + rect_height geo / 2) = true.
Proof.
  intros Hw Hh. unfold rect_contains.
  rewrite !andb_true_iff, !Z.leb_le, !Z.ltb_lt.
  pose proof (Z.div_mod (rect_width geo) 2 ltac:(lia)).
  pose proof (Z.mod_pos_bound (rect_width geo) 2 ltac:(lia)).
  pose proof (Z.div_mod (rect_height geo) 2 ltac:(lia)).
  pose proof (Z.mod_pos_bound (rect_height geo) 2 ltac:(lia)).
  repeat split; lia.
Qed.

Lemma getWindowMonitor_center (h : Host) (w : Window) (m : nat) :
  getWindowMonitor h w = Some m ->
  exists geo, get_monitor_geometry h m = Some geo /\ center_in (frame_rect w) geo = true.
Proof.
  unfold getWindowMonitor, first_monitor, get_monitor_geometry. intros H.
  destruct (first_monitor_from_holds _ _ _ _ H) as (geo & Hgeo & Hc).
  rewrite Nat.sub_0_r in Hgeo. exists geo. split; assumption.
Qed.

Lemma focusWindowAtPosition_host x y monitor st :
  pointer (host (focusWindowAtPosition x y monitor st)) = pointer (host st) /\
  windows (host (focusWindowAtPosition x y monitor st)) = windows (host st) /\
  activate_calls (calls (host (focusWindowAtPosition x y monitor st))) =
    activate_calls (calls (host st)).
Proof.
  assert (Hrec : forall c h, is_activate c = false ->
                   activate_calls (calls (record_call c h)) = activate_calls (calls h)).
  { intros c h Hc. rewrite activate_calls_record, Hc. apply Nat.add_0_r. }
  unfold focusWindowAtPosition, unfocusAllWindows.
  repeat case_match; simplify_eq; (split; [reflexivity|]; split; [reflexivity|]);
    try reflexivity.
  all: first [ exact (Hrec UnsetFocus _ eq_refl) | exact (Hrec (FocusWindow _) _ eq_refl) ].
Qed.

(** The pointer, the windows and the trace after [_warpPointerToMonitor] on
    an existing monitor. *)
Lemma warpPointerToMonitor_host (monitorIndex : nat) (geo : Rect) (st : State) :
  get_monitor_geometry (host st) monitorIndex = Some geo ->
  0 < rect_width geo -> 0 < rect_height geo ->
  let st' := warpPointerToMonitor monitorIndex st in
  rect_contains geo (fst (pointer (host st'))) (snd (pointer (host st'))) = true /\
  windows (host st') = windows (host st) /\
  activate_calls (calls (host st')) = activate_calls (calls (host st)) /\
  savedWindowPositions (eng st') = savedWindowPositions (eng st) /\
  windowsPendingPlacement (eng st') = windowsPendingPlacement (eng st).
Proof.
  intros Hgeo Hw Hh. cbv zeta. unfold warpPointerToMonitor.
  assert (Hlt : (monitorIndex < length (monitors (host st)))%nat)
    by (apply lookup_lt_is_Some; eexists; exact Hgeo).
  destruct (Nat.leb_spec (length (monitors (host st))) monitorIndex) as [Hge|_]; [lia|].
  assert (Hmg : monitor_geometry (host st) monitorIndex = geo)
    by (unfold monitor_geometry; rewrite Hgeo; reflexivity).
  cbv zeta. rewrite Hmg.
  set (sel := match lastWindowPerWorkspace (eng st) !! displayed_ws st monitorIndex with
              | Some lastWindowId => _ | None => _ end).
  assert (Hsel : windows (host (fst sel)) = windows (host st) /\
                 calls (host (fst sel)) = calls (host st) /\
                 savedWindowPositions (eng (fst sel)) = savedWindowPositions (eng st) /\
                 windowsPendingPlacement (eng (fst sel)) = windowsPendingPlacement (eng st) /\
                 match snd sel with
                 | Some window => center_in (frame_rect window) geo = true
                 | None => True
                 end).
  { subst sel.
    destruct (lastWindowPerWorkspace (eng st) !! displayed_ws st monitorIndex) as [lastId|];
      [|cbn; auto].
    destruct (findWindowById st lastId) as [window|]; [|cbn; auto].
    destruct (bool_decide (getWindowMonitor (host st) window = Some monitorIndex)) eqn:Hmon.
    - destruct (located_on_workspace window (active_workspace (host st))); cbn.
      + repeat split. apply bool_decide_eq_true in Hmon.
        destruct (getWindowMonitor_center _ _ _ Hmon) as (g & Hg & Hc).
        rewrite Hgeo in Hg. injection Hg as <-. exact Hc.
      + repeat split.
    - cbn. destruct (located_on_workspace window (active_workspace (host st))); cbn; repeat split. }
  destruct sel as [s1 focusedWindow]. cbn [fst snd] in Hsel.
  destruct Hsel as (Hwin & Hcalls & Hcache & Hpend & Hcentre).
  assert (Hrec : forall c h, is_activate c = false ->
                   activate_calls (calls (record_call c h)) = activate_calls (calls h)).
  { intros c h Hc. rewrite activate_calls_record, Hc. apply Nat.add_0_r. }
  assert (Hhl : forall s geo0,
            rect_contains geo0 (fst (pointer (host s))) (snd (pointer (host s))) = true /\
            windows (host s) = windows (host st) /\
            activate_calls (calls (host s)) = activate_calls (calls (host st)) /\
            savedWindowPositions (eng s) = savedWindowPositions (eng st) /\
            windowsPendingPlacement (eng s) = windowsPendingPlacement (eng st) ->
            let s' := if indicatorManager (eng s)
                      then on_host (record_call IndicatorHighlight) s else s in
            rect_contains geo0 (fst (pointer (host s'))) (snd (pointer (host s'))) = true /\
            windows (host s') = windows (host st) /\
            activate_calls (calls (host s')) = activate_calls (calls (host st)) /\
            savedWindowPositions (eng s') = savedWindowPositions (eng st) /\
            windowsPendingPlacement (eng s') = windowsPendingPlacement (eng st)).
  { intros s geo0 (F1 & F2 & F3 & F4 & F5). cbv zeta.
    destruct (indicatorManager (eng s)); [|repeat split; assumption].
    split; [exact F1|]. split; [exact F2|]. split; [|split; [exact F4 | exact F5]].
    etransitivity; [|exact F3]. exact (Hrec IndicatorHighlight (host s) eq_refl). }
  assert (Hwarp : forall x y,
            activate_calls (calls (host (on_host (warp_pointer x y) s1))) =
            activate_calls (calls (host st))).
  { intros x y. etransitivity; [exact (Hrec (WarpPointer x y) _ eq_refl)|].
    exact (f_equal activate_calls Hcalls). }
  destruct focusedWindow as [window|].
  - apply Hhl. split; [exact (center_floor_inside _ _ Hcentre)|].
    split; [exact Hwin|]. split; [|split; [exact Hcache | exact Hpend]].
    etransitivity; [exact (Hrec (FocusWindow _) _ eq_refl)|]. apply Hwarp.
  - pose proof (monitor_centre_inside geo Hw Hh) as Hin.
    apply Hhl.
    match goal with |- context [focusWindowAtPosition ?x ?y ?m ?s] =>
      destruct (focusWindowAtPosition_host x y m s) as (Hp & Hwi & Hac);
      pose proof (focusWindowAtPosition_eng x y m s) as He;
      set (s2 := focusWindowAtPosition x y m s) in *
    end.
    split; [|split; [|split; [|split]]].
    + etransitivity; [|exact Hin].
      exact (f_equal (fun p => rect_contains geo (fst p) (snd p)) Hp).
    + etransitivity; [exact Hwi|]. exact Hwin.
    + etransitivity; [exact Hac|]. apply Hwarp.
    + etransitivity; [exact (f_equal savedWindowPositions He)|]. exact Hcache.
    + etransitivity; [exact (f_equal windowsPendingPlacement He)|]. exact Hpend.
Qed.

Lemma first_monitor_from_le (p : Rect -> bool) (base : nat) (geos : list Rect) (k : nat) (geo : Rect) :
  geos !! k = Some geo -> p geo = true ->
  exists i, first_monitor_from p base geos = Some i /\ (i <= base + k)%nat.
Proof.
  revert base k. induction geos as [|g l IH]; intros base k Hk Hp; [discriminate|].
  cbn [first_monitor_from]. destruct (p g) eqn:Hg; [exists base; split; [reflexivity | lia]|].
  destruct k as [|k]; [cbn in Hk; injection Hk as ->; congruence|].
  cbn in Hk. destruct (IH (S base) k Hk Hp) as (i & Hi & Hle).
  exists i. split; [exact Hi | lia].
Qed.

Lemma warpPointerToMonitor_target (monitorIndex : nat) (st : State) :
  (monitorIndex < length (monitors (host st)))%nat ->
  let st' := warpPointerToMonitor monitorIndex st in
  pointer (host st') = warpTarget st monitorIndex /\
  (forall w, rememberedWindow st monitorIndex = Some w ->
             focus_window (host st') = Some (stable_sequence w) /\
             eng st' = eng st) /\
  (rememberedWindow st monitorIndex = None ->
   exists s1,
     host s1 = host st /\
     (s1 = st \/ s1 = delete_lastWindow (displayed_ws st monitorIndex) st) /\
     focus_window (host st') =
       focus_window (host (focusWindowAtPosition (fst (warpTarget st monitorIndex))
                             (snd (warpTarget st monitorIndex)) monitorIndex
                             (on_host (warp_pointer (fst (warpTarget st monitorIndex))
                                         (snd (warpTarget st monitorIndex))) s1))) /\
     eng st' = eng s1).
Proof.
  intros Hlt. cbv zeta. unfold warpPointerToMonitor, warpTarget, rememberedWindow.
  destruct (Nat.leb_spec (length (monitors (host st))) monitorIndex) as [Hge|_]; [lia|].
  cbv zeta.
  assert (Hhl : forall s,
            pointer (host (if indicatorManager (eng s)
                           then on_host (record_call IndicatorHighlight) s else s)) =
              pointer (host s) /\
            focus_window (host (if indicatorManager (eng s)
                                then on_host (record_call IndicatorHighlight) s else s)) =
              focus_window (host s) /\
            eng (if indicatorManager (eng s)
                 then on_host (record_call IndicatorHighlight) s else s) = eng s)
    by (intros s; destruct (indicatorManager (eng s)); repeat split).
  destruct (lastWindowPerWorkspace (eng st) !! displayed_ws st monitorIndex) as [lastId|].
  2: { cbv zeta.
       match goal with |- context [focusWindowAtPosition ?x ?y ?m ?s] =>
         destruct (Hhl (focusWindowAtPosition x y m s)) as (Hp & Hf & He);
         destruct (focusWindowAtPosition_host x y m s) as (Hp2 & _);
         pose proof (focusWindowAtPosition_eng x y m s) as He2
       end.
       split; [etransitivity; [exact Hp|]; exact Hp2|].
       split; [discriminate|]. intros _. exists st. split; [reflexivity|].
       split; [left; reflexivity|]. split; [exact Hf|].
       etransitivity; [exact He | exact He2]. }
  destruct (findWindowById st lastId) as [window|].
  2: { cbv zeta.
       match goal with |- context [focusWindowAtPosition ?x ?y ?m ?s] =>
         destruct (Hhl (focusWindowAtPosition x y m s)) as (Hp & Hf & He);
         destruct (focusWindowAtPosition_host x y m s) as (Hp2 & _);
         pose proof (focusWindowAtPosition_eng x y m s) as He2
       end.
       split; [etransitivity; [exact Hp|]; exact Hp2|].
       split; [discriminate|]. intros _. exists st. split; [reflexivity|].
       split; [left; reflexivity|]. split; [exact Hf|].
       etransitivity; [exact He | exact He2]. }
  destruct (bool_decide (getWindowMonitor (host st) window = Some monitorIndex) &&
            located_on_workspace window (active_workspace (host st))) eqn:Hsel.
  - cbv zeta.
    match goal with |- context [on_host (focus ?i) ?s] =>
      destruct (Hhl (on_host (focus i) s)) as (Hp & Hf & He)
    end.
    split; [exact Hp|]. split; [|discriminate].
    intros w Hw. injection Hw as <-. split; [exact Hf | exact He].
  - destruct (negb (located_on_workspace window (active_workspace (host st)))); cbv zeta.
    + match goal with |- context [focusWindowAtPosition ?x ?y ?m ?s] =>
        destruct (Hhl (focusWindowAtPosition x y m s)) as (Hp & Hf & He);
        destruct (focusWindowAtPosition_host x y m s) as (Hp2 & _);
        pose proof (focusWindowAtPosition_eng x y m s) as He2
      end.
      split; [etransitivity; [exact Hp|]; exact Hp2|].
      split; [discriminate|]. intros _.
      exists (delete_lastWindow (displayed_ws st monitorIndex) st). split; [reflexivity|].
      split; [right; reflexivity|]. split; [exact Hf|].
      etransitivity; [exact He | exact He2].
    + match goal with |- context [focusWindowAtPosition ?x ?y ?m ?s] =>
        destruct (Hhl (focusWindowAtPosition x y m s)) as (Hp & Hf & He);
        destruct (focusWindowAtPosition_host x y m s) as (Hp2 & _);
        pose proof (focusWindowAtPosition_eng x y m s) as He2
      end.
      split; [etransitivity; [exact Hp|]; exact Hp2|].
      split; [discriminate|]. intros _. exists st. split; [reflexivity|].
      split; [left; reflexivity|]. split; [exact Hf|].
      etransitivity; [exact He | exact He2].
Qed.

(** X12. [_warpPointerToMonitor] ignores an index that is not a monitor.
    On a monitor of positive size it puts the pointer on the centre of the
    remembered window (the window recorded as last focused for the workspace
    the monitor displays, when it is alive, centred on that monitor and on
    the active workspace) and gives that window the focus; when there is no
    such window it puts the pointer on the centre of the monitor.  Either way
    the pointer ends inside that monitor; no window is moved, no workspace is
    activated, and the monitor-workspace map and the position cache stay as
    they are. *)
Theorem warpPointerToMonitor_effect (monitorIndex : nat) (st : State) :
  ((length (monitors (host st)) <= monitorIndex)%nat ->
   warpPointerToMonitor monitorIndex st = st) /\
  (forall geo,
     get_monitor_geometry (host st) monitorIndex = Some geo ->
     0 < rect_width geo -> 0 < rect_height geo ->
     let st' := warpPointerToMonitor monitorIndex st in
     (forall w, rememberedWindow st monitorIndex = Some w ->
        pointer (host st') = (floor_center_x (frame_rect w), floor_center_y (frame_rect w)) /\
        focus_window (host st') = Some (stable_sequence w)) /\
     (rememberedWindow st monitorIndex = None ->
        pointer (host st') = (rect_x geo + rect_width geo / 2, rect_y geo + rect_height geo / 2)) /\
     rect_contains geo (fst (pointer (host st'))) (snd (pointer (host st'))) = true /\
     (getMonitorAtPointer (host st') <= monitorIndex)%nat /\
     windows (host st') = windows (host st) /\
     activate_calls (calls (host st')) = activate_calls (calls (host st)) /\
     monitorWorkspaceMap (eng st') = monitorWorkspaceMap (eng st) /\
     savedWindowPositions (eng st') = savedWindowPositions (eng st)).
Proof.
  split.
  - intros Hge. unfold warpPointerToMonitor.
    destruct (Nat.leb_spec (length (monitors (host st))) monitorIndex); [reflexivity | lia].
  - intros geo Hgeo Hw Hh st'.
    destruct (warpPointerToMonitor_host monitorIndex geo st Hgeo Hw Hh) as (Hin & Hwin & Hact & Hc & _).
    fold st' in Hin, Hwin, Hact, Hc.
    assert (Hlt : (monitorIndex < length (monitors (host st)))%nat)
      by (apply lookup_lt_is_Some; eexists; exact Hgeo).
    destruct (warpPointerToMonitor_target monitorIndex st Hlt) as (Hptr & Hrem & _).
    fold st' in Hptr, Hrem.
    split.
    { intros w Hrw. split; [|exact (proj1 (Hrem w Hrw))].
      etransitivity; [exact Hptr|]. unfold warpTarget. rewrite Hrw. reflexivity. }
    split.
    { intros Hnone. etransitivity; [exact Hptr|]. unfold warpTarget. rewrite Hnone.
      unfold monitor_geometry. rewrite Hgeo. reflexivity. }
    split; [exact Hin|]. split; [|split; [exact Hwin|split; [exact Hact|split; [|exact Hc]]]].
    2: apply warpPointerToMonitor_map.
    assert (Hmon : monitors (host st') = monitors (host st)).
    { subst st'. unfold warpPointerToMonitor, focusWindowAtPosition, unfocusAllWindows.
      repeat case_match; simplify_eq; reflexivity. }
    unfold getMonitorAtPointer. destruct (pointer (host st')) as [px py] eqn:Hp.
    cbn [fst snd] in Hin. rewrite Hmon. unfold first_monitor.
    destruct (first_monitor_from_le (fun g => rect_contains g px py) 0 (monitors (host st))
                monitorIndex geo Hgeo Hin) as (i & Hi & Hle).
    rewrite Hi. exact Hle.
Qed.

Lemma warpPointerToMonitor_effect_witness :
  let w := sample_window 7 2100 100 400 300 (Some 3%nat) in
  let st := mkState (sample_host [left_monitor; right_monitor] 0 (10, 10) 3 [w])
                    (with_lastWindowPerWorkspace {[5%nat := 7%nat]}
                       (sample_engine [(0, 3); (1, 5)]%nat)) in
  let st' := warpPointerToMonitor 1 st in
  rememberedWindow st 1 = Some w /\
  pointer (host st') = (2300, 250) /\
  focus_window (host st') = Some 7%nat /\
  rect_contains right_monitor (fst (pointer (host st'))) (snd (pointer (host st'))) = true /\
  windows (host st') = windows (host st).
Proof.
  intros w st st'.
  destruct (warpPointerToMonitor_effect 1 st) as (_ & H).
  destruct (H right_monitor eq_refl ltac:(cbn; lia) ltac:(cbn; lia))
    as (Hrem & _ & Hin & _ & Hw & _).
  destruct (Hrem w eq_refl) as (Hp & Hf).
  split; [reflexivity|]. split; [exact Hp|]. split; [exact Hf|]. split; [exact Hin | exact Hw].
Defined.

(** ** A switch request in warp mode *)

Lemma activate_calls_app (l1 l2 : list HostCall) :
  activate_calls (l1 ++ l2) = (activate_calls l1 + activate_calls l2)%nat.
Proof. unfold activate_calls. rewrite List.filter_app, List.length_app. reflexivity. Qed.

Lemma ensureWorkspaceExists_frame (wsIndex : nat) (st : State) :
  let st' := on_host (ensureWorkspaceExists wsIndex) st in
  eng st' = eng st /\
  windows (host st') = windows (host st) /\
  monitors (host st') = monitors (host st) /\
  pointer (host st') = pointer (host st) /\
  primary_monitor (host st') = primary_monitor (host st) /\
  active_workspace (host st') = active_workspace (host st) /\
  settings (host st') = settings (host st) /\
  activate_calls (calls (host st')) = activate_calls (calls (host st)).
Proof.
  cbv zeta. cbn [on_host host eng]. unfold ensureWorkspaceExists.
  destruct (iter_append_n_workspaces (S wsIndex - n_workspaces (host st)) (host st))
    as (_ & Hw & Hm & Ha & Hp & Hpr & Hc).
  split; [reflexivity|]. split; [exact Hw|]. split; [exact Hm|]. split; [exact Hp|].
  split; [exact Hpr|]. split; [exact Ha|]. split; [apply ensureWorkspaceExists_settings|].
  rewrite Hc, activate_calls_app.
  assert (Hrep : forall k, activate_calls (repeat AppendNewWorkspace k) = 0%nat)
    by (induction k as [|k IH]; [reflexivity | exact IH]).
  rewrite Hrep. apply Nat.add_0_r.
Qed.

Lemma warpTarget_congr (s st : State) (monitorIndex : nat) :
  eng s = eng st ->
  windows (host s) = windows (host st) ->
  monitors (host s) = monitors (host st) ->
  active_workspace (host s) = active_workspace (host st) ->
  rememberedWindow s monitorIndex = rememberedWindow st monitorIndex /\
  warpTarget s monitorIndex = warpTarget st monitorIndex.
Proof.
  intros He Hw Hm Ha.
  assert (Hr : rememberedWindow s monitorIndex = rememberedWindow st monitorIndex).
  { unfold rememberedWindow, displayed_ws, findWindowById, getWindowMonitor.
    replace (eng s) with (eng st) by (symmetry; exact He).
    replace (windows (host s)) with (windows (host st)) by (symmetry; exact Hw).
    replace (monitors (host s)) with (monitors (host st)) by (symmetry; exact Hm).
    replace (active_workspace (host s)) with (active_workspace (host st)) by (symmetry; exact Ha).
    reflexivity. }
  split; [exact Hr|]. unfold warpTarget. rewrite Hr.
  unfold monitor_geometry, get_monitor_geometry.
  replace (monitors (host s)) with (monitors (host st)) by (symmetry; exact Hm).
  reflexivity.
Qed.

(** X13. In warp mode, a switch request for a workspace that another
    monitor (of positive size) already displays moves no window, leaves the
    monitor-workspace map, the position cache and the pending-placement marks
    as they are, activates no workspace and schedules nothing.  It creates
    the workspaces that are missing up to the target and puts the pointer
    inside the monitor that displays the workspace: on the centre of that
    monitor's remembered window, or of the monitor when there is none. *)
Theorem switchWorkspace_warp_mode (targetWs existing : nat) (geo : Rect) (st : State) :
  String.eqb (workspace_switch_mode (settings (host st))) "warp" = true ->
  targetWs <> displayed_ws st (getMonitorAtPointer (host st)) ->
  getMonitorForWorkspace st targetWs = Some existing ->
  existing <> getMonitorAtPointer (host st) ->
  get_monitor_geometry (host st) existing = Some geo ->
  0 < rect_width geo -> 0 < rect_height geo ->
  let st' := switchWorkspace targetWs st in
  windows (host st') = windows (host st) /\
  monitorWorkspaceMap (eng st') = monitorWorkspaceMap (eng st) /\
  savedWindowPositions (eng st') = savedWindowPositions (eng st) /\
  activate_calls (calls (host st')) = activate_calls (calls (host st)) /\
  timers (eng st') = timers (eng st) /\
  rect_contains geo (fst (pointer (host st'))) (snd (pointer (host st'))) = true /\
  pointer (host st') = warpTarget st existing /\
  windowsPendingPlacement (eng st') = windowsPendingPlacement (eng st) /\
  n_workspaces (host st') = Nat.max (n_workspaces (host st)) (S targetWs).
Proof.
  intros Hmode Hne Hshow Hother Hgeo Hw Hh. cbv zeta.
  set (s0 := on_host (ensureWorkspaceExists targetWs) st).
  destruct (ensureWorkspaceExists_frame targetWs st)
    as (He0 & Hw0 & Hm0 & Hp0 & Hpr0 & Ha0 & Hs0 & Hc0).
  fold s0 in He0, Hw0, Hm0, Hp0, Hpr0, Ha0, Hs0, Hc0.
  assert (Heq : switchWorkspace targetWs st =
                banner_show existing targetWs (indicator_update (warpPointerToMonitor existing s0))).
  { unfold switchWorkspace. destruct (pointer (host st)) as [px py]. cbv zeta.
    destruct (decide (targetWs = displayed_ws st (getMonitorAtPointer (host st)))) as [E|_];
      [contradiction|].
    fold s0.
    assert (Hshow0 : getMonitorForWorkspace s0 targetWs = Some existing)
      by (etransitivity; [|exact Hshow];
          exact (f_equal (fun e => first_monitor_showing targetWs (monitorWorkspaceMap e)) He0)).
    rewrite Hshow0.
    destruct (decide (existing = getMonitorAtPointer (host st))) as [E|_]; [contradiction|].
    assert (Hmode0 : String.eqb (workspace_switch_mode (settings (host s0))) "warp" = true)
      by (etransitivity; [|exact Hmode];
          exact (f_equal (fun s => String.eqb (workspace_switch_mode s) "warp") Hs0)).
    rewrite Hmode0. reflexivity. }
  rewrite Heq.
  assert (Hgeo0 : get_monitor_geometry (host s0) existing = Some geo)
    by (etransitivity; [|exact Hgeo]; exact (f_equal (fun l => l !! existing) Hm0)).
  destruct (warpPointerToMonitor_host existing geo s0 Hgeo0 Hw Hh) as (Hin & Hwin & Hact & Hcache & Hpend).
  assert (Hlt0 : (existing < length (monitors (host s0)))%nat)
    by (apply lookup_lt_is_Some; eexists; exact Hgeo0).
  destruct (warpPointerToMonitor_target existing s0 Hlt0) as (Htarget & _).
  destruct (warpTarget_congr s0 st existing He0 Hw0 Hm0 Ha0) as (_ & Htc).
  assert (Hn1 : n_workspaces (host (warpPointerToMonitor existing s0)) = n_workspaces (host s0)).
  { unfold warpPointerToMonitor, focusWindowAtPosition, unfocusAllWindows.
    repeat case_match; simplify_eq; reflexivity. }
  set (s1 := warpPointerToMonitor existing s0) in *.
  destruct (indicator_update_frame s1) as (Hiw & Hie & Hia).
  assert (Hip : pointer (host (indicator_update s1)) = pointer (host s1))
    by (unfold indicator_update; destruct (indicatorManager (eng s1)); reflexivity).
  set (s2 := indicator_update s1) in *.
  destruct (banner_show_frame existing targetWs s2) as (Hbw & Hbe & Hba).
  assert (Hbp : pointer (host (banner_show existing targetWs s2)) = pointer (host s2))
    by (unfold banner_show; destruct (popupBanner (eng s2)); reflexivity).
  set (s3 := banner_show existing targetWs s2) in *.
  assert (Heng : forall {B} (f : Engine -> B), f (eng s3) = f (eng s1))
    by (intros B f; rewrite Hbe, Hie; reflexivity).
  split; [etransitivity; [exact Hbw|]; etransitivity; [exact Hiw|];
          etransitivity; [exact Hwin | exact Hw0]|].
  split; [etransitivity; [exact (Heng _ monitorWorkspaceMap)|];
          etransitivity; [apply warpPointerToMonitor_map|];
          exact (f_equal monitorWorkspaceMap He0)|].
  split; [etransitivity; [exact (Heng _ savedWindowPositions)|];
          etransitivity; [exact Hcache|]; exact (f_equal savedWindowPositions He0)|].
  split; [etransitivity; [exact Hba|]; etransitivity; [exact Hia|];
          etransitivity; [exact Hact | exact Hc0]|].
  split.
  - etransitivity; [exact (Heng _ timers)|]. etransitivity; [|exact (f_equal timers He0)].
    subst s1. unfold warpPointerToMonitor.
    repeat case_match; simplify_eq; cbn [eng on_host on_eng delete_lastWindow];
      rewrite ?focusWindowAtPosition_eng; reflexivity.
  - assert (Hpp : pointer (host s3) = pointer (host s1))
      by (etransitivity; [exact Hbp | exact Hip]).
    split; [etransitivity; [|exact Hin];
            exact (f_equal (fun p => rect_contains geo (fst p) (snd p)) Hpp)|].
    split; [etransitivity; [exact Hpp|]; etransitivity; [exact Htarget | exact Htc]|].
    split; [etransitivity; [exact (Heng _ windowsPendingPlacement)|];
            etransitivity; [exact Hpend|]; exact (f_equal windowsPendingPlacement He0)|].
    assert (Hn3 : n_workspaces (host s3) = n_workspaces (host s1)).
    { subst s3 s2. unfold banner_show, indicator_update.
      repeat case_match; reflexivity. }
    etransitivity; [exact Hn3|]. etransitivity; [exact Hn1|].
    exact (proj1 (ensureWorkspaceExists_pool targetWs (host st))).
Qed.

Lemma switchWorkspace_warp_mode_witness :
  let st := mkState (with_settings (mkSettings "Alt" "warp" false true false ∅ [])
                       (sample_host [left_monitor; right_monitor] 0 (10, 10) 3
                          [sample_window 7 2100 100 400 300 None]))
                    (sample_engine [(0, 3); (1, 5)]%nat) in
  let st' := switchWorkspace 5 st in
  windows (host st') = windows (host st) /\
  monitorWorkspaceMap (eng st') = [(0, 3); (1, 5)]%nat /\
  pointer (host st') = (2880, 540).
Proof.
  intros st st'.
  destruct (switchWorkspace_warp_mode 5 1 right_monitor st) as (Hw & Hm & _ & _ & _ & _ & Hp & _);
    [reflexivity | discriminate | reflexivity | discriminate | reflexivity
    | cbn; lia | cbn; lia |].
  split; [exact Hw|]. split; [exact Hm | exact Hp].
Defined.

(** ** The window that gets the focus at a position *)

Lemma topmost_containing_spec (pointerX pointerY : Z) (wins : list Window) :
  match topmost_containing pointerX pointerY wins with
  | Some w =>
      In w wins /\ rect_contains (frame_rect w) pointerX pointerY = true /\
      forall u, In u wins -> rect_contains (frame_rect u) pointerX pointerY = true ->
                layer u <= layer w
  | None => forall u, In u wins -> rect_contains (frame_rect u) pointerX pointerY = false
  end.
Proof.
  unfold topmost_containing.
  set (f := fun (acc : option Window * Z) (win : Window) =>
              let '(targetWindow, highestLayer) := acc in
              if rect_contains (frame_rect win) pointerX pointerY
              then if (highestLayer <? layer win) ||
                      (match targetWindow with None => true | Some _ => false end)
                   then (Some win, layer win) else acc
              else acc).
  set (Inv := fun (acc : option Window * Z) (seen : list Window) =>
                match fst acc with
                | Some w =>
                    snd acc = layer w /\ In w seen /\
                    rect_contains (frame_rect w) pointerX pointerY = true /\
                    forall u, In u seen -> rect_contains (frame_rect u) pointerX pointerY = true ->
                              layer u <= layer w
                | None => forall u, In u seen ->
                                    rect_contains (frame_rect u) pointerX pointerY = false
                end).
  assert (Hgen : forall l acc seen, Inv acc seen -> Inv (fold_left f l acc) (seen ++ l)).
  { induction l as [|win l IH]; intros acc seen Hinv; cbn [fold_left].
    - rewrite List.app_nil_r. exact Hinv.
    - replace (seen ++ win :: l) with ((seen ++ [win]) ++ l)
        by (rewrite <- List.app_assoc; reflexivity).
      apply IH. destruct acc as [[t|] hl]; unfold Inv, f in *; cbn [fst snd] in *.
      + destruct Hinv as (Hhl & Hin & Hc & Hmax).
        destruct (rect_contains (frame_rect win) pointerX pointerY) eqn:Hwin.
        * rewrite orb_false_r. destruct (Z.ltb_spec hl (layer win)) as [Hlt|Hge]; cbn [fst snd].
          -- split; [reflexivity|]. split; [apply List.in_or_app; right; left; reflexivity|].
             split; [exact Hwin|]. intros u Hu Hcu.
             apply List.in_app_or in Hu as [Hu|[<-|[]]]; [|lia].
             specialize (Hmax u Hu Hcu). lia.
          -- split; [exact Hhl|]. split; [apply List.in_or_app; left; exact Hin|].
             split; [exact Hc|]. intros u Hu Hcu.
             apply List.in_app_or in Hu as [Hu|[<-|[]]]; [exact (Hmax u Hu Hcu) | lia].
        * cbn [fst snd]. split; [exact Hhl|]. split; [apply List.in_or_app; left; exact Hin|].
          split; [exact Hc|]. intros u Hu Hcu.
          apply List.in_app_or in Hu as [Hu|[<-|[]]]; [exact (Hmax u Hu Hcu) | congruence].
      + destruct (rect_contains (frame_rect win) pointerX pointerY) eqn:Hwin.
        * rewrite orb_true_r. cbn [fst snd].
          split; [reflexivity|]. split; [apply List.in_or_app; right; left; reflexivity|].
          split; [exact Hwin|]. intros u Hu Hcu.
          apply List.in_app_or in Hu as [Hu|[<-|[]]]; [|lia].
          rewrite (Hinv u Hu) in Hcu. discriminate.
        * cbn [fst snd]. intros u Hu.
          apply List.in_app_or in Hu as [Hu|[<-|[]]]; [exact (Hinv u Hu) | exact Hwin]. }
  specialize (Hgen wins (None, -1) [] ltac:(intros u [])).
  unfold Inv in Hgen. cbn [app] in Hgen.
  destruct (fst (fold_left f wins (None, -1))) as [w|]; [|exact Hgen].
  destruct Hgen as (_ & H1 & H2 & H3). repeat split; assumption.
Qed.

Lemma topmost_by_stack_spec (wins : list Window) :
  wins <> [] ->
  exists w, topmost_by_stack wins = Some w /\ In w wins /\
            forall u, In u wins -> stack_index u <= stack_index w.
Proof.
  intros Hne. unfold topmost_by_stack.
  set (f := fun (best : option Window) (win : Window) =>
              match best with
              | None => Some win
              | Some b => if stack_index b <? stack_index win then Some win else best
              end).
  assert (Hgen : forall l b seen,
             In b seen -> (forall u, In u seen -> stack_index u <= stack_index b) ->
             exists w, fold_left f l (Some b) = Some w /\ In w (seen ++ l) /\
                       forall u, In u (seen ++ l) -> stack_index u <= stack_index w).
  { induction l as [|win l IH]; intros b seen Hb Hmax; cbn [fold_left].
    - exists b. rewrite List.app_nil_r. repeat split; assumption.
    - replace (seen ++ win :: l) with ((seen ++ [win]) ++ l)
        by (rewrite <- List.app_assoc; reflexivity).
      cbn [f]. destruct (Z.ltb_spec (stack_index b) (stack_index win)) as [Hlt|Hge].
      + apply IH; [apply List.in_or_app; right; left; reflexivity|].
        intros u Hu. apply List.in_app_or in Hu as [Hu|[<-|[]]]; [|lia].
        specialize (Hmax u Hu). lia.
      + apply IH; [apply List.in_or_app; left; exact Hb|].
        intros u Hu. apply List.in_app_or in Hu as [Hu|[<-|[]]]; [exact (Hmax u Hu) | lia]. }
  destruct wins as [|w0 rest]; [contradiction|]. cbn [fold_left f].
  apply (Hgen rest w0 [w0]); [left; reflexivity|].
  intros u [<-|[]]. lia.
Qed.

(** X14. [_focusWindowAtPosition] drops the input focus when the monitor
    shows no window of its workspace; otherwise it focuses one of those
    windows: among the windows under the given position one of greatest
    layer, and when no window is under it one of greatest stacking index.
    It never changes a window, the pointer or the engine's own state. *)
Theorem focusWindowAtPosition_target (pointerX pointerY : Z) (monitorIndex : nat) (st : State) :
  let wins := getWindowsOnMonitorForWorkspace (host st) monitorIndex (displayed_ws st monitorIndex) in
  let st' := focusWindowAtPosition pointerX pointerY monitorIndex st in
  let under := fun u => rect_contains (frame_rect u) pointerX pointerY in
  (wins = [] -> focus_window (host st') = None) /\
  (wins <> [] ->
   exists w,
     In w wins /\ focus_window (host st') = Some (stable_sequence w) /\
     ((exists u, In u wins /\ under u = true) ->
      under w = true /\ forall u, In u wins -> under u = true -> layer u <= layer w) /\
     ((forall u, In u wins -> under u = false) ->
      forall u, In u wins -> stack_index u <= stack_index w)) /\
  windows (host st') = windows (host st) /\
  pointer (host st') = pointer (host st) /\
  eng st' = eng st.
Proof.
  intros wins st' under. subst under. cbv beta.
  destruct (focusWindowAtPosition_host pointerX pointerY monitorIndex st) as (Hp & Hw & _).
  split; [|split; [|split; [exact Hw | split; [exact Hp | apply focusWindowAtPosition_eng]]]].
  - intros Hnil. subst st'. unfold focusWindowAtPosition. fold wins. rewrite Hnil. reflexivity.
  - intros Hne. subst st'. unfold focusWindowAtPosition. fold wins.
    destruct wins as [|w0 rest] eqn:Hwins; [contradiction|]. rewrite <- Hwins in *.
    assert (Hne' : wins <> []) by (rewrite Hwins; discriminate).
    replace (match wins with [] => unfocusAllWindows st | _ :: _ =>
               match match topmost_containing pointerX pointerY wins with
                     | Some w => Some w | None => topmost_by_stack wins end with
               | Some w => on_host (focus (getWindowId w)) st | None => st end end)
      with (match match topmost_containing pointerX pointerY wins with
                  | Some w => Some w | None => topmost_by_stack wins end with
            | Some w => on_host (focus (getWindowId w)) st | None => st end)
      by (rewrite Hwins; reflexivity).
    pose proof (topmost_containing_spec pointerX pointerY wins) as Htop.
    destruct (topmost_containing pointerX pointerY wins) as [w|].
    + destruct Htop as (Hin & Hc & Hmax). exists w.
      split; [exact Hin|]. split; [reflexivity|]. split.
      * intros _. split; [exact Hc | exact Hmax].
      * intros Hnone. rewrite (Hnone w Hin) in Hc. discriminate.
    + destruct (topmost_by_stack_spec wins Hne') as (w & Hw' & Hin & Hmax).
      rewrite Hw'. exists w. split; [exact Hin|]. split; [reflexivity|]. split.
      * intros (u & Hu & Hcu). rewrite (Htop u Hu) in Hcu. discriminate.
      * intros _. exact Hmax.
Qed.

(** ** Host prerequisites *)

(** X15. Applying the changes that [_checkPrerequisites] asks for makes the
    prerequisites hold: workspaces only on the primary monitor, no dynamic
    workspaces, and a second check asks for nothing.  The check asks for
    nothing exactly when both already hold, and every change it lists names
    the value found and its negation as the value required. *)
Theorem applyPrerequisiteChanges_satisfies (m : MutterSettings) :
  let m' := applyPrerequisiteChanges (checkPrerequisites m) m in
  m' = mkMutterSettings true false /\
  checkPrerequisites m' = [] /\
  (checkPrerequisites m = [] <-> m = mkMutterSettings true false) /\
  List.Forall (fun c => change_current c = mutter_get_boolean (change_key c) m /\
                        change_required c = negb (change_current c))
    (checkPrerequisites m).
Proof.
  destruct m as [[] []]; cbv zeta; cbn; repeat split; try discriminate;
    repeat constructor.
Qed.

(** ** Labels and shortcuts *)

(** X16. The label the indicator shows for workspace [i] (of the ten
    workspaces) is the digit of the shortcuts bound to it: after
    [_updateWorkspaceKeybindingSettings] the switch shortcut of workspace [i]
    is the modifier followed by that label and the move shortcut is the
    modifier, Shift and that label.  The banner numbers workspaces from 1
    instead, so both agree on workspaces 0 to 8 and differ on workspace 9,
    which the indicator calls 0 and the banner 10. *)
Theorem wsIndexToDisplayKey_matches_shortcut (s : Settings) (i : nat) :
  (i < 10)%nat ->
  let s' := updateWorkspaceKeybindingSettings s in
  let accel := modKey (workspace_modifier s) in
  strv s' !! switch_key i = Some [String.append accel (wsIndexToDisplayKey i)] /\
  strv s' !! move_key i =
    Some [String.append accel (String.append "<Shift>" (wsIndexToDisplayKey i))] /\
  ((i < 9)%nat -> forall mon, snd (bannerLabels mon i) = wsIndexToDisplayKey i) /\
  (i = 9%nat -> forall mon, snd (bannerLabels mon i) = "10"%string /\
                            wsIndexToDisplayKey i = "0"%string).
Proof.
  intros Hi s' accel. subst s' accel. unfold updateWorkspaceKeybindingSettings, wsIndexToDisplayKey.
  generalize (modKey (workspace_modifier s)) as accel. intros accel.
  simpl fold_left. rewrite !strv_set_strv.
  do 10 (destruct i as [|i];
         [repeat split; try (intros; lia); try (intros; reflexivity);
          vm_compute num; vm_compute switch_key; vm_compute move_key;
          simplify_map_eq; reflexivity |]).
  lia.
Qed.

Lemma wsIndexToDisplayKey_matches_shortcut_witness :
  let s' := updateWorkspaceKeybindingSettings (mkSettings "Super" "swap" false true false ∅ []) in
  strv s' !! switch_key 9 = Some ["<Super>0"%string] /\
  strv s' !! move_key 0 = Some ["<Super><Shift>1"%string] /\
  snd (bannerLabels 0 9) = "10"%string.
Proof.
  intros s'.
  destruct (wsIndexToDisplayKey_matches_shortcut
              (mkSettings "Super" "swap" false true false ∅ []) 9 ltac:(lia))
    as (H9 & _ & _ & Hb).
  destruct (wsIndexToDisplayKey_matches_shortcut
              (mkSettings "Super" "swap" false true false ∅ []) 0 ltac:(lia))
    as (_ & H0 & _).
  split; [exact H9|]. split; [exact H0|]. exact (proj1 (Hb eq_refl 0%nat)).
Defined.

(** ** Moving the focused window to a workspace *)

Lemma restorePointerPosition_find x y st id :
  findWindowById (restorePointerPosition x y st) id = findWindowById st id.
Proof.
  apply findWindowById_windows. destruct (restorePointerPosition_frame x y st) as (H & _). exact H.
Qed.

(** X17. [_moveWindowToWorkspace] does nothing at all when no window has
    the focus, when the focused window is not a normal window, or when the
    window already is on the target workspace. *)
Theorem moveWindowToWorkspace_noop (targetWs : nat) (st : State) :
  get_focus_window st = None \/
  (exists w, get_focus_window st = Some w /\
             (window_type w <> NORMAL \/ win_workspace w = Some targetWs)) ->
  moveWindowToWorkspace targetWs st = st.
Proof.
  intros Hor. unfold moveWindowToWorkspace. destruct (pointer (host st)) as [px py].
  destruct Hor as [Hnone|(w & Hw & Hcase)].
  - rewrite Hnone. reflexivity.
  - rewrite Hw. destruct Hcase as [Htype|Hws].
    + destruct (window_type w); [contradiction | reflexivity | reflexivity].
    + destruct (negb (is_normal (window_type w))); [reflexivity|].
      destruct (decide (win_workspace w = Some targetWs)); [reflexivity | contradiction].
Qed.

Lemma moveWindowToWorkspace_noop_witness :
  let st := mkState (with_focus_window (Some 7%nat)
                       (sample_host [left_monitor; right_monitor] 0 (10, 10) 3
                          [sample_window 7 100 100 400 300 (Some 3%nat)]))
                    (sample_engine [(0, 3); (1, 5)]%nat) in
  moveWindowToWorkspace 3 st = st.
Proof.
  intros st. apply (moveWindowToWorkspace_noop 3 st).
  right. eexists. split; [reflexivity|]. right. reflexivity.
Defined.

(** X18. Otherwise [_moveWindowToWorkspace] tags the focused window with
    the target workspace (created if missing), puts it on the primary monitor
    at the offset it had inside the pointer's monitor, keeps its size, and
    stashes that offset under the target workspace; no other window changes,
    no workspace is activated and the monitor-workspace map stays as it is, so
    what the monitors display does not change. *)
Theorem moveWindowToWorkspace_moves (targetWs : nat) (st : State) (w : Window) :
  get_focus_window st = Some w ->
  window_type w = NORMAL ->
  win_workspace w <> Some targetWs ->
  let st' := moveWindowToWorkspace targetWs st in
  let monitorGeo := monitor_geometry (host st) (getMonitorAtPointer (host st)) in
  let primaryGeo := monitor_geometry (host st) (primary_monitor (host st)) in
  let relX := rect_x (frame_rect w) - rect_x monitorGeo in
  let relY := rect_y (frame_rect w) - rect_y monitorGeo in
  findWindowById st' (stable_sequence w) =
    Some (with_workspace (Some targetWs)
            (with_frame (mkRect (rect_x primaryGeo + relX) (rect_y primaryGeo + relY)
                           (rect_width (frame_rect w)) (rect_height (frame_rect w))) w)) /\
  savedWindowPositions (eng st') !! stable_sequence w = Some (mkSavedPos relX relY targetWs) /\
  (forall id, id <> stable_sequence w -> findWindowById st' id = findWindowById st id) /\
  monitorWorkspaceMap (eng st') = monitorWorkspaceMap (eng st) /\
  activate_calls (calls (host st')) = activate_calls (calls (host st)) /\
  (targetWs < n_workspaces (host st'))%nat.
Proof.
  intros Hfocus Htype Hws. cbv zeta.
  assert (Hfind : findWindowById st (stable_sequence w) = Some w).
  { unfold get_focus_window in Hfocus. destruct (focus_window (host st)) as [id|]; [|discriminate].
    cbn in Hfocus. rewrite <- (find_window_id _ _ _ Hfocus) in Hfocus at 1. exact Hfocus. }
  unfold moveWindowToWorkspace. destruct (pointer (host st)) as [px py] eqn:Hptr.
  rewrite Hfocus, Htype. cbn [is_normal negb].
  destruct (decide (win_workspace w = Some targetWs)) as [|_]; [contradiction|].
  cbv zeta.
  destruct (ensureWorkspaceExists_frame targetWs st)
    as (He0 & Hw0 & Hm0 & Hp0 & Hpr0 & Ha0 & Hs0 & Hc0).
  destruct (ensureWorkspaceExists_pool targetWs (host st)) as (Hn & Hobj & _).
  set (s0 := on_host (ensureWorkspaceExists targetWs) st) in *.
  change (host s0) with (ensureWorkspaceExists targetWs (host st)).
  rewrite Hobj.
  assert (Hgeo : forall i, monitor_geometry (ensureWorkspaceExists targetWs (host st)) i =
                           monitor_geometry (host st) i).
  { intros i. unfold monitor_geometry, get_monitor_geometry.
    exact (f_equal (fun l => default (mkRect 0 0 0 0) (l !! i)) Hm0). }
  rewrite !Hgeo.
  replace (primary_monitor (ensureWorkspaceExists targetWs (host st)))
    with (primary_monitor (host st)) by (symmetry; exact Hpr0).
  set (monitorGeo := monitor_geometry (host st) (getMonitorAtPointer (host st))).
  set (primaryGeo := monitor_geometry (host st) (primary_monitor (host st))).
  set (relX := rect_x (frame_rect w) - rect_x monitorGeo).
  set (relY := rect_y (frame_rect w) - rect_y monitorGeo).
  set (id := getWindowId w).
  set (s1 := cache_set id (mkSavedPos relX relY targetWs) s0).
  set (s2 := on_host (move_frame id (rect_x primaryGeo + relX) (rect_y primaryGeo + relY)) s1).
  set (s3 := on_host (change_workspace id (Some targetWs)) s2).
  assert (Hf0 : forall k, findWindowById s1 k = findWindowById st k)
    by (intros k; apply findWindowById_windows; exact Hw0).
  split; [|split; [|split; [|split; [|split]]]].
  - assert (Hs1 : findWindowById s1 id = Some w)
      by (etransitivity; [apply Hf0 | exact Hfind]).
    pose proof (findWindowById_move_frame s1 id (rect_x primaryGeo + relX)
                  (rect_y primaryGeo + relY)) as H2.
    pose proof (findWindowById_change_workspace s2 id targetWs) as H3.
    etransitivity; [apply restorePointerPosition_find|].
    etransitivity; [exact H3|].
    etransitivity; [exact (f_equal (fmap (with_workspace (Some targetWs))) H2)|].
    etransitivity; [exact (f_equal (fun o => with_workspace (Some targetWs) <$> (_ <$> o)) Hs1)|].
    reflexivity.
  - destruct (restorePointerPosition_frame px py s3) as (_ & Hmaps & _).
    unfold engine_maps in Hmaps. injection Hmaps as _ Hc _ _ _ _.
    etransitivity; [exact (f_equal (fun m => m !! stable_sequence w) Hc)|].
    cbn. apply lookup_insert_eq.
  - intros k Hk. assert (Hik : id <> k) by (intros E; apply Hk; symmetry; exact E).
    etransitivity; [apply restorePointerPosition_find|].
    etransitivity; [exact (findWindowById_change_workspace_other s2 id k (Some targetWs) Hik)|].
    etransitivity; [exact (findWindowById_move_frame_other s1 id k _ _ Hik)|].
    apply Hf0.
  - destruct (restorePointerPosition_frame px py s3) as (_ & Hmaps & _).
    unfold engine_maps in Hmaps. injection Hmaps as Hmap _ _ _ _ _.
    etransitivity; [exact Hmap|]. exact (f_equal monitorWorkspaceMap He0).
  - destruct (restorePointerPosition_frame px py s3) as (_ & _ & Hact).
    etransitivity; [exact Hact|].
    assert (Hrec : forall c h, is_activate c = false ->
                     activate_calls (calls (record_call c h)) = activate_calls (calls h)).
    { intros c h Hc. rewrite activate_calls_record, Hc. apply Nat.add_0_r. }
    etransitivity; [exact (Hrec (ChangeWorkspace id (Some targetWs)) _ eq_refl)|].
    etransitivity; [exact (Hrec (MoveFrame id _ _) _ eq_refl)|]. exact Hc0.
  - destruct (restorePointerPosition_frame px py s3) as (_ & _ & _).
    assert (Hnn : n_workspaces (host (restorePointerPosition px py s3)) =
                  n_workspaces (ensureWorkspaceExists targetWs (host st))).
    { unfold restorePointerPosition, doPointerRestore. repeat case_match; reflexivity. }
    rewrite Hnn, Hn. lia.
Qed.

Lemma moveWindowToWorkspace_moves_witness :
  let w := sample_window 7 2100 100 400 300 (Some 3%nat) in
  let st := mkState (with_focus_window (Some 7%nat)
                       (sample_host [left_monitor; right_monitor] 0 (2000, 10) 3 [w]))
                    (sample_engine [(0, 3); (1, 5)]%nat) in
  let st' := moveWindowToWorkspace 6 st in
  findWindowById st' 7 =
    Some (sample_window 7 180 100 400 300 (Some 6%nat)) /\
  savedWindowPositions (eng st') !! 7%nat = Some (mkSavedPos 180 100 6).
Proof.
  intros w st st'.
  destruct (moveWindowToWorkspace_moves 6 st w eq_refl eq_refl ltac:(discriminate))
    as (Hf & Hc & _).
  split; [exact Hf | exact Hc].
Defined.

(** ** Focus changes *)

Lemma warpPointerToFocus_frame (fw : option Window) (st : State) :
  eng (warpPointerToFocus fw st) = eng st /\
  windows (host (warpPointerToFocus fw st)) = windows (host st) /\
  focus_window (host (warpPointerToFocus fw st)) = focus_window (host st) /\
  monitors (host (warpPointerToFocus fw st)) = monitors (host st) /\
  active_workspace (host (warpPointerToFocus fw st)) = active_workspace (host st) /\
  (match fw with
   | Some w => pending_has (getWindowId w) st = true
   | None => True
   end -> warpPointerToFocus fw st = st).
Proof.
  unfold warpPointerToFocus.
  destruct (negb (warp_pointer_to_focus (settings (host st)))); [repeat split|].
  destruct fw as [w|]; [|repeat split].
  destruct (pending_has (getWindowId w) st); [repeat split|].
  destruct (negb (is_normal (window_type w))); [repeat split; discriminate|].
  destruct (pointer (host st)) as [px py].
  destruct (rect_contains (frame_rect w) px py); repeat split; discriminate.
Qed.

(** The state after the recording step of [_onFocusWindowChanged]. *)
Lemma onFocusWindowChanged_shape (st : State) :
  exists s1,
    host s1 = host st /\
    engine_maps (with_lastWindowPerWorkspace ∅ (eng s1)) =
      engine_maps (with_lastWindowPerWorkspace ∅ (eng st)) /\
    (isInternalSwitch (eng st) = true -> s1 = st) /\
    (forall fw M ws,
       get_focus_window st = Some fw -> window_type fw = NORMAL ->
       isInternalSwitch (eng st) = false ->
       getWindowMonitor (host st) fw = Some M ->
       JsMap.get M (monitorWorkspaceMap (eng st)) = Some ws ->
       lastWindowPerWorkspace (eng s1) !! ws = Some (stable_sequence fw)) /\
    (onFocusWindowChanged st = warpPointerToFocus (get_focus_window st) s1 \/
     (exists fw m,
        get_focus_window st = Some fw /\
        getWindowMonitor (host st) fw = Some m /\
        m <> getMonitorAtPointer (host st) /\
        pending_has (getWindowId fw) s1 = false /\
        onFocusWindowChanged st =
          focusWindowAtPosition (fst (pointer (host st))) (snd (pointer (host st)))
            (getMonitorAtPointer (host st)) s1)).
Proof.
  unfold onFocusWindowChanged.
  destruct (get_focus_window st) as [fw|] eqn:Hfw.
  2: { exists st. split; [reflexivity|]. split; [reflexivity|]. split; [reflexivity|].
       split; [discriminate|]. left. reflexivity. }
  destruct (is_normal (window_type fw)) eqn:Hnorm.
  2: { exists st. split; [reflexivity|]. split; [reflexivity|]. split; [reflexivity|].
       split; [|left; reflexivity].
       intros fw' M ws Hf Ht. injection Hf as <-. rewrite Ht in Hnorm. discriminate. }
  cbv zeta.
  set (s1 := if negb (isInternalSwitch (eng st)) then _ else st).
  assert (Hs1 : host s1 = host st /\
                engine_maps (with_lastWindowPerWorkspace ∅ (eng s1)) =
                  engine_maps (with_lastWindowPerWorkspace ∅ (eng st)) /\
                windowsPendingPlacement (eng s1) = windowsPendingPlacement (eng st)).
  { subst s1. destruct (negb (isInternalSwitch (eng st))); [|repeat split].
    destruct (getWindowMonitor (host st) fw); [|repeat split].
    destruct (JsMap.get n (monitorWorkspaceMap (eng st))); repeat split. }
  destruct Hs1 as (Hh & Hmaps & Hpend).
  exists s1. split; [exact Hh|]. split; [exact Hmaps|]. split; [|split].
  - intros Hint. subst s1. rewrite Hint. reflexivity.
  - intros fw' M ws Hf Ht Hint HM Hws. injection Hf as <-. subst s1.
    rewrite Hint, HM, Hws. cbn. apply lookup_insert_eq.
  - assert (Hmon : first_monitor (center_in (frame_rect fw)) (monitors (host s1)) =
                   getWindowMonitor (host st) fw)
      by exact (f_equal (fun h => first_monitor (center_in (frame_rect fw)) (monitors h)) Hh).
    rewrite Hmon.
    destruct (getWindowMonitor (host st) fw) as [m|] eqn:HgM; [|left; reflexivity].
    destruct (bool_decide (m = getMonitorAtPointer (host st))) eqn:Hm; [left; reflexivity|].
    destruct (pending_has (getWindowId fw) s1) eqn:Hp; [left; reflexivity|].
    right. exists fw, m. split; [reflexivity|]. split; [exact HgM|].
    split; [apply bool_decide_eq_false in Hm; exact Hm|]. split; [exact Hp|].
    cbn [negb andb].
    replace (pointer (host s1)) with (pointer (host st)) by (symmetry; exact (f_equal pointer Hh)).
    destruct (pointer (host st)) as [px py]. reflexivity.
Qed.

(** X19. The focus-change handler never moves or retags a window and
    never touches the monitor-workspace map, the position cache or the
    pending-placement marks.  While an internal switch is in progress it
    records no last-focused window; and for a focused window that still
    awaits its placement it neither moves the pointer nor hands the focus to
    another window. *)
Theorem onFocusWindowChanged_frame (st : State) :
  let st' := onFocusWindowChanged st in
  windows (host st') = windows (host st) /\
  monitorWorkspaceMap (eng st') = monitorWorkspaceMap (eng st) /\
  savedWindowPositions (eng st') = savedWindowPositions (eng st) /\
  windowsPendingPlacement (eng st') = windowsPendingPlacement (eng st) /\
  (isInternalSwitch (eng st) = true ->
   lastWindowPerWorkspace (eng st') = lastWindowPerWorkspace (eng st)) /\
  (forall fw, get_focus_window st = Some fw -> pending_has (getWindowId fw) st = true ->
              host st' = host st).
Proof.
  cbv zeta. destruct (onFocusWindowChanged_shape st) as (s1 & Hh & Hmaps & Hint & _ & Hcase).
  unfold engine_maps in Hmaps. injection Hmaps as Hmap Hcache Hpend _ _.
  assert (Hpend' : windowsPendingPlacement (eng s1) = windowsPendingPlacement (eng st))
    by exact Hpend.
  assert (Hph : forall id, pending_has id s1 = pending_has id st)
    by (intros id; unfold pending_has;
        exact (f_equal (fun m => match m !! id with Some _ => true | None => false end) Hpend')).
  assert (Hmain : forall s2,
            eng s2 = eng s1 -> windows (host s2) = windows (host s1) ->
            (forall fw, get_focus_window st = Some fw -> pending_has (getWindowId fw) st = true ->
                        host s2 = host st) ->
            windows (host s2) = windows (host st) /\
            monitorWorkspaceMap (eng s2) = monitorWorkspaceMap (eng st) /\
            savedWindowPositions (eng s2) = savedWindowPositions (eng st) /\
            windowsPendingPlacement (eng s2) = windowsPendingPlacement (eng st) /\
            (isInternalSwitch (eng st) = true ->
             lastWindowPerWorkspace (eng s2) = lastWindowPerWorkspace (eng st)) /\
            (forall fw, get_focus_window st = Some fw -> pending_has (getWindowId fw) st = true ->
                        host s2 = host st)).
  { intros s2 He Hw Hp.
    split; [etransitivity; [exact Hw|]; exact (f_equal windows Hh)|].
    split; [etransitivity; [exact (f_equal monitorWorkspaceMap He)|]; exact Hmap|].
    split; [etransitivity; [exact (f_equal savedWindowPositions He)|]; exact Hcache|].
    split; [etransitivity; [exact (f_equal windowsPendingPlacement He)|]; exact Hpend|].
    split; [|exact Hp].
    intros Hi. etransitivity; [exact (f_equal lastWindowPerWorkspace He)|].
    exact (f_equal (fun s => lastWindowPerWorkspace (eng s)) (Hint Hi)). }
  destruct Hcase as [Heq|(fw & m & Hfw & _ & _ & Hnp & Heq)]; rewrite Heq.
  - destruct (warpPointerToFocus_frame (get_focus_window st) s1) as (He & Hw & _ & _ & _ & Hskip).
    apply Hmain; [exact He | exact Hw|].
    intros fw Hfw Hp. rewrite Hfw in Hskip.
    assert (Hs : warpPointerToFocus (Some fw) s1 = s1)
      by (apply Hskip; rewrite Hph; exact Hp).
    etransitivity; [|exact Hh].
    etransitivity; [|exact (f_equal host Hs)].
    exact (f_equal (fun o => host (warpPointerToFocus o s1)) Hfw).
  - destruct (focusWindowAtPosition_host (fst (pointer (host st))) (snd (pointer (host st)))
                (getMonitorAtPointer (host st)) s1) as (_ & Hw & _).
    apply Hmain; [apply focusWindowAtPosition_eng | exact Hw|].
    intros fw' Hfw' Hp. rewrite Hfw in Hfw'. injection Hfw' as <-.
    rewrite Hph in Hnp. congruence.
Qed.

Lemma onFocusWindowChanged_frame_witness :
  let w := sample_window 7 100 100 400 300 (Some 3%nat) in
  let st := mkState (with_settings (mkSettings "Alt" "swap" true true false ∅ [])
                       (with_focus_window (Some 7%nat)
                          (sample_host [left_monitor; right_monitor] 0 (2000, 10) 3 [w])))
                    (with_windowsPendingPlacement {[7%nat := 0%nat]}
                       (sample_engine [(0, 3); (1, 5)]%nat)) in
  host (onFocusWindowChanged st) = host st /\
  lastWindowPerWorkspace (eng (onFocusWindowChanged st)) !! 3%nat = Some 7%nat.
Proof.
  intros w st.
  destruct (onFocusWindowChanged_frame st) as (_ & _ & _ & _ & _ & H).
  split; [exact (H w eq_refl eq_refl) | reflexivity].
Defined.

(** X20. Recording and restoring the last-focused window: when a normal
    window on monitor [M], which displays workspace [ws], gets the focus
    outside an internal switch, the handler records it for [ws]; the deferred
    focus step of a later switch to [ws] on [M] then gives it the focus again
    and puts the pointer on its centre, inside [M], provided the window is
    still on the active workspace. *)
Theorem focus_record_then_restore (st : State) (fw : Window) (M ws : nat) (px py : Z) :
  get_focus_window st = Some fw ->
  window_type fw = NORMAL ->
  isInternalSwitch (eng st) = false ->
  getWindowMonitor (host st) fw = Some M ->
  JsMap.get M (monitorWorkspaceMap (eng st)) = Some ws ->
  located_on_workspace fw (active_workspace (host st)) = true ->
  let st1 := onFocusWindowChanged st in
  let st2 := focusLastOrAtPosition M ws px py st1 in
  lastWindowPerWorkspace (eng st1) !! ws = Some (stable_sequence fw) /\
  focus_window (host st2) = Some (stable_sequence fw) /\
  pointer (host st2) = (floor_center_x (frame_rect fw), floor_center_y (frame_rect fw)) /\
  (exists geo, get_monitor_geometry (host st) M = Some geo /\
               rect_contains geo (fst (pointer (host st2))) (snd (pointer (host st2))) = true) /\
  windows (host st2) = windows (host st).
Proof.
  intros Hfw Htype Hint HM Hws Hloc. cbv zeta.
  destruct (onFocusWindowChanged_shape st) as (s1 & Hh & _ & _ & Hrec & Hcase).
  specialize (Hrec fw M ws Hfw Htype Hint HM Hws).
  assert (Hfind : findWindowById st (stable_sequence fw) = Some fw).
  { unfold get_focus_window in Hfw. destruct (focus_window (host st)) as [id|]; [|discriminate].
    cbn in Hfw. rewrite <- (find_window_id _ _ _ Hfw) in Hfw at 1. exact Hfw. }
  set (st1 := onFocusWindowChanged st).
  assert (Hst1 : lastWindowPerWorkspace (eng st1) !! ws = Some (stable_sequence fw) /\
                 windows (host st1) = windows (host st) /\
                 monitors (host st1) = monitors (host st) /\
                 active_workspace (host st1) = active_workspace (host st)).
  { subst st1. destruct Hcase as [Heq|(fw' & m & _ & _ & _ & _ & Heq)]; rewrite Heq.
    - destruct (warpPointerToFocus_frame (get_focus_window st) s1) as (He & Hw & _ & Hm & Ha & _).
      split; [etransitivity; [exact (f_equal (fun e => lastWindowPerWorkspace e !! ws) He)|];
              exact Hrec|].
      split; [etransitivity; [exact Hw|]; exact (f_equal windows Hh)|].
      split; [etransitivity; [exact Hm|]; exact (f_equal monitors Hh)|].
      etransitivity; [exact Ha|]; exact (f_equal active_workspace Hh).
    - match goal with |- context [focusWindowAtPosition ?x ?y ?mm s1] =>
        destruct (focusWindowAtPosition_host x y mm s1) as (_ & Hw & _);
        pose proof (focusWindowAtPosition_eng x y mm s1) as He;
        assert (Hm : monitors (host (focusWindowAtPosition x y mm s1)) = monitors (host s1) /\
                     active_workspace (host (focusWindowAtPosition x y mm s1)) =
                       active_workspace (host s1))
          by (unfold focusWindowAtPosition, unfocusAllWindows;
              repeat case_match; split; reflexivity)
      end.
      destruct Hm as (Hm & Ha).
      split; [etransitivity; [exact (f_equal (fun e => lastWindowPerWorkspace e !! ws) He)|];
              exact Hrec|].
      split; [etransitivity; [exact Hw|]; exact (f_equal windows Hh)|].
      split; [etransitivity; [exact Hm|]; exact (f_equal monitors Hh)|].
      etransitivity; [exact Ha|]; exact (f_equal active_workspace Hh). }
  destruct Hst1 as (Hlast & Hwin & Hmon & Hact).
  split; [exact Hlast|].
  assert (Hfind1 : findWindowById st1 (stable_sequence fw) = Some fw)
    by (etransitivity; [apply (findWindowById_windows st1 st); exact Hwin | exact Hfind]).
  assert (HM1 : getWindowMonitor (host st1) fw = Some M)
    by (etransitivity; [|exact HM];
        exact (f_equal (first_monitor (center_in (frame_rect fw))) Hmon)).
  assert (Hloc1 : located_on_workspace fw (active_workspace (host st1)) = true)
    by (etransitivity; [|exact Hloc]; exact (f_equal (located_on_workspace fw) Hact)).
  unfold focusLastOrAtPosition. rewrite Hlast, Hfind1. cbv zeta. rewrite HM1, Hloc1.
  rewrite bool_decide_eq_true_2 by reflexivity. cbn [andb].
  split; [reflexivity|]. split; [reflexivity|]. split; [|exact Hwin].
  destruct (getWindowMonitor_center _ _ _ HM) as (geo & Hgeo & Hc).
  exists geo. split; [exact Hgeo|]. exact (center_floor_inside _ _ Hc).
Qed.

Lemma focus_record_then_restore_witness :
  let w := sample_window 7 2100 100 400 300 (Some 3%nat) in
  let st := mkState (with_focus_window (Some 7%nat)
                       (sample_host [left_monitor; right_monitor] 0 (2000, 10) 3 [w]))
                    (sample_engine [(0, 3); (1, 5)]%nat) in
  let st2 := focusLastOrAtPosition 1 5 10 10 (onFocusWindowChanged st) in
  focus_window (host st2) = Some 7%nat /\ pointer (host st2) = (2300, 250).
Proof.
  intros w st st2.
  destruct (focus_record_then_restore st w 1 5 10 10 eq_refl eq_refl eq_refl eq_refl eq_refl
              eq_refl) as (_ & Hf & Hp & _).
  split; [exact Hf | exact Hp].
Defined.

(** ** Cycling the focus *)

Lemma getMonitorAtPointer_unique (h : Host) (k : nat) (g : Rect) :
  monitors_disjoint h ->
  monitors h !! k = Some g ->
  rect_contains g (fst (pointer h)) (snd (pointer h)) = true ->
  getMonitorAtPointer h = k.
Proof.
  intros Hdis Hk Hin. unfold getMonitorAtPointer.
  destruct (pointer h) as [px py]. cbn [fst snd] in Hin. unfold first_monitor.
  destruct (first_monitor_from_le (fun geo => rect_contains geo px py) 0 (monitors h) k g Hk Hin)
    as (i & Hi & _).
  rewrite Hi. destruct (first_monitor_from_holds _ _ _ _ Hi) as (gi & Hgi & Hci).
  rewrite Nat.sub_0_r in Hgi. exact (Hdis i k gi g px py Hgi Hk Hci Hin).
Qed.

Lemma getWindowsOnMonitorForWorkspace_congr (h1 h2 : Host) (m ws : nat) :
  monitors h1 = monitors h2 -> primary_monitor h1 = primary_monitor h2 ->
  windows h1 = windows h2 ->
  getWindowsOnMonitorForWorkspace h1 m ws = getWindowsOnMonitorForWorkspace h2 m ws.
Proof.
  intros Hm Hp Hw. unfold getWindowsOnMonitorForWorkspace, monitor_geometry, get_monitor_geometry.
  cbv zeta.
  replace (monitors h1) with (monitors h2) by (symmetry; exact Hm).
  replace (primary_monitor h1) with (primary_monitor h2) by (symmetry; exact Hp).
  replace (windows h1) with (windows h2) by (symmetry; exact Hw).
  reflexivity.
Qed.

Lemma index_of_lookup (id : WindowId) (l : list Window) (i : nat) :
  index_of id l = Some i -> exists w, l !! i = Some w /\ stable_sequence w = id.
Proof.
  revert i. induction l as [|w l IH]; intros i Hi; [discriminate|].
  cbn in Hi. destruct (decide (stable_sequence w = id)) as [E|_].
  - injection Hi as <-. exists w. split; [reflexivity | exact E].
  - destruct (index_of id l) as [j|]; [|discriminate]. injection Hi as <-.
    destruct (IH j eq_refl) as (w' & Hw' & Hid). exists w'. split; assumption.
Qed.

Lemma index_of_NoDup (l : list Window) (i : nat) (w : Window) :
  List.NoDup (map stable_sequence l) -> l !! i = Some w ->
  index_of (stable_sequence w) l = Some i.
Proof.
  revert i. induction l as [|x l IH]; intros i Hnd Hi; [discriminate|].
  apply List.NoDup_cons_iff in Hnd as (Hx & Hnd). cbn.
  destruct i as [|i].
  - injection Hi as ->. destruct (decide (stable_sequence w = stable_sequence w)); [reflexivity | congruence].
  - cbn in Hi. destruct (decide (stable_sequence x = stable_sequence w)) as [E|_].
    + exfalso. apply Hx.
      assert (Hin : In (stable_sequence w) (map stable_sequence l))
        by (apply List.in_map, list_elem_of_In; exact (list_elem_of_lookup_2 _ _ _ Hi)).
      exact (eq_ind_r (fun a => In a (map stable_sequence l)) Hin E).
    + rewrite (IH i Hnd Hi). reflexivity.
Qed.

Lemma cycle_index_back (i n : nat) :
  (i < n)%nat ->
  (((i + 1) mod n + n - 1) mod n = i /\ ((i + n - 1) mod n + 1) mod n = i)%nat.
Proof.
  intros Hi. destruct (decide (i + 1 = n)%nat) as [E|Hne].
  - rewrite E, Nat.Div0.mod_same. cbn [Nat.add].
    rewrite (Nat.mod_small (n - 1) n) by lia.
    destruct (decide (i = 0%nat)) as [->|Hi0].
    + assert (n = 1%nat) by lia. subst n. split; reflexivity.
    + split; [lia|].
      replace (i + n - 1)%nat with (i - 1 + 1 * n)%nat by lia.
      rewrite Nat.Div0.mod_add, (Nat.mod_small (i - 1) n) by lia.
      rewrite Nat.mod_small by lia. lia.
  - rewrite (Nat.mod_small (i + 1) n) by lia.
    replace (i + 1 + n - 1)%nat with (i + 1 * n)%nat by lia.
    rewrite Nat.Div0.mod_add, (Nat.mod_small i n) by lia. split; [reflexivity|].
    destruct (decide (i = 0%nat)) as [->|Hi0].
    + cbn [Nat.add]. rewrite (Nat.mod_small (n - 1) n) by lia.
      replace (n - 1 + 1)%nat with n by lia. apply Nat.Div0.mod_same.
    + replace (i + n - 1)%nat with (i - 1 + 1 * n)%nat by lia.
      rewrite Nat.Div0.mod_add, (Nat.mod_small (i - 1) n) by lia.
      rewrite Nat.mod_small by lia. lia.
Qed.

Section CycleFocus.
Variable sortWindows : list Window -> list Window.
Hypothesis sortWindows_perm : forall l, Permutation (sortWindows l) l.

(** One step of the cycle from a focused window of the list. *)
Lemma cycleFocus_step (forward : bool) (st : State) (i : nat) :
  let cur := getMonitorAtPointer (host st) in
  let L := sortWindows (getWindowsOnMonitorForWorkspace (host st) cur (displayed_ws st cur)) in
  raise_on_cycle_focus (settings (host st)) = false ->
  warp_pointer_to_focus (settings (host st)) = false \/ monitors_disjoint (host st) ->
  (focus_window (host st) ≫= fun id => index_of id L) = Some i ->
  let j := if forward then ((i + 1) mod length L)%nat else ((i + length L - 1) mod length L)%nat in
  let st' := cycleFocus sortWindows forward st in
  exists w, L !! j = Some w /\
    focus_window (host st') = Some (stable_sequence w) /\
    windows (host st') = windows (host st) /\
    monitors (host st') = monitors (host st) /\
    primary_monitor (host st') = primary_monitor (host st) /\
    settings (host st') = settings (host st) /\
    eng st' = eng st /\
    getMonitorAtPointer (host st') = cur.
Proof.
  intros cur L Hraise Hwarp Hidx j st'.
  set (wins := getWindowsOnMonitorForWorkspace (host st) cur (displayed_ws st cur)) in *.
  assert (HiL : (i < length L)%nat).
  { destruct (focus_window (host st)) as [id|]; [|discriminate]. cbn in Hidx.
    destruct (index_of_lookup _ _ _ Hidx) as (w & Hw & _).
    apply lookup_lt_is_Some. eexists. exact Hw. }
  assert (Hj : (j < length L)%nat)
    by (subst j; destruct forward; apply Nat.mod_upper_bound; lia).
  destruct (lookup_lt_is_Some_2 L j Hj) as (w & Hw).
  exists w. split; [exact Hw|].
  assert (Hne : wins <> []).
  { intros E. assert (Hlen : length L = length wins) by (apply Permutation_length, sortWindows_perm).
    rewrite E in Hlen. cbn in Hlen. lia. }
  assert (HwL : In w wins).
  { apply (Permutation_in w (sortWindows_perm wins)).
    apply list_elem_of_In. exact (list_elem_of_lookup_2 _ _ _ Hw). }
  assert (Hred : forall (A : Type) (a b : A), match wins with [] => a | _ :: _ => b end = b)
    by (intros A a b; destruct wins; [contradiction | reflexivity]).
  subst st'. unfold cycleFocus. cbv zeta. fold cur. fold wins. rewrite Hred. fold L.
  rewrite Hidx. fold j. rewrite Hw.
  assert (Hcentre : exists geo, monitors (host st) !! cur = Some geo /\
                                rect_contains geo (floor_center_x (frame_rect w))
                                  (floor_center_y (frame_rect w)) = true).
  { subst wins. unfold getWindowsOnMonitorForWorkspace in HwL. cbv zeta in HwL.
    apply List.filter_In in HwL as (_ & Hf).
    rewrite !andb_true_iff in Hf. destruct Hf as ((((_ & _) & _) & Hc) & _).
    unfold monitor_geometry, get_monitor_geometry in Hc.
    destruct (monitors (host st) !! cur) as [geo|].
    - exists geo. split; [reflexivity|]. exact (center_floor_inside _ _ Hc).
    - cbn in Hc. unfold center_in in Hc. cbn in Hc.
      rewrite !andb_true_iff, !Z.leb_le, !Z.ltb_lt in Hc. lia. }
  set (s1 := if raise_on_cycle_focus (settings (host st))
             then on_host (activate_window (getWindowId w)) st
             else on_host (focus (getWindowId w)) st).
  assert (Hs1 : focus_window (host s1) = Some (stable_sequence w) /\
                windows (host s1) = windows (host st) /\
                monitors (host s1) = monitors (host st) /\
                primary_monitor (host s1) = primary_monitor (host st) /\
                settings (host s1) = settings (host st) /\
                eng s1 = eng st /\
                pointer (host s1) = pointer (host st))
    by (subst s1; rewrite Hraise; repeat split).
  destruct Hs1 as (H1 & H2 & H3 & H4 & H5 & H6 & H7).
  replace (warp_pointer_to_focus (settings (host s1)))
    with (warp_pointer_to_focus (settings (host st)))
    by (symmetry; exact (f_equal warp_pointer_to_focus H5)).
  destruct (warp_pointer_to_focus (settings (host st))) eqn:Hwp.
  - destruct Hwarp as [Hoff|Hdis]; [discriminate|].
    destruct Hcentre as (geo & Hgeo & Hin).
    split; [exact H1|]. split; [exact H2|]. split; [exact H3|]. split; [exact H4|].
    split; [exact H5|]. split; [exact H6|].
    apply getMonitorAtPointer_unique with (g := geo).
    + unfold monitors_disjoint.
      replace (monitors (host (on_host (warp_pointer (floor_center_x (frame_rect w))
                                          (floor_center_y (frame_rect w))) s1)))
        with (monitors (host st)) by (symmetry; exact H3).
      exact Hdis.
    + etransitivity; [|exact Hgeo]. exact (f_equal (fun l => l !! cur) H3).
    + exact Hin.
  - split; [exact H1|]. split; [exact H2|]. split; [exact H3|]. split; [exact H4|].
    split; [exact H5|]. split; [exact H6|].
    unfold getMonitorAtPointer.
    replace (pointer (host s1)) with (pointer (host st)) by (symmetry; exact H7).
    replace (monitors (host s1)) with (monitors (host st)) by (symmetry; exact H3).
    replace (primary_monitor (host s1)) with (primary_monitor (host st)) by (symmetry; exact H4).
    reflexivity.
Qed.

(** X21. When the focused window is one of the windows of the pointer's
    monitor and workspace, cycling the focus forward and then backward (or
    backward and then forward) gives the focus back to it: the two index
    steps are inverse modulo the number of windows.  Shown with
    raise-on-cycle-focus switched off (the window is focused, not raised),
    for window ids that are unique and either the pointer warp switched off
    or monitors that do not overlap, so that the pointer stays on its
    monitor. *)
Theorem cycleFocus_back_and_forth (st : State) (w : Window) (forward : bool) :
  let cur := getMonitorAtPointer (host st) in
  List.NoDup (window_ids st) ->
  raise_on_cycle_focus (settings (host st)) = false ->
  warp_pointer_to_focus (settings (host st)) = false \/ monitors_disjoint (host st) ->
  In w (getWindowsOnMonitorForWorkspace (host st) cur (displayed_ws st cur)) ->
  focus_window (host st) = Some (stable_sequence w) ->
  focus_window (host (cycleFocus sortWindows (negb forward) (cycleFocus sortWindows forward st))) =
    Some (stable_sequence w).
Proof.
  intros cur Hnd Hraise Hwarp Hin Hfocus.
  set (wins := getWindowsOnMonitorForWorkspace (host st) cur (displayed_ws st cur)) in *.
  set (L := sortWindows wins).
  assert (HndL : List.NoDup (map stable_sequence L)).
  { apply (Permutation_NoDup (l := map stable_sequence wins)).
    - apply Permutation_map, Permutation_sym, sortWindows_perm.
    - subst wins. unfold getWindowsOnMonitorForWorkspace. apply NoDup_map_filter. exact Hnd. }
  assert (HinL : In w L) by (apply (Permutation_in w (Permutation_sym (sortWindows_perm wins))); exact Hin).
  apply list_elem_of_In, list_elem_of_lookup_1 in HinL as (i & Hi).
  assert (Hidx : (focus_window (host st) ≫= fun id => index_of id L) = Some i)
    by (rewrite Hfocus; cbn; apply index_of_NoDup; assumption).
  assert (HiL : (i < length L)%nat) by (apply lookup_lt_is_Some; eexists; exact Hi).
  destruct (cycleFocus_step forward st i Hraise Hwarp Hidx)
    as (w1 & Hw1 & Hf1 & Hwin1 & Hmon1 & Hpr1 & Hset1 & Heng1 & Hcur1).
  fold cur in Hw1, Hcur1. fold wins in Hw1. fold L in Hw1.
  set (st1 := cycleFocus sortWindows forward st) in *.
  set (j := if forward then ((i + 1) mod length L)%nat else ((i + length L - 1) mod length L)%nat) in *.
  assert (Hwins1 : getWindowsOnMonitorForWorkspace (host st1) (getMonitorAtPointer (host st1))
                     (displayed_ws st1 (getMonitorAtPointer (host st1))) = wins).
  { rewrite Hcur1.
    replace (displayed_ws st1 cur) with (displayed_ws st cur)
      by (symmetry; exact (f_equal (fun e => default 0%nat (JsMap.get cur (monitorWorkspaceMap e))) Heng1)).
    apply getWindowsOnMonitorForWorkspace_congr; assumption. }
  assert (Hwarp1 : warp_pointer_to_focus (settings (host st1)) = false \/ monitors_disjoint (host st1)).
  { destruct Hwarp as [Hoff|Hdis].
    - left. etransitivity; [exact (f_equal warp_pointer_to_focus Hset1) | exact Hoff].
    - right. unfold monitors_disjoint.
      replace (monitors (host st1)) with (monitors (host st)) by (symmetry; exact Hmon1).
      exact Hdis. }
  assert (Hidx1 : (focus_window (host st1) ≫= fun id =>
                     index_of id (sortWindows
                       (getWindowsOnMonitorForWorkspace (host st1) (getMonitorAtPointer (host st1))
                          (displayed_ws st1 (getMonitorAtPointer (host st1)))))) = Some j).
  { rewrite Hwins1, Hf1. cbn. apply index_of_NoDup; assumption. }
  assert (Hraise1 : raise_on_cycle_focus (settings (host st1)) = false)
    by (etransitivity; [exact (f_equal raise_on_cycle_focus Hset1) | exact Hraise]).
  destruct (cycleFocus_step (negb forward) st1 j Hraise1 Hwarp1 Hidx1) as (w2 & Hw2 & Hf2 & _).
  rewrite Hwins1 in Hw2. fold L in Hw2.
  rewrite Hf2. f_equal.
  assert (Hback : (if negb forward then ((j + 1) mod length L)%nat
                   else ((j + length L - 1) mod length L)%nat) = i).
  { subst j. destruct (cycle_index_back i (length L) HiL) as (H1 & H2).
    destruct forward; cbn [negb]; assumption. }
  rewrite Hback in Hw2. congruence.
Qed.

End CycleFocus.

Lemma cycleFocus_back_and_forth_witness :
  let w1 := sample_window 7 100 100 400 300 (Some 3%nat) in
  let w2 := sample_window 8 600 100 400 300 (Some 3%nat) in
  let st := mkState (with_settings (mkSettings "Alt" "swap" false false false ∅ [])
                       (with_focus_window (Some 7%nat)
                          (sample_host [left_monitor; right_monitor] 0 (10, 10) 3 [w1; w2])))
                    (sample_engine [(0, 3); (1, 5)]%nat) in
  focus_window (host (cycleFocus id true st)) = Some 8%nat /\
  focus_window (host (cycleFocus id false (cycleFocus id true st))) = Some 7%nat.
Proof.
  intros w1 w2 st. split; [reflexivity|].
  apply (cycleFocus_back_and_forth id (fun l => Permutation_refl l) st w1 true).
  - repeat constructor; simpl; intuition discriminate.
  - reflexivity.
  - left. reflexivity.
  - left. reflexivity.
  - reflexivity.
Defined.

(** ** Refresh after a screen unlock *)

Lemma update_window_id_fixed (id : WindowId) (f : Window -> Window) (ws : list Window) (w : Window) :
  List.NoDup (map stable_sequence ws) ->
  find_window id ws = Some w -> f w = w ->
  update_window id f ws = ws.
Proof.
  intros Hnd Hfind Hf. unfold update_window.
  rewrite <- (List.map_id ws) at 2. apply List.map_ext_in.
  intros a Ha. destruct (decide (stable_sequence a = id)) as [E|_]; [|reflexivity].
  assert (a = w); [|subst a; exact Hf].
  apply (NoDup_map_inj_In stable_sequence ws); [exact Hnd | exact Ha | |].
  - exact (find_window_In _ _ _ Hfind).
  - etransitivity; [exact E|]. symmetry. exact (find_window_id _ _ _ Hfind).
Qed.

Lemma retagged_ids act ws' ws :
  retagged act ws' ws -> map stable_sequence ws' = map stable_sequence ws.
Proof.
  induction 1 as [|w' w l' l Hr _ IH]; [reflexivity|].
  cbn. f_equal; [|exact IH]. destruct Hr as [->| ->]; reflexivity.
Qed.

Lemma retagged_frames act ws' ws :
  retagged act ws' ws -> map frame_rect ws' = map frame_rect ws.
Proof.
  induction 1 as [|w' w l' l Hr _ IH]; [reflexivity|].
  cbn. f_equal; [|exact IH]. destruct Hr as [->| ->]; reflexivity.
Qed.

Lemma retagged_retag act id ws' ws :
  retagged act ws' ws ->
  retagged act (update_window id (with_workspace (Some act)) ws') ws.
Proof.
  induction 1 as [|w' w l' l Hr _ IH]; [constructor|].
  cbn. constructor; [|exact IH].
  destruct (decide (stable_sequence w' = id)); [|exact Hr].
  right. destruct Hr as [->| ->]; reflexivity.
Qed.

(** X22. [_refreshSecondaryWindows] leaves every window where it is and at
    its size: the window list afterwards is the one before, except that
    windows may have been retagged with the active workspace.  The
    monitor-workspace map and the position cache are not touched, and the
    frames it schedules for re-application are the frames the windows have.
    Shown for unique window ids. *)
Theorem refreshSecondaryWindows_keeps_frames (st : State) :
  List.NoDup (window_ids st) ->
  let st' := refreshSecondaryWindows st in
  retagged (active_workspace (host st)) (windows (host st')) (windows (host st)) /\
  map frame_rect (windows (host st')) = map frame_rect (windows (host st)) /\
  window_ids st' = window_ids st /\
  monitorWorkspaceMap (eng st') = monitorWorkspaceMap (eng st) /\
  savedWindowPositions (eng st') = savedWindowPositions (eng st) /\
  (forall d id x y wd ht, In (d, ReapplyFrame id x y wd ht) (timers (eng st')) ->
     In (d, ReapplyFrame id x y wd ht) (timers (eng st)) \/
     exists w, findWindowById st id = Some w /\ frame_rect w = mkRect x y wd ht).
Proof.
  intros Hnd. cbv zeta.
  set (act := active_workspace (host st)).
  set (P := fun s : State =>
              retagged act (windows (host s)) (windows (host st)) /\
              monitorWorkspaceMap (eng s) = monitorWorkspaceMap (eng st) /\
              savedWindowPositions (eng s) = savedWindowPositions (eng st) /\
              (forall d id x y wd ht, In (d, ReapplyFrame id x y wd ht) (timers (eng s)) ->
                 In (d, ReapplyFrame id x y wd ht) (timers (eng st)) \/
                 exists w, findWindowById st id = Some w /\ frame_rect w = mkRect x y wd ht)).
  assert (HP0 : P st).
  { split; [|split; [reflexivity|split; [reflexivity|intros; left; assumption]]].
    unfold retagged. induction (windows (host st)); constructor; [left; reflexivity | assumption]. }
  assert (Hstep : forall s id, P s ->
            P (match findWindowById s id with
               | None => s
               | Some window =>
                   let rect := frame_rect window in
                   let s := on_host (change_workspace id (Some act)) s in
                   let s := on_host (move_resize_frame id (rect_x rect) (rect_y rect)
                                       (rect_width rect) (rect_height rect)) s in
                   timeout_add 50 (ReapplyFrame id (rect_x rect) (rect_y rect)
                                     (rect_width rect) (rect_height rect)) s
               end)).
  { intros s id (Hr & Hm & Hc & Ht).
    destruct (findWindowById s id) as [window|] eqn:Hf; [|repeat split; assumption].
    cbv zeta.
    pose proof (retagged_ids _ _ _ Hr) as Hids.
    assert (Hnds : List.NoDup (map stable_sequence (windows (host s))))
      by (rewrite Hids; exact Hnd).
    set (ws1 := update_window id (with_workspace (Some act)) (windows (host s))).
    assert (Hr1 : retagged act ws1 (windows (host st))) by (apply retagged_retag; exact Hr).
    assert (Hf1 : find_window id ws1 = Some (with_workspace (Some act) window)).
    { subst ws1. etransitivity; [apply find_update_same; reflexivity|].
      exact (f_equal (fmap (with_workspace (Some act))) Hf). }
    assert (Hfix : update_window id
                     (with_frame (mkRect (rect_x (frame_rect window)) (rect_y (frame_rect window))
                                    (rect_width (frame_rect window))
                                    (rect_height (frame_rect window)))) ws1 = ws1).
    { apply (update_window_id_fixed id _ ws1 (with_workspace (Some act) window)).
      - rewrite (retagged_ids _ _ _ Hr1). exact Hnd.
      - exact Hf1.
      - destruct window as [a [x y wd ht] c d e f g h i j k]. reflexivity. }
    split; [|split; [exact Hm | split; [exact Hc|]]].
    - cbn [timeout_add on_eng on_host host move_resize_frame change_workspace record_call
             with_calls with_windows windows].
      change (retagged act
                (update_window id
                   (with_frame (mkRect (rect_x (frame_rect window)) (rect_y (frame_rect window))
                                  (rect_width (frame_rect window))
                                  (rect_height (frame_rect window)))) ws1)
                (windows (host st))).
      rewrite Hfix. exact Hr1.
    - intros d id' x y wd ht Hin.
      cbn [timeout_add on_eng on_host eng timers with_timers] in Hin.
      apply List.in_app_or in Hin as [Hin|[Heq|[]]]; [exact (Ht _ _ _ _ _ _ Hin)|].
      injection Heq as <- <- <- <- <- <-. right.
      (* the window found now is the window of the initial state, possibly retagged *)
      assert (Hfr : forall l' l, retagged act l' l -> forall w', find_window id l' = Some w' ->
                      exists w, find_window id l = Some w /\ frame_rect w = frame_rect w').
      { induction 1 as [|a' a l' l Ha _ IH]; intros w' Hw'; [discriminate|].
        cbn in Hw' |- *.
        assert (Hsame : stable_sequence a' = stable_sequence a)
          by (destruct Ha as [->| ->]; reflexivity).
        destruct (decide (stable_sequence a' = id)) as [E|NE].
        - injection Hw' as <-.
          destruct (decide (stable_sequence a = id)) as [_|NE']; [|congruence].
          exists a. split; [reflexivity|]. destruct Ha as [->| ->]; reflexivity.
        - destruct (decide (stable_sequence a = id)) as [E'|_]; [congruence|].
          exact (IH w' Hw'). }
      destruct (Hfr _ _ Hr window Hf) as (w0 & Hw0 & Hfr0).
      exists w0. split; [exact Hw0|]. rewrite Hfr0.
      destruct (frame_rect window). reflexivity. }
  assert (HP : P (refreshSecondaryWindows st)).
  { unfold refreshSecondaryWindows. cbv zeta. fold act.
    apply (fold_left_invariant P); [|exact HP0].
    intros s monitorIndex _ HPs.
    destruct (decide (monitorIndex = primary_monitor (host st))); [exact HPs|].
    destruct (JsMap.get monitorIndex (monitorWorkspaceMap (eng s))); [|exact HPs].
    apply (fold_left_invariant P); [|exact HPs].
    intros s' id _ HPs'. exact (Hstep s' id HPs'). }
  destruct HP as (Hr & Hm & Hc & Ht).
  split; [exact Hr|]. split; [exact (retagged_frames _ _ _ Hr)|].
  split; [exact (retagged_ids _ _ _ Hr)|]. split; [exact Hm|]. split; [exact Hc | exact Ht].
Qed.

Lemma refreshSecondaryWindows_keeps_frames_witness :
  let st := mkState (sample_host [left_monitor; right_monitor] 0 (10, 10) 3
                       [sample_window 7 100 100 400 300 (Some 3%nat);
                        sample_window 8 2100 100 400 300 (Some 5%nat)])
                    (sample_engine [(0, 3); (1, 5)]%nat) in
  windows (host (refreshSecondaryWindows st)) =
    [sample_window 7 100 100 400 300 (Some 3%nat);
     sample_window 8 2100 100 400 300 (Some 3%nat)] /\
  map frame_rect (windows (host (refreshSecondaryWindows st))) = map frame_rect (windows (host st)).
Proof.
  intros st. split; [reflexivity|].
  destruct (refreshSecondaryWindows_keeps_frames st) as (_ & H & _); [|exact H].
  repeat constructor; simpl; intuition discriminate.
Defined.

(** ** System shortcuts: override and restore *)









(** ** Rebuilding the map *)

Lemma keys_set_fresh (k v : nat) (m : list (nat * nat)) :
  ~ In k (JsMap.keys m) -> JsMap.keys (JsMap.set k v m) = JsMap.keys m ++ [k].
Proof.
  induction m as [|[k' v'] m IH]; cbn; intros Hn; [reflexivity|].
  destruct (decide (k' = k)) as [->|Hne]; [exfalso; apply Hn; left; reflexivity|].
  cbn. f_equal. apply IH. tauto.
Qed.

Lemma keys_fold_set_fresh (f : nat -> nat) (l : list nat) (m : list (nat * nat)) :
  List.NoDup l -> (forall k, In k l -> ~ In k (JsMap.keys m)) ->
  JsMap.keys (fold_left (fun m i => JsMap.set i (f i) m) l m) = JsMap.keys m ++ l.
Proof.
  revert m. induction l as [|x l IH]; intros m Hnd Hfresh; cbn [fold_left].
  - symmetry. apply List.app_nil_r.
  - apply List.NoDup_cons_iff in Hnd as (Hx & Hnd).
    rewrite IH; [|exact Hnd|].
    + rewrite keys_set_fresh by (apply Hfresh; left; reflexivity).
      rewrite <- List.app_assoc. reflexivity.
    + intros k Hk Hin. apply in_keys_set in Hin as [->|Hin]; [contradiction|].
      exact (Hfresh k (or_intror Hk) Hin).
Qed.

Lemma initializeMapping_host (st : State) :
  host (initializeMapping st) = ensureWorkspaceExists 9 (host st).
Proof.
  unfold initializeMapping. cbv zeta.
  rewrite (fold_left_preserves host); [reflexivity|].
  intros s i. destruct (decide (i = primary_monitor (host st))); reflexivity.
Qed.

(** X24. The [monitors-changed] handler rebuilds the map from scratch:
    whatever it held before, afterwards it has exactly one entry per monitor,
    in monitor order; the primary monitor displays the active workspace and
    monitor [i] workspace [(active + i) mod 10]; at least ten workspaces exist
    and, the active workspace being one of the host's, so does every workspace
    the map names.  No window is touched. *)
Theorem onMonitorsChanged_rebuilds (st : State) :
  let st' := onMonitorsChanged st in
  let P := primary_monitor (host st) in
  let c := active_workspace (host st) in
  let n := length (monitors (host st)) in
  JsMap.keys (monitorWorkspaceMap (eng st')) = seq 0 n /\
  (forall i, (i < n)%nat ->
     JsMap.get i (monitorWorkspaceMap (eng st')) =
       Some (if decide (i = P) then c else ((c + i) mod 10)%nat)) /\
  (10 <= n_workspaces (host st'))%nat /\
  ((c < n_workspaces (host st))%nat ->
   forall i ws, JsMap.get i (monitorWorkspaceMap (eng st')) = Some ws ->
                (ws < n_workspaces (host st'))%nat) /\
  windows (host st') = windows (host st).
Proof.
  intros st' P c n.
  set (s0 := on_eng (fun e => with_monitorWorkspaceMap (JsMap.clear (monitorWorkspaceMap e)) e) st).
  set (s1 := initializeMapping s0).
  assert (Hmap' : monitorWorkspaceMap (eng st') = monitorWorkspaceMap (eng s1)).
  { subst st'. unfold onMonitorsChanged. cbv zeta. fold s0. fold s1.
    destruct (indicatorManager (eng s1)); reflexivity. }
  assert (Hhost' : n_workspaces (host st') = n_workspaces (host s1) /\
                   windows (host st') = windows (host s1)).
  { subst st'. unfold onMonitorsChanged. cbv zeta. fold s0. fold s1.
    destruct (indicatorManager (eng s1)); split; reflexivity. }
  destruct Hhost' as (Hn' & Hw').
  pose proof (initializeMapping_map s0) as Hmap. cbv zeta in Hmap. fold s1 in Hmap.
  change (primary_monitor (host s0)) with P in Hmap.
  change (active_workspace (host s0)) with c in Hmap.
  change (length (monitors (host s0))) with n in Hmap.
  change (monitorWorkspaceMap (eng s0)) with (@nil (nat * nat)) in Hmap.
  set (f := fun i : nat => if decide (i = P) then c else ((c + i) mod 10)%nat) in *.
  pose proof (initializeMapping_host s0) as Hhost. fold s1 in Hhost.
  change (host s0) with (host st) in Hhost.
  destruct (ensureWorkspaceExists_pool 9 (host st)) as (Hpool & _ & _ & _ & Hwin & _).
  assert (Hn1 : n_workspaces (host s1) = Nat.max (n_workspaces (host st)) 10)
    by (etransitivity; [exact (f_equal n_workspaces Hhost) | exact Hpool]).
  assert (Hget : forall i, (i < n)%nat -> JsMap.get i (monitorWorkspaceMap (eng st')) = Some (f i)).
  { intros i Hi. rewrite Hmap', Hmap. apply get_fold_set_in. left. apply List.in_seq. lia. }
  split; [|split; [exact Hget|split; [|split]]].
  - rewrite Hmap', Hmap.
    rewrite keys_fold_set_fresh; [reflexivity | apply List.seq_NoDup | intros k _ []].
  - rewrite Hn', Hn1. lia.
  - intros Hc i ws Hi. rewrite Hn', Hn1.
    destruct (Nat.lt_ge_cases i n) as [Hlt|Hge].
    + rewrite (Hget i Hlt) in Hi. injection Hi as <-. subst f. cbv beta.
      destruct (decide (i = P)); [lia|].
      pose proof (Nat.mod_upper_bound (c + i) 10 ltac:(lia)). lia.
    + rewrite Hmap', Hmap in Hi.
      rewrite get_fold_set_notin in Hi by (rewrite List.in_seq; lia). discriminate.
  - etransitivity; [exact Hw'|]. etransitivity; [exact (f_equal windows Hhost) | exact Hwin].
Qed.

Lemma onMonitorsChanged_rebuilds_witness :
  let st := mkState (sample_host [left_monitor; right_monitor; mkRect 3840 0 1920 1080]
                       0 (10, 10) 8 [])
                    (sample_engine [(2, 4); (5, 1)]%nat) in
  monitorWorkspaceMap (eng (onMonitorsChanged st)) = [(0, 8); (1, 9); (2, 0)]%nat /\
  JsMap.keys (monitorWorkspaceMap (eng (onMonitorsChanged st))) = [0; 1; 2]%nat.
Proof.
  intros st. split; [reflexivity|].
  exact (proj1 (onMonitorsChanged_rebuilds st)).
Defined.

(** ** Loops that move one window per step *)

Lemma findWindowById_move_resize_frame st id x y wd ht :
  findWindowById (on_host (move_resize_frame id x y wd ht) st) id =
  with_frame (mkRect x y wd ht) <$> findWindowById st id.
Proof. unfold findWindowById. cbn. apply find_update_same. reflexivity. Qed.

Lemma findWindowById_move_resize_frame_other st id id' x y wd ht :
  id <> id' ->
  findWindowById (on_host (move_resize_frame id x y wd ht) st) id' = findWindowById st id'.
Proof. intros Hne. unfold findWindowById. cbn. apply find_update_other; [reflexivity | exact Hne]. Qed.

Lemma findWindowById_move_to_monitor_other st id id' m :
  id <> id' ->
  findWindowById (on_host (move_to_monitor id m) st) id' = findWindowById st id'.
Proof. intros Hne. unfold findWindowById. cbn. apply find_update_other; [reflexivity | exact Hne]. Qed.

Lemma findWindowById_tagged st id ws :
  findWindowById (on_host (change_workspace id ws) st) id = tagged ws <$> findWindowById st id.
Proof.
  destruct ws as [i|]; [apply findWindowById_change_workspace|].
  etransitivity; [apply (findWindowById_windows _ st); reflexivity|].
  destruct (findWindowById st id); reflexivity.
Qed.

Lemma window_ids_move_resize_frame st id x y wd ht :
  window_ids (on_host (move_resize_frame id x y wd ht) st) = window_ids st.
Proof. unfold window_ids. cbn. apply update_window_ids. reflexivity. Qed.

Lemma window_ids_move_to_monitor st id m :
  window_ids (on_host (move_to_monitor id m) st) = window_ids st.
Proof. unfold window_ids. cbn. apply update_window_ids. reflexivity. Qed.

(** A loop whose steps each touch one window leaves the windows it does not
    name alone. *)
Lemma fold_left_window_miss {A : Type} (key : A -> WindowId) (step : State -> A -> State)
    (l : list A) (st : State) (id : WindowId) :
  (forall s a, key a <> id -> findWindowById (step s a) id = findWindowById s id) ->
  ~ In id (map key l) ->
  findWindowById (fold_left step l st) id = findWindowById st id.
Proof.
  intros Hother. revert st. induction l as [|a l IH]; intros st Hnin; cbn [fold_left]; [reflexivity|].
  cbn in Hnin. rewrite IH by tauto. apply Hother. tauto.
Qed.

(** And the window a step names is, at the end, as that step left it. *)
Lemma fold_left_window_hit {A : Type} (key : A -> WindowId) (step : State -> A -> State)
    (I : State -> Prop) (l : list A) (st : State) (id : WindowId) (a : A) :
  List.NoDup (map key l) -> In a l -> key a = id ->
  (forall s b, key b <> id -> findWindowById (step s b) id = findWindowById s id) ->
  (forall s b, I s -> I (step s b)) -> I st ->
  exists s, I s /\ findWindowById s id = findWindowById st id /\
            findWindowById (fold_left step l st) id = findWindowById (step s a) id.
Proof.
  intros Hnd Hin Hkey Hother Hinv. revert st Hnd Hin.
  induction l as [|b l IH]; intros st Hnd Hin HI; [destruct Hin|].
  cbn in Hnd. apply List.NoDup_cons_iff in Hnd as (Hb & Hnd). cbn [fold_left].
  destruct Hin as [->|Hin].
  - exists st. split; [exact HI|]. split; [reflexivity|].
    apply (fold_left_window_miss key); [exact Hother|]. rewrite <- Hkey. exact Hb.
  - assert (Hne : key b <> id).
    { intros E. apply Hb. rewrite E, <- Hkey. apply List.in_map. exact Hin. }
    destruct (IH (step st b) Hnd Hin (Hinv st b HI)) as (s & Hs & Hfind & Hres).
    exists s. split; [exact Hs|]. split; [|exact Hres].
    rewrite Hfind. apply Hother. exact Hne.
Qed.

(** ** Swap: where the windows go *)

Lemma swapMove_other toGeo toMonitor primaryMonitor obj st info id :
  swap_window info <> id ->
  findWindowById (swapMove toGeo toMonitor primaryMonitor obj st info) id = findWindowById st id.
Proof.
  intros Hne. unfold swapMove. cbv zeta.
  set (s1 := on_host (move_resize_frame _ _ _ _ _) st).
  set (s2 := on_host (move_to_monitor _ _) s1).
  set (s3 := timeout_add 50 _ s2).
  assert (H3 : findWindowById s3 id = findWindowById st id).
  { etransitivity; [apply (findWindowById_host s3 s2); reflexivity|].
    etransitivity; [apply findWindowById_move_to_monitor_other; exact Hne|].
    apply findWindowById_move_resize_frame_other; exact Hne. }
  destruct obj as [o|]; [|exact H3].
  destruct (decide (toMonitor = primaryMonitor)); [|exact H3].
  etransitivity; [apply findWindowById_change_workspace_other; exact Hne | exact H3].
Qed.

Lemma swapMove_same toGeo fromGeo toMonitor primaryMonitor obj st w0 w :
  findWindowById st (stable_sequence w0) = Some w ->
  findWindowById (swapMove toGeo toMonitor primaryMonitor obj st (swapInfo fromGeo w0))
    (stable_sequence w0) =
  Some (tagged (if decide (toMonitor = primaryMonitor) then obj else None)
          (with_monitor toMonitor
             (with_frame (mkRect (rect_x toGeo + (rect_x (frame_rect w0) - rect_x fromGeo))
                            (rect_y toGeo + (rect_y (frame_rect w0) - rect_y fromGeo))
                            (rect_width (frame_rect w0)) (rect_height (frame_rect w0))) w))).
Proof.
  intros Hfind. unfold swapMove. cbv zeta. cbn [swapInfo swap_window swap_relX swap_relY
                                                swap_width swap_height getWindowId].
  set (id := stable_sequence w0) in *.
  set (nx := rect_x toGeo + (rect_x (frame_rect w0) - rect_x fromGeo)).
  set (ny := rect_y toGeo + (rect_y (frame_rect w0) - rect_y fromGeo)).
  set (s1 := on_host (move_resize_frame id nx ny (rect_width (frame_rect w0))
                        (rect_height (frame_rect w0))) st).
  set (s2 := on_host (move_to_monitor id toMonitor) s1).
  set (s3 := timeout_add 50 (ReapplyFrame id nx ny (rect_width (frame_rect w0))
                               (rect_height (frame_rect w0))) s2).
  assert (H3 : findWindowById s3 id =
               Some (with_monitor toMonitor
                       (with_frame (mkRect nx ny
                                      (rect_width (frame_rect w0)) (rect_height (frame_rect w0))) w))).
  { etransitivity; [apply (findWindowById_host s3 s2); reflexivity|].
    etransitivity; [apply findWindowById_move_to_monitor|].
    etransitivity; [exact (f_equal (fmap (with_monitor toMonitor))
                             (findWindowById_move_resize_frame st id _ _ _ _))|].
    etransitivity; [exact (f_equal (fun o => with_monitor toMonitor <$> (_ <$> o)) Hfind)|].
    reflexivity. }
  destruct obj as [o|].
  - destruct (decide (toMonitor = primaryMonitor)); [|exact H3].
    etransitivity; [apply findWindowById_change_workspace|].
    etransitivity; [exact (f_equal (fmap (with_workspace (Some o))) H3) | reflexivity].
  - destruct (decide (toMonitor = primaryMonitor)); exact H3.
Qed.

Lemma In_windows_ids (st : State) (p : Window -> bool) (w : Window) :
  List.NoDup (window_ids st) ->
  In w (windows (host st)) ->
  In (stable_sequence w) (map stable_sequence (List.filter p (windows (host st)))) ->
  In w (List.filter p (windows (host st))).
Proof.
  intros Hnd Hw Hin. apply List.in_map_iff in Hin as (u & Hid & Hu).
  assert (u = w); [|subst u; exact Hu].
  apply (NoDup_map_inj_In stable_sequence (windows (host st))); [exact Hnd | | exact Hw | exact Hid].
  apply List.filter_In in Hu. tauto.
Qed.

(** Where [_performSwap] leaves the windows, for the windows of the first
    monitor, of the second one, and all others. *)
Lemma performSwap_find (st : State) (monitor1 monitor2 ws1 ws2 : nat) (skip : bool) (w : Window) :
  List.NoDup (window_ids st) ->
  In w (windows (host st)) ->
  let P := primary_monitor (host st) in
  let geo1 := monitor_geometry (host st) monitor1 in
  let geo2 := monitor_geometry (host st) monitor2 in
  let windows1 := getWindowsOnMonitor (host st) monitor1 false in
  let windows2 := getWindowsOnMonitor (host st) monitor2 false in
  let obj :=
    if bool_decide (monitor1 = P) || bool_decide (monitor2 = P)
    then get_workspace_by_index (host st) (if decide (monitor1 = P) then ws2 else ws1)
    else None in
  let st' := performSwap monitor1 monitor2 ws1 ws2 skip st in
  (In w windows1 -> ~ In w windows2 ->
   findWindowById st' (stable_sequence w) =
     Some (tagged (if decide (monitor2 = P) then obj else None) (carried geo1 geo2 monitor2 w))) /\
  (In w windows2 -> ~ In w windows1 ->
   findWindowById st' (stable_sequence w) =
     Some (tagged (if decide (monitor1 = P) then obj else None) (carried geo2 geo1 monitor1 w))) /\
  (~ In w windows1 -> ~ In w windows2 -> findWindowById st' (stable_sequence w) = Some w) /\
  window_ids st' = window_ids st.
Proof.
  intros Hnd Hw P geo1 geo2 windows1 windows2 obj st'.
  assert (Hfind : findWindowById st (stable_sequence w) = Some w)
    by (apply find_window_NoDup; assumption).
  set (id := stable_sequence w) in *.
  subst st'. unfold performSwap. cbv zeta.
  fold P. fold geo1. fold geo2. fold windows1. fold windows2. fold obj.
  set (info1 := map (swapInfo geo1) windows1).
  set (info2 := map (swapInfo geo2) windows2).
  set (s1 := fold_left (swapMove geo2 monitor2 P obj) info1 st).
  set (s2 := fold_left (swapMove geo1 monitor1 P obj) info2 s1).
  assert (Hkeys1 : map swap_window info1 = map stable_sequence windows1)
    by (subst info1; rewrite List.map_map; reflexivity).
  assert (Hkeys2 : map swap_window info2 = map stable_sequence windows2)
    by (subst info2; rewrite List.map_map; reflexivity).
  assert (Hnd1 : List.NoDup (map swap_window info1))
    by (rewrite Hkeys1; apply NoDup_map_filter; exact Hnd).
  assert (Hnd2 : List.NoDup (map swap_window info2))
    by (rewrite Hkeys2; apply NoDup_map_filter; exact Hnd).
  assert (Hin1 : In id (map swap_window info1) -> In w windows1)
    by (rewrite Hkeys1; apply In_windows_ids; assumption).
  assert (Hin2 : In id (map swap_window info2) -> In w windows2)
    by (rewrite Hkeys2; apply In_windows_ids; assumption).
  (* what the tail of the operation does not change *)
  assert (Htail : forall s,
            findWindowById
              (map_set monitor2 ws1
                 (map_set monitor1 ws2
                    match obj with
                    | Some _ =>
                        if (bool_decide (monitor1 = P) || bool_decide (monitor2 = P)) && negb skip
                        then activateWorkspaceWithoutAnimation obj s else s
                    | None => s
                    end)) id = findWindowById s id /\
            window_ids
              (map_set monitor2 ws1
                 (map_set monitor1 ws2
                    match obj with
                    | Some _ =>
                        if (bool_decide (monitor1 = P) || bool_decide (monitor2 = P)) && negb skip
                        then activateWorkspaceWithoutAnimation obj s else s
                    | None => s
                    end)) = window_ids s).
  { intros s. destruct obj; [|split; reflexivity].
    destruct ((bool_decide (monitor1 = P) || bool_decide (monitor2 = P)) && negb skip);
      [|split; reflexivity].
    split.
    - exact (activateWorkspaceWithoutAnimation_find _ s id).
    - unfold window_ids.
      exact (f_equal (map stable_sequence) (activateWorkspaceWithoutAnimation_windows _ s)). }
  destruct (Htail s2) as (Ht1 & Ht2).
  assert (Hids : forall toGeo toMonitor l s,
            window_ids (fold_left (swapMove toGeo toMonitor P obj) l s) = window_ids s).
  { intros toGeo toMonitor l s. apply (fold_left_preserves window_ids).
    intros s' info. unfold swapMove. cbv zeta.
    destruct obj; [destruct (decide (toMonitor = P))|];
      rewrite ?window_ids_change_workspace;
      (etransitivity; [apply window_ids_move_to_monitor|]; apply window_ids_move_resize_frame). }
  split; [|split; [|split]].
  - intros Hw1 Hnw2. rewrite Ht1. subst s2.
    rewrite (fold_left_window_miss swap_window) by
      (try (intros s a Ha; apply swapMove_other; exact Ha); intros Hc; exact (Hnw2 (Hin2 Hc))).
    subst s1.
    destruct (fold_left_window_hit swap_window (swapMove geo2 monitor2 P obj) (fun _ => True)
                info1 st id (swapInfo geo1 w)) as (s & _ & Hs & Hres);
      [exact Hnd1 | apply List.in_map; exact Hw1 | reflexivity
      | intros s a Ha; apply swapMove_other; exact Ha | trivial | trivial |].
    rewrite Hres. rewrite Hfind in Hs.
    exact (swapMove_same geo2 geo1 monitor2 P obj s w w Hs).
  - intros Hw2 Hnw1. rewrite Ht1. subst s2.
    assert (Hs1 : findWindowById s1 id = Some w).
    { subst s1. rewrite (fold_left_window_miss swap_window) by
        (try (intros s a Ha; apply swapMove_other; exact Ha); intros Hc; exact (Hnw1 (Hin1 Hc))).
      exact Hfind. }
    destruct (fold_left_window_hit swap_window (swapMove geo1 monitor1 P obj) (fun _ => True)
                info2 s1 id (swapInfo geo2 w)) as (s & _ & Hs & Hres);
      [exact Hnd2 | apply List.in_map; exact Hw2 | reflexivity
      | intros s a Ha; apply swapMove_other; exact Ha | trivial | trivial |].
    rewrite Hres. rewrite Hs1 in Hs.
    exact (swapMove_same geo1 geo2 monitor1 P obj s w w Hs).
  - intros Hnw1 Hnw2. rewrite Ht1. subst s2 s1.
    rewrite !(fold_left_window_miss swap_window);
      try (intros s a Ha; apply swapMove_other; exact Ha).
    + exact Hfind.
    + intros Hc; exact (Hnw1 (Hin1 Hc)).
    + intros Hc; exact (Hnw2 (Hin2 Hc)).
  - rewrite Ht2. subst s2 s1. rewrite !Hids. reflexivity.
Qed.

Lemma tagged_static (ws : option nat) (w : Window) :
  stable_sequence (tagged ws w) = stable_sequence w /\
  frame_rect (tagged ws w) = frame_rect w /\
  win_monitor (tagged ws w) = win_monitor w /\
  skip_taskbar (tagged ws w) = skip_taskbar w /\
  window_type (tagged ws w) = window_type w /\
  hidden (tagged ws w) = hidden w.
Proof. destruct ws; repeat split. Qed.

Lemma performSwap_monitors monitor1 monitor2 ws1 ws2 skip st :
  monitors (host (performSwap monitor1 monitor2 ws1 ws2 skip st)) = monitors (host st) /\
  primary_monitor (host (performSwap monitor1 monitor2 ws1 ws2 skip st)) = primary_monitor (host st).
Proof.
  set (Q := fun s : State => monitors (host s) = monitors (host st) /\
                             primary_monitor (host s) = primary_monitor (host st)).
  change (Q (performSwap monitor1 monitor2 ws1 ws2 skip st)).
  assert (Hact : forall ws s, Q s -> Q (activateWorkspaceWithoutAnimation ws s)).
  { intros ws s (Hm & Hp). split; (etransitivity; [|eassumption]);
      unfold activateWorkspaceWithoutAnimation, workspace_activate; repeat case_match; reflexivity. }
  assert (Hmove : forall toGeo toMonitor P obj s info,
            Q s -> Q (swapMove toGeo toMonitor P obj s info)).
  { intros toGeo toMonitor P obj s info (Hm & Hp). split; (etransitivity; [|eassumption]);
      unfold swapMove; repeat case_match; reflexivity. }
  assert (Hset : forall m ws s, Q s -> Q (map_set m ws s)) by (intros m ws s H; exact H).
  unfold performSwap. cbv zeta. apply Hset, Hset.
  match goal with |- Q (match ?obj with Some _ => if ?c then _ else _ | None => _ end) =>
    destruct obj; [destruct c; [apply Hact|]|]
  end.
  all: apply (fold_left_invariant Q); [intros; apply Hmove; assumption|].
  all: apply (fold_left_invariant Q); [intros; apply Hmove; assumption|].
  all: split; reflexivity.
Qed.

Lemma getWindowsOnMonitor_dec (h : Host) (monitorIndex : nat) (includeHidden : bool) (w : Window) :
  In w (windows h) ->
  In w (getWindowsOnMonitor h monitorIndex includeHidden) \/
  ~ In w (getWindowsOnMonitor h monitorIndex includeHidden).
Proof.
  intros Hw. unfold getWindowsOnMonitor. cbv zeta.
  match goal with |- In w (List.filter ?p _) \/ _ => destruct (p w) eqn:Hp end.
  - left. apply List.filter_In. split; assumption.
  - right. intros Hin. apply List.filter_In in Hin as (_ & Hin). congruence.
Qed.

(** X25. [_performSwap] carries every window of the first monitor to the
    second one and every window of the second monitor to the first one, each
    at the offset it had inside its monitor and at its size; a window that
    arrives on the primary monitor is tagged with the workspace that monitor
    now displays (when that workspace exists), a window that arrives on a
    secondary monitor keeps its tag; windows of other monitors are left
    alone.  Shown for unique window ids and a window whose centre lies on one
    of the two monitors only. *)
Theorem performSwap_windows (st : State) (monitor1 monitor2 ws1 ws2 : nat) (skip : bool)
    (w : Window) :
  List.NoDup (window_ids st) ->
  In w (windows (host st)) ->
  let P := primary_monitor (host st) in
  let geo1 := monitor_geometry (host st) monitor1 in
  let geo2 := monitor_geometry (host st) monitor2 in
  let on1 := In w (getWindowsOnMonitor (host st) monitor1 false) in
  let on2 := In w (getWindowsOnMonitor (host st) monitor2 false) in
  let newWs := if decide (monitor1 = P) then ws2 else ws1 in
  let st' := performSwap monitor1 monitor2 ws1 ws2 skip st in
  exists w',
    findWindowById st' (stable_sequence w) = Some w' /\
    rect_width (frame_rect w') = rect_width (frame_rect w) /\
    rect_height (frame_rect w') = rect_height (frame_rect w) /\
    (on1 -> ~ on2 ->
     rect_x (frame_rect w') - rect_x geo2 = rect_x (frame_rect w) - rect_x geo1 /\
     rect_y (frame_rect w') - rect_y geo2 = rect_y (frame_rect w) - rect_y geo1 /\
     win_monitor w' = monitor2 /\
     win_workspace w' =
       (if decide (monitor2 = P)
        then if (newWs <? n_workspaces (host st))%nat then Some newWs else win_workspace w
        else win_workspace w)) /\
    (on2 -> ~ on1 ->
     rect_x (frame_rect w') - rect_x geo1 = rect_x (frame_rect w) - rect_x geo2 /\
     rect_y (frame_rect w') - rect_y geo1 = rect_y (frame_rect w) - rect_y geo2 /\
     win_monitor w' = monitor1 /\
     win_workspace w' =
       (if decide (monitor1 = P)
        then if (newWs <? n_workspaces (host st))%nat then Some newWs else win_workspace w
        else win_workspace w)) /\
    (~ on1 -> ~ on2 -> w' = w).
Proof.
  intros Hnd Hw P geo1 geo2 on1 on2 newWs st'.
  destruct (performSwap_find st monitor1 monitor2 ws1 ws2 skip w Hnd Hw) as (H1 & H2 & H3 & _).
  fold P geo1 geo2 st' in H1, H2, H3. fold newWs in H1, H2.
  destruct (getWindowsOnMonitor_dec (host st) monitor1 false w Hw) as [Hin1|Hn1];
    destruct (getWindowsOnMonitor_dec (host st) monitor2 false w Hw) as [Hin2|Hn2].
  - (* on both monitors: only the size is claimed *)
    assert (Hsize : exists w', findWindowById st' (stable_sequence w) = Some w' /\
                      rect_width (frame_rect w') = rect_width (frame_rect w) /\
                      rect_height (frame_rect w') = rect_height (frame_rect w)).
    { subst st'. unfold performSwap. cbv zeta. fold P geo1 geo2.
      set (obj := if bool_decide (monitor1 = P) || bool_decide (monitor2 = P)
                  then get_workspace_by_index (host st) (if decide (monitor1 = P) then ws2 else ws1)
                  else None).
      set (Q := fun s : State => exists w', findWindowById s (stable_sequence w) = Some w' /\
                  rect_width (frame_rect w') = rect_width (frame_rect w) /\
                  rect_height (frame_rect w') = rect_height (frame_rect w)).
      assert (HQ0 : Q st).
      { exists w. split; [apply find_window_NoDup; assumption | split; reflexivity]. }
      assert (Hstep : forall fromGeo mon toGeo toMonitor s u,
                In u (getWindowsOnMonitor (host st) mon false) ->
                Q s -> Q (swapMove toGeo toMonitor P obj s (swapInfo fromGeo u))).
      { intros fromGeo mon toGeo toMonitor s u Hu (w' & Hf & Hwd & Hht).
        destruct (decide (stable_sequence u = stable_sequence w)) as [E|NE].
        - assert (u = w).
          { apply (NoDup_map_inj_In stable_sequence (windows (host st))); try assumption.
            apply List.filter_In in Hu. tauto. }
          subst u. eexists. split; [apply swapMove_same; exact Hf|].
          destruct (tagged_static (if decide (toMonitor = P) then obj else None)
                      (with_monitor toMonitor
                         (with_frame (mkRect (rect_x toGeo + (rect_x (frame_rect w) - rect_x fromGeo))
                                        (rect_y toGeo + (rect_y (frame_rect w) - rect_y fromGeo))
                                        (rect_width (frame_rect w)) (rect_height (frame_rect w))) w')))
            as (_ & Hfr & _).
          rewrite Hfr. split; reflexivity.
        - exists w'. split; [|split; assumption].
          etransitivity; [apply swapMove_other; exact NE | exact Hf]. }
      assert (Hfold : forall fromGeo mon toGeo toMonitor s,
                Q s -> Q (fold_left (swapMove toGeo toMonitor P obj)
                            (map (swapInfo fromGeo) (getWindowsOnMonitor (host st) mon false)) s)).
      { intros fromGeo mon toGeo toMonitor s HQ.
        apply (fold_left_invariant Q); [|exact HQ].
        intros s' info Hinfo HQ'. apply List.in_map_iff in Hinfo as (u & <- & Hu).
        exact (Hstep fromGeo mon toGeo toMonitor s' u Hu HQ'). }
      pose proof (Hfold geo1 monitor1 geo2 monitor2 st HQ0) as HQ1.
      pose proof (Hfold geo2 monitor2 geo1 monitor1 _ HQ1) as HQ2.
      destruct HQ2 as (w' & Hf & Hsz). exists w'. split; [|exact Hsz].
      etransitivity; [|exact Hf].
      destruct obj; [|reflexivity].
      destruct ((bool_decide (monitor1 = P) || bool_decide (monitor2 = P)) && negb skip);
        [|reflexivity].
      apply (activateWorkspaceWithoutAnimation_find). }
    destruct Hsize as (w' & Hf & Hwd & Hht). exists w'.
    split; [exact Hf|]. split; [exact Hwd|]. split; [exact Hht|].
    subst on1 on2. split; [tauto|]. split; tauto.
  - eexists. split; [exact (H1 Hin1 Hn2)|].
    match goal with |- context [tagged ?t ?x] => destruct (tagged_static t x) as (_ & Hfr & Hmon & _) end.
    rewrite Hfr. cbn [carried frame_rect with_monitor with_frame rect_width rect_height rect_x rect_y].
    split; [reflexivity|]. split; [reflexivity|]. subst on1 on2.
    split; [|split; [tauto | tauto]].
    intros _ _. split; [lia|]. split; [lia|]. split; [rewrite Hmon; reflexivity|].
    destruct (decide (monitor2 = P)); [|reflexivity].
    destruct (decide (monitor1 = P)) as [E1|N1].
    + rewrite bool_decide_eq_true_2 by exact E1. cbn [orb]. unfold get_workspace_by_index.
      subst newWs. destruct (decide (monitor1 = P)); [|contradiction].
      destruct (ws2 <? n_workspaces (host st))%nat; reflexivity.
    + rewrite (bool_decide_eq_false_2 _ N1), bool_decide_eq_true_2 by assumption.
      cbn [orb]. unfold get_workspace_by_index.
      subst newWs. destruct (decide (monitor1 = P)); [contradiction|].
      destruct (ws1 <? n_workspaces (host st))%nat; reflexivity.
  - eexists. split; [exact (H2 Hin2 Hn1)|].
    match goal with |- context [tagged ?t ?x] => destruct (tagged_static t x) as (_ & Hfr & Hmon & _) end.
    rewrite Hfr. cbn [carried frame_rect with_monitor with_frame rect_width rect_height rect_x rect_y].
    split; [reflexivity|]. split; [reflexivity|]. subst on1 on2.
    split; [tauto|]. split; [|tauto].
    intros _ _. split; [lia|]. split; [lia|]. split; [rewrite Hmon; reflexivity|].
    destruct (decide (monitor1 = P)) as [E1|N1]; [|reflexivity].
    rewrite bool_decide_eq_true_2 by exact E1. cbn [orb]. unfold get_workspace_by_index.
    subst newWs. destruct (decide (monitor1 = P)); [|contradiction].
    destruct (ws2 <? n_workspaces (host st))%nat; reflexivity.
  - exists w. split; [exact (H3 Hn1 Hn2)|]. split; [reflexivity|]. split; [reflexivity|].
    subst on1 on2. split; [tauto|]. split; [tauto|]. reflexivity.
Qed.

Lemma performSwap_windows_witness :
  let w := sample_window 7 100 100 400 300 (Some 3%nat) in
  let st := mkState (sample_host [left_monitor; right_monitor] 0 (10, 10) 3 [w])
                    (sample_engine [(0, 3); (1, 5)]%nat) in
  findWindowById (performSwap 0 1 3 5 false st) 7 =
    Some (with_monitor 1 (sample_window 7 2020 100 400 300 (Some 3%nat))) /\
  exists w',
    findWindowById (performSwap 0 1 3 5 false st) 7 = Some w' /\
    rect_width (frame_rect w') = 400 /\ rect_height (frame_rect w') = 300.
Proof.
  intros w st. split; [reflexivity|].
  destruct (performSwap_windows st 0 1 3 5 false w) as (w' & Hf & Hwd & Hht & _).
  - constructor; [intros [] | constructor].
  - left. reflexivity.
  - exists w'. split; [exact Hf|]. split; [exact Hwd | exact Hht].
Defined.

(** X26. Swapping two monitors twice puts a window of the first monitor
    back where it was: same position, same size.  Shown for unique window
    ids and a window whose centre, at both ends of the trip, lies on one of
    the two monitors only (as it does for monitors of one size that do not
    overlap). *)
Theorem performSwap_twice_frames (st : State) (monitor1 monitor2 ws1 ws2 ws1' ws2' : nat)
    (skip1 skip2 : bool) (w : Window) :
  List.NoDup (window_ids st) ->
  let geo1 := monitor_geometry (host st) monitor1 in
  let geo2 := monitor_geometry (host st) monitor2 in
  In w (getWindowsOnMonitor (host st) monitor1 false) ->
  ~ In w (getWindowsOnMonitor (host st) monitor2 false) ->
  center_in (frame_rect (carried geo1 geo2 monitor2 w)) geo2 = true ->
  center_in (frame_rect (carried geo1 geo2 monitor2 w)) geo1 = false ->
  let st1 := performSwap monitor1 monitor2 ws1 ws2 skip1 st in
  let st2 := performSwap monitor1 monitor2 ws1' ws2' skip2 st1 in
  exists w1 w2,
    findWindowById st1 (stable_sequence w) = Some w1 /\
    frame_rect w1 = frame_rect (carried geo1 geo2 monitor2 w) /\
    findWindowById st2 (stable_sequence w) = Some w2 /\
    frame_rect w2 = frame_rect w.
Proof.
  intros Hnd geo1 geo2 Hin1 Hn2 Hc2 Hc1 st1 st2.
  assert (Hw : In w (windows (host st))) by (apply List.filter_In in Hin1; tauto).
  destruct (performSwap_find st monitor1 monitor2 ws1 ws2 skip1 w Hnd Hw) as (H1 & _ & _ & Hids).
  specialize (H1 Hin1 Hn2). fold geo1 geo2 st1 in H1. fold st1 in Hids.
  destruct (performSwap_monitors monitor1 monitor2 ws1 ws2 skip1 st) as (Hmon & Hprim).
  fold st1 in Hmon, Hprim.
  match type of H1 with _ = Some (tagged ?t ?x) =>
    set (w1 := tagged t x) in *; destruct (tagged_static t x) as (Hid & Hfr & _ & Hsk & Hty & Hhid)
  end.
  fold w1 in Hid, Hfr, Hsk, Hty, Hhid.
  assert (Hid' : stable_sequence w1 = stable_sequence w) by exact Hid.
  assert (Hsk' : skip_taskbar w1 = skip_taskbar w) by exact Hsk.
  assert (Hty' : window_type w1 = window_type w) by exact Hty.
  assert (Hhid' : hidden w1 = hidden w) by exact Hhid.
  clear Hid Hsk Hty Hhid.
  assert (Hgeo : forall i, monitor_geometry (host st1) i = monitor_geometry (host st) i).
  { intros i. unfold monitor_geometry, get_monitor_geometry.
    exact (f_equal (fun l => default (mkRect 0 0 0 0) (l !! i)) Hmon). }
  assert (Hw1 : In w1 (windows (host st1))) by exact (find_window_In _ _ _ H1).
  assert (Hfilter : skip_taskbar w = false /\ is_normal (window_type w) = true /\ hidden w = false).
  { apply List.filter_In in Hin1 as (_ & Hf). rewrite !andb_true_iff in Hf.
    destruct Hf as (((Hs & Ht) & Hh) & _). cbn [orb] in Hh.
    apply negb_true_iff in Hs. apply negb_true_iff in Hh. tauto. }
  destruct Hfilter as (Hs0 & Ht0 & Hh0).
  assert (Hon2 : In w1 (getWindowsOnMonitor (host st1) monitor2 false)).
  { unfold getWindowsOnMonitor. cbv zeta. apply List.filter_In. split; [exact Hw1|].
    rewrite Hgeo. fold geo2. rewrite Hsk', Hty', Hhid', Hfr, Hs0, Ht0, Hh0, Hc2. reflexivity. }
  assert (Hon1 : ~ In w1 (getWindowsOnMonitor (host st1) monitor1 false)).
  { unfold getWindowsOnMonitor. cbv zeta. intros Hin. apply List.filter_In in Hin as (_ & Hf).
    rewrite Hgeo in Hf. fold geo1 in Hf. rewrite Hfr, Hc1 in Hf.
    rewrite andb_false_r in Hf. discriminate. }
  assert (Hnd1 : List.NoDup (window_ids st1)) by (rewrite Hids; exact Hnd).
  destruct (performSwap_find st1 monitor1 monitor2 ws1' ws2' skip2 w1 Hnd1 Hw1) as (_ & H2 & _).
  specialize (H2 Hon2 Hon1). fold st2 in H2. rewrite !Hgeo in H2. fold geo1 geo2 in H2.
  rewrite Hid' in H2.
  exists w1. eexists. split; [exact H1|]. split; [exact Hfr|]. split; [exact H2|].
  match goal with |- frame_rect (tagged ?t ?x) = _ =>
    destruct (tagged_static t x) as (_ & Hfr2 & _)
  end.
  rewrite Hfr2. cbn [carried frame_rect with_monitor with_frame]. rewrite Hfr.
  cbn [carried frame_rect with_monitor with_frame rect_x rect_y rect_width rect_height].
  destruct (frame_rect w) as [x y wd ht]. cbn [rect_x rect_y rect_width rect_height].
  f_equal; lia.
Qed.

Lemma performSwap_twice_frames_witness :
  let w := sample_window 7 100 100 400 300 (Some 3%nat) in
  let st := mkState (sample_host [left_monitor; right_monitor] 0 (10, 10) 3 [w])
                    (sample_engine [(0, 3); (1, 5)]%nat) in
  let st1 := performSwap 0 1 3 5 false st in
  let st2 := performSwap 0 1 5 3 false st1 in
  exists w1 w2,
    findWindowById st1 7 = Some w1 /\
    frame_rect w1 = mkRect 2020 100 400 300 /\
    findWindowById st2 7 = Some w2 /\
    frame_rect w2 = mkRect 100 100 400 300.
Proof.
  intros w st st1 st2.
  apply (performSwap_twice_frames st 0 1 3 5 5 3 false false w).
  - constructor; [intros [] | constructor].
  - left. reflexivity.
  - intros [].
  - reflexivity.
  - reflexivity.
Defined.

(** ** Simple switch on a secondary monitor: where the windows go *)

Lemma carryWindow_other fromGeo toGeo toMonitor retag s id id' :
  (forall s0 k k', k <> k' -> findWindowById (retag s0 k) k' = findWindowById s0 k') ->
  id <> id' ->
  findWindowById (carryWindow fromGeo toGeo toMonitor retag s id) id' = findWindowById s id'.
Proof.
  intros Hr Hne. unfold carryWindow. destruct (findWindowById s id) as [window|]; [|reflexivity].
  cbv zeta.
  set (nx := rect_x toGeo + (rect_x (frame_rect window) - rect_x fromGeo)).
  set (ny := rect_y toGeo + (rect_y (frame_rect window) - rect_y fromGeo)).
  set (s1 := on_host (move_resize_frame id nx ny (rect_width (frame_rect window))
                        (rect_height (frame_rect window))) s).
  set (s2 := on_host (move_to_monitor id toMonitor) s1).
  set (s3 := timeout_add 50 (ReapplyFrame id nx ny (rect_width (frame_rect window))
                               (rect_height (frame_rect window))) s2).
  etransitivity; [apply Hr; exact Hne|].
  etransitivity; [apply (findWindowById_host s3 s2); reflexivity|].
  etransitivity; [apply findWindowById_move_to_monitor_other; exact Hne|].
  apply findWindowById_move_resize_frame_other; exact Hne.
Qed.

Lemma carryWindow_same fromGeo toGeo toMonitor retag (T : option nat) (N : nat) s id w :
  (forall s0 k, n_workspaces (host s0) = N ->
                findWindowById (retag s0 k) k = tagged T <$> findWindowById s0 k) ->
  n_workspaces (host s) = N ->
  findWindowById s id = Some w ->
  findWindowById (carryWindow fromGeo toGeo toMonitor retag s id) id =
    Some (tagged T (carried fromGeo toGeo toMonitor w)).
Proof.
  intros Hr HN Hfind. unfold carryWindow. rewrite Hfind. cbv zeta.
  set (nx := rect_x toGeo + (rect_x (frame_rect w) - rect_x fromGeo)).
  set (ny := rect_y toGeo + (rect_y (frame_rect w) - rect_y fromGeo)).
  set (s1 := on_host (move_resize_frame id nx ny (rect_width (frame_rect w))
                        (rect_height (frame_rect w))) s).
  set (s2 := on_host (move_to_monitor id toMonitor) s1).
  set (s3 := timeout_add 50 (ReapplyFrame id nx ny (rect_width (frame_rect w))
                               (rect_height (frame_rect w))) s2).
  assert (H3 : findWindowById s3 id = Some (carried fromGeo toGeo toMonitor w)).
  { etransitivity; [apply (findWindowById_host s3 s2); reflexivity|].
    etransitivity; [apply findWindowById_move_to_monitor|].
    etransitivity; [exact (f_equal (fmap (with_monitor toMonitor))
                             (findWindowById_move_resize_frame s id _ _ _ _))|].
    etransitivity; [exact (f_equal (fun o => with_monitor toMonitor <$> (_ <$> o)) Hfind)|].
    reflexivity. }
  etransitivity; [apply (Hr s3 id); exact HN|].
  exact (f_equal (fmap (tagged T)) H3).
Qed.

Lemma carryWindow_layout fromGeo toGeo toMonitor retag st s id :
  (forall s0 k, same_layout st s0 -> same_layout st (retag s0 k)) ->
  same_layout st s -> same_layout st (carryWindow fromGeo toGeo toMonitor retag s id).
Proof.
  intros Hr Hs. unfold carryWindow. destruct (findWindowById s id) as [window|]; [|exact Hs].
  cbv zeta. apply Hr. destruct Hs as (H1 & H2 & H3 & H4 & H5).
  split; [|repeat split; assumption].
  etransitivity; [|exact H1].
  etransitivity; [apply (window_ids_move_to_monitor _ id toMonitor)|].
  apply window_ids_move_resize_frame.
Qed.

Lemma change_workspace_layout st s id ws :
  same_layout st s -> same_layout st (on_host (change_workspace id ws) s).
Proof.
  intros (H1 & H2 & H3 & H4 & H5). split; [|destruct ws; repeat split; assumption].
  etransitivity; [apply window_ids_change_workspace | exact H1].
Qed.

Lemma find_unique (s : State) (u w : Window) :
  List.NoDup (window_ids s) -> In u (windows (host s)) ->
  findWindowById s (stable_sequence u) = Some w -> u = w.
Proof.
  intros Hnd Hu Hf.
  assert (H : Some u = Some w)
    by (etransitivity; [symmetry; exact (find_window_NoDup _ _ Hnd Hu) | exact Hf]).
  congruence.
Qed.

(** X27. [_simpleSwitch_Secondary] carries the windows visible on the
    secondary monitor to the primary monitor and the windows of the target
    workspace from the primary monitor to the secondary one, each at the
    offset it had inside its monitor and at its size.  An outgoing window is
    tagged with the workspace being left (which hides it), an incoming one
    with the active workspace (which shows it); every other window is left
    alone.  Shown for unique window ids, an existing workspace being left and
    a target workspace other than it. *)
Theorem simpleSwitch_Secondary_windows (st : State) (monitorIndex previousWs targetWs : nat)
    (w : Window) :
  List.NoDup (window_ids st) ->
  In w (windows (host st)) ->
  (previousWs < n_workspaces (host st))%nat ->
  previousWs <> targetWs ->
  let P := primary_monitor (host st) in
  let monitorGeo := monitor_geometry (host st) monitorIndex in
  let primaryGeo := monitor_geometry (host st) P in
  let outgoing := In w (getWindowsOnMonitor (host st) monitorIndex false) in
  let incoming :=
    In w (List.filter (fun u => bool_decide (win_workspace u = Some targetWs))
            (getWindowsOnMonitor (host st) P true)) in
  let st' := simpleSwitch_Secondary monitorIndex previousWs targetWs st in
  (outgoing ->
   findWindowById st' (stable_sequence w) =
     Some (with_workspace (Some previousWs) (carried monitorGeo primaryGeo P w))) /\
  (~ outgoing -> incoming ->
   findWindowById st' (stable_sequence w) =
     Some (with_workspace (Some (active_workspace (host st)))
             (carried primaryGeo monitorGeo monitorIndex w))) /\
  (~ outgoing -> ~ incoming -> findWindowById st' (stable_sequence w) = Some w).
Proof.
  intros Hnd Hw Hprev Hne P monitorGeo primaryGeo outgoing incoming st'.
  assert (Hfind : findWindowById st (stable_sequence w) = Some w)
    by (apply find_window_NoDup; assumption).
  set (id := stable_sequence w) in *.
  set (act := active_workspace (host st)).
  set (retag1 := fun (st : State) (id : WindowId) =>
                   let previousWsObj := get_workspace_by_index (host st) previousWs in
                   match previousWsObj with
                   | Some _ => on_host (change_workspace id previousWsObj) st
                   | None => st
                   end).
  set (step1 := carryWindow monitorGeo primaryGeo P retag1).
  set (L1 := map getWindowId (getWindowsOnMonitor (host st) monitorIndex false)).
  set (s1 := fold_left step1 L1 st).
  assert (Hst' : st' =
                 fold_left (carryWindow primaryGeo monitorGeo monitorIndex
                              (fun st id =>
                                 on_host (change_workspace id (Some (active_workspace (host s1)))) st))
                   (map getWindowId
                      (List.filter (fun u => bool_decide (win_workspace u = Some targetWs))
                         (getWindowsOnMonitor (host s1) P true))) s1) by reflexivity.
  (* the first loop *)
  assert (Hr1_other : forall s0 k k', k <> k' ->
            findWindowById (retag1 s0 k) k' = findWindowById s0 k').
  { intros s0 k k' Hk. unfold retag1. cbv zeta.
    destruct (get_workspace_by_index (host s0) previousWs); [|reflexivity].
    apply findWindowById_change_workspace_other. exact Hk. }
  assert (Hr1_same : forall s0 k, n_workspaces (host s0) = n_workspaces (host st) ->
            findWindowById (retag1 s0 k) k = tagged (Some previousWs) <$> findWindowById s0 k).
  { intros s0 k HN. unfold retag1, get_workspace_by_index. cbv zeta. rewrite HN.
    destruct (Nat.ltb_spec previousWs (n_workspaces (host st))) as [_|]; [|lia].
    apply findWindowById_change_workspace. }
  assert (Hr1_layout : forall s0 k, same_layout st s0 -> same_layout st (retag1 s0 k)).
  { intros s0 k Hs0. unfold retag1. cbv zeta.
    destruct (get_workspace_by_index (host s0) previousWs); [|exact Hs0].
    apply change_workspace_layout. exact Hs0. }
  assert (Hlay0 : same_layout st st) by (repeat split).
  assert (Hlay1 : same_layout st s1).
  { subst s1. apply (fold_left_invariant (same_layout st)); [|exact Hlay0].
    intros s x _ Hs. apply carryWindow_layout; assumption. }
  destruct Hlay1 as (Hids1 & Hmon1 & Hprim1 & Hn1 & Hact1).
  assert (Hnd1 : List.NoDup (window_ids s1)) by (rewrite Hids1; exact Hnd).
  assert (HndL1 : List.NoDup (map (fun k : WindowId => k) L1)).
  { rewrite List.map_id. subst L1. apply NoDup_map_filter. exact Hnd. }
  assert (HinL1 : In id L1 -> outgoing).
  { intros Hin. apply (In_windows_ids st); assumption. }
  assert (Hs1_out : outgoing ->
            findWindowById s1 id =
              Some (with_workspace (Some previousWs) (carried monitorGeo primaryGeo P w))).
  { intros Hout.
    destruct (fold_left_window_hit (fun k : WindowId => k) step1
                (fun s => n_workspaces (host s) = n_workspaces (host st)) L1 st id id)
      as (s & Hs & Hsf & Hres).
    - exact HndL1.
    - apply List.in_map. exact Hout.
    - reflexivity.
    - intros s b Hb. apply carryWindow_other; [exact Hr1_other | exact Hb].
    - intros s b Hs.
      destruct (carryWindow_layout monitorGeo primaryGeo P retag1 s s b) as (_ & _ & _ & Hn & _).
      + intros s0 k (A1 & A2 & A3 & A4 & A5). unfold retag1. cbv zeta.
        destruct (get_workspace_by_index (host s0) previousWs); [|repeat split; assumption].
        apply change_workspace_layout. repeat split; assumption.
      + repeat split.
      + etransitivity; [exact Hn | exact Hs].
    - reflexivity.
    - etransitivity; [exact Hres|]. rewrite Hfind in Hsf.
      exact (carryWindow_same monitorGeo primaryGeo P retag1 (Some previousWs)
               (n_workspaces (host st)) s id w Hr1_same Hs Hsf). }
  assert (Hs1_stay : ~ outgoing -> findWindowById s1 id = Some w).
  { intros Hnout. etransitivity; [|exact Hfind].
    apply (fold_left_window_miss (fun k : WindowId => k)).
    - intros s a Ha. apply carryWindow_other; [exact Hr1_other | exact Ha].
    - rewrite List.map_id. intros Hin. exact (Hnout (HinL1 Hin)). }
  (* the second loop *)
  set (retag2 := fun (st : State) (id : WindowId) =>
                   on_host (change_workspace id (Some (active_workspace (host s1)))) st) in *.
  set (step2 := carryWindow primaryGeo monitorGeo monitorIndex retag2) in *.
  set (W2 := List.filter (fun u => bool_decide (win_workspace u = Some targetWs))
               (getWindowsOnMonitor (host s1) P true)) in *.
  assert (Hr2_other : forall s0 k k', k <> k' ->
            findWindowById (retag2 s0 k) k' = findWindowById s0 k')
    by (intros s0 k k' Hk; apply findWindowById_change_workspace_other; exact Hk).
  assert (Hr2_same : forall s0 k, n_workspaces (host s0) = n_workspaces (host st) ->
            findWindowById (retag2 s0 k) k =
              tagged (Some (active_workspace (host s1))) <$> findWindowById s0 k)
    by (intros s0 k _; apply findWindowById_change_workspace).
  assert (HW2 : forall u, In u W2 ->
            In u (windows (host s1)) /\ win_workspace u = Some targetWs /\
            negb (skip_taskbar u) && is_normal (window_type u) && true &&
              center_in (frame_rect u) primaryGeo = true).
  { intros u Hu. subst W2. apply List.filter_In in Hu as (Hu & Htag).
    unfold getWindowsOnMonitor in Hu. cbv zeta in Hu. apply List.filter_In in Hu as (Hu & Hp).
    split; [exact Hu|]. split; [apply bool_decide_eq_true in Htag; exact Htag|].
    assert (Hg : monitor_geometry (host s1) P = primaryGeo).
    { unfold primaryGeo, monitor_geometry, get_monitor_geometry.
      exact (f_equal (fun l => default (mkRect 0 0 0 0) (l !! P)) Hmon1). }
    rewrite Hg in Hp. exact Hp. }
  assert (HndW2 : List.NoDup (map (fun k : WindowId => k) (map getWindowId W2))).
  { rewrite List.map_id. subst W2. unfold getWindowsOnMonitor.
    apply NoDup_map_filter, NoDup_map_filter. exact Hnd1. }
  assert (HinW2 : forall w1, findWindowById s1 id = Some w1 ->
            In id (map getWindowId W2) -> In w1 W2).
  { intros w1 Hf1 Hin. apply List.in_map_iff in Hin as (u & Hid & Hu).
    destruct (HW2 u Hu) as (Huw & _).
    assert (u = w1); [|subst u; exact Hu].
    apply (find_unique s1); [exact Hnd1 | exact Huw|].
    unfold getWindowId in Hid. rewrite Hid. exact Hf1. }
  rewrite Hst'. fold retag2 step2 W2.
  split; [|split].
  - intros Hout. etransitivity; [|exact (Hs1_out Hout)].
    apply (fold_left_window_miss (fun k : WindowId => k)).
    + intros s a Ha. apply carryWindow_other; [exact Hr2_other | exact Ha].
    + rewrite List.map_id. intros Hin.
      destruct (HW2 _ (HinW2 _ (Hs1_out Hout) Hin)) as (_ & Htag & _).
      cbn in Htag. congruence.
  - intros Hnout Hinc.
    assert (Hin2 : In w W2).
    { subst W2 incoming. apply List.filter_In in Hinc as (Hinc & Htag).
      apply List.filter_In. split; [|exact Htag].
      unfold getWindowsOnMonitor in Hinc |- *. cbv zeta in Hinc |- *.
      apply List.filter_In in Hinc as (_ & Hp). apply List.filter_In.
      split; [exact (find_window_In _ _ _ (Hs1_stay Hnout))|].
      assert (Hg : monitor_geometry (host s1) P = primaryGeo).
      { unfold primaryGeo, monitor_geometry, get_monitor_geometry.
        exact (f_equal (fun l => default (mkRect 0 0 0 0) (l !! P)) Hmon1). }
      rewrite Hg. exact Hp. }
    destruct (fold_left_window_hit (fun k : WindowId => k) step2
                (fun s => n_workspaces (host s) = n_workspaces (host st))
                (map getWindowId W2) s1 id id) as (s & Hs & Hsf & Hres).
    + exact HndW2.
    + apply (List.in_map getWindowId) in Hin2. exact Hin2.
    + reflexivity.
    + intros s b Hb. apply carryWindow_other; [exact Hr2_other | exact Hb].
    + intros s b Hs.
      destruct (carryWindow_layout primaryGeo monitorGeo monitorIndex retag2 s s b)
        as (_ & _ & _ & Hn & _).
      * intros s0 k Hs0. apply change_workspace_layout. exact Hs0.
      * repeat split.
      * etransitivity; [exact Hn | exact Hs].
    + exact Hn1.
    + etransitivity; [exact Hres|]. rewrite (Hs1_stay Hnout) in Hsf.
      etransitivity;
        [exact (carryWindow_same primaryGeo monitorGeo monitorIndex retag2
                  (Some (active_workspace (host s1))) (n_workspaces (host st)) s id w
                  Hr2_same Hs Hsf)|].
      cbn [tagged]. rewrite Hact1. reflexivity.
  - intros Hnout Hninc. etransitivity; [|exact (Hs1_stay Hnout)].
    apply (fold_left_window_miss (fun k : WindowId => k)).
    + intros s a Ha. apply carryWindow_other; [exact Hr2_other | exact Ha].
    + rewrite List.map_id. intros Hin. apply Hninc.
      pose proof (HinW2 _ (Hs1_stay Hnout) Hin) as Hw2.
      destruct (HW2 _ Hw2) as (_ & Htag & Hp).
      subst incoming. apply List.filter_In. split; [|apply bool_decide_eq_true_2; exact Htag].
      unfold getWindowsOnMonitor. cbv zeta. apply List.filter_In. split; [exact Hw | exact Hp].
Qed.

Lemma simpleSwitch_Secondary_windows_witness :
  let out := sample_window 7 2100 100 400 300 (Some 3%nat) in
  let inc := mkWindow 8 (mkRect 50 60 640 480) NORMAL false true false false (Some 6%nat) 0 2 0 in
  let st := mkState (sample_host [left_monitor; right_monitor] 0 (2000, 10) 3 [out; inc])
                    (sample_engine [(0, 3); (1, 5)]%nat) in
  let st' := simpleSwitch_Secondary 1 5 6 st in
  findWindowById st' 7 = Some (sample_window 7 180 100 400 300 (Some 5%nat)) /\
  findWindowById st' 8 =
    Some (mkWindow 8 (mkRect 1970 60 640 480) NORMAL false true false false (Some 3%nat) 1 2 0).
Proof.
  intros out inc st st'.
  assert (Hnd : List.NoDup (window_ids st))
    by (repeat constructor; simpl; intuition discriminate).
  destruct (simpleSwitch_Secondary_windows st 1 5 6 out Hnd) as (Hout & _);
    [left; reflexivity | cbn; lia | discriminate|].
  destruct (simpleSwitch_Secondary_windows st 1 5 6 inc Hnd) as (_ & Hinc & _);
    [right; left; reflexivity | cbn; lia | discriminate|].
  split.
  - apply Hout. left. reflexivity.
  - apply Hinc; [|left; reflexivity].
    intros H. vm_compute in H. destruct H as [H|[]]. discriminate H.
Defined.

(** ** Disable, enable, restore: the round trip of a secondary window *)

Lemma restoreWindowsToLogicalWorkspaces_loops (st : State) :
  restoreWindowsToLogicalWorkspaces st =
  fold_left (fun s monitorIndex =>
      if decide (monitorIndex = primary_monitor (host st)) then s else
      fold_left (snapshotWindow (monitor_geometry (host s) monitorIndex) monitorIndex
                   (displayed_ws s monitorIndex)
                   (monitor_geometry (host st) (primary_monitor (host st)))
                   (active_workspace (host st)))
        (map getWindowId (getWindowsOnMonitor (host s) monitorIndex false)) s)
    (seq 0 (length (monitors (host st))))
    (on_eng (fun e => with_savedWindowsBeforeDisable (JsMap.clear (savedWindowsBeforeDisable e)) e) st).
Proof. reflexivity. Qed.

Lemma restoreSavedSecondaryWindows_loops (st : State) :
  savedWindowsBeforeDisable (eng st) <> [] ->
  restoreSavedSecondaryWindows st =
  indicator_update
    (on_eng (fun e => with_savedWindowsBeforeDisable (JsMap.clear (savedWindowsBeforeDisable e)) e)
       (fold_left (fun s entry => map_set (monitorIndex (snd entry)) (logicalWs (snd entry)) s)
          (savedWindowsBeforeDisable (eng st))
          (fold_left (restoreSavedWindow (active_workspace (host st)))
             (savedWindowsBeforeDisable (eng st)) st))).
Proof.
  intros Hne. unfold restoreSavedSecondaryWindows.
  destruct (savedWindowsBeforeDisable (eng st)) as [|e l] eqn:E; [contradiction|].
  reflexivity.
Qed.

(** A loop whose steps each concern one window leaves what is observed of
    the other windows alone. *)
Lemma fold_left_obs_miss {A B : Type} (key : A -> WindowId) (step : State -> A -> State)
    (obs : State -> B) (I : State -> Prop) (l : list A) (st : State) (id : WindowId) :
  (forall s a, I s -> key a <> id -> obs (step s a) = obs s) ->
  (forall s a, I s -> I (step s a)) -> I st ->
  ~ In id (map key l) ->
  obs (fold_left step l st) = obs st /\ I (fold_left step l st).
Proof.
  intros Hother Hinv. revert st. induction l as [|a l IH]; intros st HI Hnin; cbn [fold_left].
  - split; [reflexivity | exact HI].
  - cbn in Hnin. destruct (IH (step st a) (Hinv st a HI)) as (Ho & Hi); [tauto|].
    split; [|exact Hi]. rewrite Ho. apply Hother; [exact HI | tauto].
Qed.

Lemma fold_left_obs_hit {A B : Type} (key : A -> WindowId) (step : State -> A -> State)
    (obs : State -> B) (I : State -> Prop) (l : list A) (st : State) (id : WindowId) (a : A) :
  List.NoDup (map key l) -> In a l -> key a = id ->
  (forall s b, I s -> key b <> id -> obs (step s b) = obs s) ->
  (forall s b, I s -> I (step s b)) -> I st ->
  exists s, I s /\ obs s = obs st /\
            obs (fold_left step l st) = obs (step s a) /\ I (fold_left step l st).
Proof.
  intros Hnd Hin Hkey Hother Hinv. revert st Hnd Hin.
  induction l as [|b l IH]; intros st Hnd Hin HI; [destruct Hin|].
  cbn in Hnd. apply List.NoDup_cons_iff in Hnd as (Hb & Hnd). cbn [fold_left].
  destruct Hin as [->|Hin].
  - exists st. split; [exact HI|]. split; [reflexivity|].
    apply (fold_left_obs_miss key step obs I l (step st a) id);
      [exact Hother | exact Hinv | exact (Hinv st a HI)|].
    rewrite <- Hkey. exact Hb.
  - assert (Hne : key b <> id).
    { intros E. apply Hb. rewrite E, <- Hkey. apply List.in_map. exact Hin. }
    destruct (IH (step st b) Hnd Hin (Hinv st b HI)) as (s & Hs & Hobs & Hres & HIf).
    exists s. split; [exact Hs|]. split; [|split; [exact Hres | exact HIf]].
    rewrite Hobs. apply Hother; [exact HI | exact Hne].
Qed.

Lemma snapshotWindow_stable st monitorGeo monitorIndex logicalWs primaryGeo act s id :
  snapshot_stable st s ->
  snapshot_stable st (snapshotWindow monitorGeo monitorIndex logicalWs primaryGeo act s id).
Proof.
  intros ((H1 & H2 & H3 & H4 & H5) & Hm). unfold snapshotWindow.
  destruct (findWindowById s id) as [window|]; [|repeat split; assumption].
  cbv zeta. split; [|exact Hm]. split; [|repeat split; assumption].
  etransitivity; [apply window_ids_change_workspace|].
  etransitivity; [apply window_ids_move_resize_frame|]. exact H1.
Qed.

Lemma snapshotWindow_other monitorGeo monitorIndex logicalWs primaryGeo act s id id' :
  id' <> id ->
  findWindowById (snapshotWindow monitorGeo monitorIndex logicalWs primaryGeo act s id') id =
    findWindowById s id /\
  JsMap.get id (savedWindowsBeforeDisable
                  (eng (snapshotWindow monitorGeo monitorIndex logicalWs primaryGeo act s id'))) =
    JsMap.get id (savedWindowsBeforeDisable (eng s)).
Proof.
  intros Hne. unfold snapshotWindow.
  destruct (findWindowById s id') as [window|] eqn:Hf; [|split; reflexivity].
  cbv zeta. split.
  - etransitivity; [apply findWindowById_change_workspace_other; exact Hne|].
    etransitivity; [apply findWindowById_move_resize_frame_other; exact Hne|].
    apply findWindowById_host. reflexivity.
  - cbn. apply JsMapFacts.get_set_other. unfold getWindowId.
    rewrite (find_window_id _ _ _ Hf). exact Hne.
Qed.

Lemma snapshotWindow_same monitorGeo monitorIndex logicalWs primaryGeo act s id w :
  findWindowById s id = Some w ->
  let relX := rect_x (frame_rect w) - rect_x monitorGeo in
  let relY := rect_y (frame_rect w) - rect_y monitorGeo in
  findWindowById (snapshotWindow monitorGeo monitorIndex logicalWs primaryGeo act s id) id =
    Some (with_workspace (Some act)
            (with_frame (mkRect (rect_x primaryGeo + relX) (rect_y primaryGeo + relY)
                           (rect_width (frame_rect w)) (rect_height (frame_rect w))) w)) /\
  JsMap.get id (savedWindowsBeforeDisable
                  (eng (snapshotWindow monitorGeo monitorIndex logicalWs primaryGeo act s id))) =
    Some (mkSavedInfo monitorIndex logicalWs relX relY
            (rect_width (frame_rect w)) (rect_height (frame_rect w))).
Proof.
  intros Hf relX relY. unfold snapshotWindow. rewrite Hf. cbv zeta. fold relX relY. split.
  - etransitivity; [apply findWindowById_change_workspace|].
    etransitivity; [exact (f_equal (fmap (with_workspace (Some act)))
                             (findWindowById_move_resize_frame _ id _ _ _ _))|].
    etransitivity;
      [exact (f_equal (fun o => with_workspace (Some act) <$> (_ <$> o))
                (eq_trans (findWindowById_host (snapshot_set _ _ s) s id eq_refl) Hf))|].
    reflexivity.
  - cbn. unfold getWindowId. rewrite (find_window_id _ _ _ Hf).
    apply JsMapFacts.get_set_same.
Qed.

Lemma monitor_geometry_layout st s i :
  same_layout st s -> monitor_geometry (host s) i = monitor_geometry (host st) i.
Proof.
  intros (_ & Hm & _). unfold monitor_geometry, get_monitor_geometry.
  exact (f_equal (fun l => default (mkRect 0 0 0 0) (l !! i)) Hm).
Qed.

(** Membership in the list of a monitor, for a window found by its id. *)
Lemma on_monitor_of_id st s M (w : Window) :
  same_layout st s -> List.NoDup (window_ids st) ->
  findWindowById s (stable_sequence w) = Some w ->
  In (stable_sequence w) (map getWindowId (getWindowsOnMonitor (host s) M false)) ->
  center_in (frame_rect w) (monitor_geometry (host st) M) = true.
Proof.
  intros Hlay Hnd Hf Hin. apply List.in_map_iff in Hin as (u & Hid & Hu).
  pose proof Hlay as (Hids & _).
  unfold getWindowsOnMonitor in Hu. cbv zeta in Hu. apply List.filter_In in Hu as (Hu & Hp).
  assert (u = w).
  { apply (find_unique s); [rewrite Hids; exact Hnd | exact Hu|].
    unfold getWindowId in Hid. rewrite Hid. exact Hf. }
  subst u. rewrite (monitor_geometry_layout st s M Hlay) in Hp.
  rewrite !andb_true_iff in Hp. tauto.
Qed.

Lemma restoreWindowsToLogicalWorkspaces_window (st : State) (w : Window) (M : nat) :
  List.NoDup (window_ids st) ->
  In w (getWindowsOnMonitor (host st) M false) ->
  M <> primary_monitor (host st) ->
  (M < length (monitors (host st)))%nat ->
  let P := primary_monitor (host st) in
  let geo := monitor_geometry (host st) M in
  let primaryGeo := monitor_geometry (host st) P in
  let relX := rect_x (frame_rect w) - rect_x geo in
  let relY := rect_y (frame_rect w) - rect_y geo in
  let parked := mkRect (rect_x primaryGeo + relX) (rect_y primaryGeo + relY)
                  (rect_width (frame_rect w)) (rect_height (frame_rect w)) in
  (forall M', M' <> M -> M' <> P ->
     center_in (frame_rect w) (monitor_geometry (host st) M') = false /\
     center_in parked (monitor_geometry (host st) M') = false) ->
  let s' := restoreWindowsToLogicalWorkspaces st in
  findWindowById s' (stable_sequence w) =
    Some (with_workspace (Some (active_workspace (host st))) (with_frame parked w)) /\
  JsMap.get (stable_sequence w) (savedWindowsBeforeDisable (eng s')) =
    Some (mkSavedInfo M (displayed_ws st M) relX relY
            (rect_width (frame_rect w)) (rect_height (frame_rect w))) /\
  same_layout st s'.
Proof.
  intros Hnd Hin HMP HMn P geo primaryGeo relX relY parked Hunique s'.
  assert (Hw : In w (windows (host st))) by (apply List.filter_In in Hin; tauto).
  assert (Hfind : findWindowById st (stable_sequence w) = Some w)
    by (apply find_window_NoDup; assumption).
  set (id := stable_sequence w) in *.
  set (act := active_workspace (host st)).
  set (w1 := with_workspace (Some act) (with_frame parked w)).
  set (info := mkSavedInfo M (displayed_ws st M) relX relY
                 (rect_width (frame_rect w)) (rect_height (frame_rect w))).
  subst s'. rewrite restoreWindowsToLogicalWorkspaces_loops. fold P primaryGeo act.
  set (s0 := on_eng (fun e => with_savedWindowsBeforeDisable
                                (JsMap.clear (savedWindowsBeforeDisable e)) e) st).
  set (outer := fun (s : State) (monitorIndex : nat) =>
                  if decide (monitorIndex = P) then s else
                  fold_left (snapshotWindow (monitor_geometry (host s) monitorIndex) monitorIndex
                               (displayed_ws s monitorIndex) primaryGeo act)
                    (map getWindowId (getWindowsOnMonitor (host s) monitorIndex false)) s).
  assert (Hsplit : seq 0 (length (monitors (host st))) =
                   seq 0 M ++ M :: seq (S M) (length (monitors (host st)) - S M)).
  { replace (length (monitors (host st))) with (M + S (length (monitors (host st)) - S M))%nat at 1
      by lia.
    rewrite List.seq_app. reflexivity. }
  rewrite Hsplit, List.fold_left_app. cbn [fold_left].
  (* a monitor other than M leaves the window and its snapshot entry alone *)
  assert (Hskip : forall (wc : Window) s M',
            stable_sequence wc = id ->
            snapshot_stable st s -> findWindowById s id = Some wc ->
            M' = P \/ center_in (frame_rect wc) (monitor_geometry (host st) M') = false ->
            (findWindowById (outer s M') id = findWindowById s id /\
             JsMap.get id (savedWindowsBeforeDisable (eng (outer s M'))) =
               JsMap.get id (savedWindowsBeforeDisable (eng s))) /\
            snapshot_stable st (outer s M')).
  { intros wc s M' Hidc Hst Hfc Hor. unfold outer.
    destruct (decide (M' = P)) as [|HnP]; [split; [split; reflexivity | exact Hst]|].
    destruct Hor as [|Hc]; [contradiction|].
    destruct (fold_left_obs_miss (fun k : WindowId => k)
                (snapshotWindow (monitor_geometry (host s) M') M' (displayed_ws s M') primaryGeo act)
                (fun s => (findWindowById s id,
                           JsMap.get id (savedWindowsBeforeDisable (eng s))))
                (snapshot_stable st)
                (map getWindowId (getWindowsOnMonitor (host s) M' false)) s id) as (Ho & Hi).
    - intros s1 a _ Ha.
      destruct (snapshotWindow_other (monitor_geometry (host s) M') M' (displayed_ws s M')
                  primaryGeo act s1 id a Ha) as (E1 & E2).
      rewrite E1, E2. reflexivity.
    - intros s1 a Hs1. apply snapshotWindow_stable. exact Hs1.
    - exact Hst.
    - rewrite List.map_id. intros Hinl. rewrite <- Hidc in Hinl, Hfc.
      pose proof (on_monitor_of_id st s M' wc (proj1 Hst) Hnd Hfc Hinl) as Hon. congruence.
    - split; [|exact Hi]. injection Ho as E1 E2. split; assumption. }
  assert (Hst0 : snapshot_stable st s0) by (repeat split).
  (* the monitors before M *)
  set (sA := fold_left outer (seq 0 M) s0).
  assert (HA : snapshot_stable st sA /\ findWindowById sA id = Some w).
  { subst sA.
    apply (fold_left_invariant (fun s => snapshot_stable st s /\ findWindowById s id = Some w)).
    - intros s M' HM' (Hs & Hf). apply List.in_seq in HM'.
      destruct (Hskip w s M' eq_refl Hs Hf) as ((E1 & _) & Hs').
      + destruct (decide (M' = P)); [left; assumption | right].
        apply Hunique; [lia | assumption].
      + split; [exact Hs' | rewrite E1; exact Hf].
    - split; [exact Hst0 | exact Hfind]. }
  destruct HA as (HstA & HfA).
  (* monitor M *)
  set (sB := outer sA M).
  assert (HB : snapshot_stable st sB /\ findWindowById sB id = Some w1 /\
               JsMap.get id (savedWindowsBeforeDisable (eng sB)) = Some info).
  { subst sB. unfold outer. destruct (decide (M = P)) as [|_]; [contradiction|].
    assert (Hd : displayed_ws sA M = displayed_ws st M).
    { unfold displayed_ws.
      exact (f_equal (fun m => default 0%nat (JsMap.get M m)) (proj2 HstA)). }
    rewrite Hd, (monitor_geometry_layout st sA M (proj1 HstA)). fold geo.
    assert (HinA : In w (getWindowsOnMonitor (host sA) M false)).
    { unfold getWindowsOnMonitor. cbv zeta. apply List.filter_In.
      split; [exact (find_window_In _ _ _ HfA)|].
      rewrite (monitor_geometry_layout st sA M (proj1 HstA)).
      unfold getWindowsOnMonitor in Hin. cbv zeta in Hin. apply List.filter_In in Hin. tauto. }
    destruct (fold_left_obs_hit (fun k : WindowId => k)
                (snapshotWindow geo M (displayed_ws st M) primaryGeo act)
                (fun s => (findWindowById s id,
                           JsMap.get id (savedWindowsBeforeDisable (eng s))))
                (snapshot_stable st)
                (map getWindowId (getWindowsOnMonitor (host sA) M false)) sA id id)
      as (s & Hs & Hobs & Hres & HI).
    - rewrite List.map_id. unfold getWindowsOnMonitor. apply NoDup_map_filter.
      destruct HstA as ((Hids & _) & _).
      change (List.NoDup (window_ids sA)). rewrite Hids. exact Hnd.
    - apply (List.in_map getWindowId) in HinA. exact HinA.
    - reflexivity.
    - intros s1 a _ Ha.
      destruct (snapshotWindow_other geo M (displayed_ws st M)
                  primaryGeo act s1 id a Ha) as (E1 & E2).
      rewrite E1, E2. reflexivity.
    - intros s1 a Hs1. apply snapshotWindow_stable. exact Hs1.
    - exact HstA.
    - split; [exact HI|]. injection Hobs as Ho1 _. rewrite HfA in Ho1.
      destruct (snapshotWindow_same geo M (displayed_ws st M)
                  primaryGeo act s id w Ho1) as (R1 & R2).
      injection Hres as Hr1 Hr2.
      split; [rewrite Hr1; exact R1 | rewrite Hr2; exact R2]. }
  destruct HB as (HstB & HfB & HgB).
  (* the monitors after M *)
  assert (HC : snapshot_stable st (fold_left outer (seq (S M) (length (monitors (host st)) - S M)) sB) /\
               findWindowById (fold_left outer (seq (S M) (length (monitors (host st)) - S M)) sB) id
                 = Some w1 /\
               JsMap.get id (savedWindowsBeforeDisable
                               (eng (fold_left outer
                                       (seq (S M) (length (monitors (host st)) - S M)) sB)))
                 = Some info).
  { apply (fold_left_invariant
             (fun s => snapshot_stable st s /\ findWindowById s id = Some w1 /\
                       JsMap.get id (savedWindowsBeforeDisable (eng s)) = Some info)).
    - intros s M' HM' (Hs & Hf & Hg). apply List.in_seq in HM'.
      destruct (Hskip w1 s M' eq_refl Hs Hf) as ((E1 & E2) & Hs').
      + destruct (decide (M' = P)); [left; assumption | right].
        apply (Hunique M'); [lia | assumption].
      + split; [exact Hs'|]. split; [rewrite E1; exact Hf | rewrite E2; exact Hg].
    - split; [exact HstB|]. split; [exact HfB | exact HgB]. }
  destruct HC as (HstC & HfC & HgC).
  split; [exact HfC|]. split; [exact HgC | exact (proj1 HstC)].
Qed.
(** Only windows that were on a secondary monitor get into the snapshot. *)
Lemma restoreWindowsToLogicalWorkspaces_keys (st : State) :
  List.NoDup (window_ids st) ->
  forall id info,
    JsMap.get id (savedWindowsBeforeDisable (eng (restoreWindowsToLogicalWorkspaces st))) =
      Some info ->
    exists w M,
      (M < length (monitors (host st)))%nat /\ M <> primary_monitor (host st) /\
      In w (getWindowsOnMonitor (host st) M false) /\ stable_sequence w = id.
Proof.
  intros Hnd.
  set (orig := fun id : WindowId =>
         exists w M,
           (M < length (monitors (host st)))%nat /\ M <> primary_monitor (host st) /\
           In w (getWindowsOnMonitor (host st) M false) /\ stable_sequence w = id).
  set (I := fun s : State =>
         snapshot_stable st s /\
         (forall id, JsMap.get id (savedWindowsBeforeDisable (eng s)) = None ->
                     findWindowById s id = findWindowById st id) /\
         (forall id info, JsMap.get id (savedWindowsBeforeDisable (eng s)) = Some info ->
                          orig id)).
  assert (HI : I (restoreWindowsToLogicalWorkspaces st)).
  { rewrite restoreWindowsToLogicalWorkspaces_loops.
    apply (fold_left_invariant I).
    - intros s M' HM' (Hst & Hnone & Hsome). apply List.in_seq in HM'.
      destruct (decide (M' = primary_monitor (host st))) as [|HnP];
        [split; [exact Hst | split; assumption]|].
      assert (Hlist : forall a,
                 In a (map getWindowId (getWindowsOnMonitor (host s) M' false)) -> orig a).
      { intros a Ha. apply List.in_map_iff in Ha as (u & Hid & Hu).
        unfold getWindowId in Hid.
        destruct (JsMap.get a (savedWindowsBeforeDisable (eng s))) as [info|] eqn:Hg;
          [exact (Hsome a info Hg)|].
        pose proof (Hnone a Hg) as Hsame.
        unfold getWindowsOnMonitor in Hu. cbv zeta in Hu.
        apply List.filter_In in Hu as (Hu & Hp).
        pose proof Hst as ((Hids & _) & _).
        assert (Hfu : findWindowById s a = Some u).
        { rewrite <- Hid. apply find_window_NoDup; [|exact Hu].
          change (List.NoDup (window_ids s)). rewrite Hids. exact Hnd. }
        rewrite Hfu in Hsame. symmetry in Hsame.
        exists u, M'. split; [lia|]. split; [exact HnP|]. split; [|exact Hid].
        unfold getWindowsOnMonitor. cbv zeta. apply List.filter_In.
        split; [exact (find_window_In _ _ _ Hsame)|].
        rewrite <- (monitor_geometry_layout st s M' (proj1 Hst)). exact Hp. }
      apply (fold_left_invariant I); [|split; [exact Hst | split; assumption]].
      intros s1 a Ha (Hst1 & Hnone1 & Hsome1).
      split; [apply snapshotWindow_stable; exact Hst1|].
      destruct (findWindowById s1 a) as [wa|] eqn:Hfa.
      + destruct (snapshotWindow_same (monitor_geometry (host s) M') M' (displayed_ws s M')
                    (monitor_geometry (host st) (primary_monitor (host st)))
                    (active_workspace (host st)) s1 a wa Hfa) as (_ & Hga).
        split.
        * intros id Hg. destruct (decide (a = id)) as [<-|Hne]; [congruence|].
          destruct (snapshotWindow_other (monitor_geometry (host s) M') M' (displayed_ws s M')
                      (monitor_geometry (host st) (primary_monitor (host st)))
                      (active_workspace (host st)) s1 id a Hne) as (E1 & E2).
          rewrite E1. apply Hnone1. rewrite <- E2. exact Hg.
        * intros id info Hg. destruct (decide (a = id)) as [<-|Hne]; [exact (Hlist a Ha)|].
          destruct (snapshotWindow_other (monitor_geometry (host s) M') M' (displayed_ws s M')
                      (monitor_geometry (host st) (primary_monitor (host st)))
                      (active_workspace (host st)) s1 id a Hne) as (_ & E2).
          apply (Hsome1 id info). rewrite <- E2. exact Hg.
      + unfold snapshotWindow. rewrite Hfa. split; assumption.
    - split; [repeat split|]. split.
      + intros id _. apply findWindowById_host. reflexivity.
      + intros id info Hg. discriminate Hg. }
  intros id info Hg. exact (proj2 (proj2 HI) id info Hg).
Qed.

(** C9, as the code has it.  [disable] empties the monitor-to-workspace map,
    the pending-placement map and the set of recently processed windows, and
    leaves the relative-position cache and the focus history as they were.
    The snapshot is not kept: whatever it held before is dropped, and what
    [disable] leaves behind is the record its first step takes.  Every entry
    of that record names an existing secondary monitor and the workspace that
    monitor displayed.  When window ids are unique, only windows that were
    visible on a secondary monitor are recorded; and a window visible on
    secondary monitor [M] whose centre lies on no other secondary monitor,
    neither where the window is nor where it is parked in the primary
    monitor's coordinates, is recorded under [M] itself, with the workspace
    [M] displayed, its offset inside [M] and its size. *)
Theorem disable_effect (st : State) :
  let snapshot := savedWindowsBeforeDisable (eng (disable st)) in
  let P := primary_monitor (host st) in
  monitorWorkspaceMap (eng (disable st)) = [] /\
  windowsPendingPlacement (eng (disable st)) = ∅ /\
  recentlyProcessedWindows (eng (disable st)) = ∅ /\
  savedWindowPositions (eng (disable st)) = savedWindowPositions (eng st) /\
  lastWindowPerWorkspace (eng (disable st)) = lastWindowPerWorkspace (eng st) /\
  snapshot = savedWindowsBeforeDisable (eng (restoreWindowsToLogicalWorkspaces st)) /\
  (forall old,
     savedWindowsBeforeDisable (eng (disable (on_eng (with_savedWindowsBeforeDisable old) st))) =
     snapshot) /\
  List.Forall
    (fun kv =>
       (monitorIndex (snd kv) < length (monitors (host st)))%nat /\
       monitorIndex (snd kv) <> P /\
       logicalWs (snd kv) = displayed_ws st (monitorIndex (snd kv)))
    snapshot /\
  (List.NoDup (window_ids st) ->
   (forall id info,
      JsMap.get id snapshot = Some info ->
      exists w M,
        (M < length (monitors (host st)))%nat /\ M <> P /\
        In w (getWindowsOnMonitor (host st) M false) /\ stable_sequence w = id) /\
   (forall w M,
      In w (getWindowsOnMonitor (host st) M false) ->
      M <> P ->
      (M < length (monitors (host st)))%nat ->
      let geo := monitor_geometry (host st) M in
      let primaryGeo := monitor_geometry (host st) P in
      let relX := rect_x (frame_rect w) - rect_x geo in
      let relY := rect_y (frame_rect w) - rect_y geo in
      let parked := mkRect (rect_x primaryGeo + relX) (rect_y primaryGeo + relY)
                      (rect_width (frame_rect w)) (rect_height (frame_rect w)) in
      (forall M', M' <> M -> M' <> P ->
         center_in (frame_rect w) (monitor_geometry (host st) M') = false /\
         center_in parked (monitor_geometry (host st) M') = false) ->
      JsMap.get (stable_sequence w) snapshot =
        Some (mkSavedInfo M (displayed_ws st M) relX relY
                (rect_width (frame_rect w)) (rect_height (frame_rect w))))).
Proof.
  intros snapshot P.
  destruct (restoreWindowsToLogicalWorkspaces_frame st) as (_ & Hcache & Hfocus).
  assert (Hsnap : snapshot =
                  savedWindowsBeforeDisable (eng (restoreWindowsToLogicalWorkspaces st)))
    by apply disable_snapshot.
  split; [reflexivity|]. split; [reflexivity|]. split; [reflexivity|].
  split; [|split; [|split; [|split; [|split]]]].
  - rewrite <- Hcache. unfold disable, destroyCollaborators. frame.
  - rewrite <- Hfocus. unfold disable, destroyCollaborators. frame.
  - exact Hsnap.
  - intros old. subst snapshot. rewrite !disable_snapshot. reflexivity.
  - rewrite Hsnap. apply restoreWindowsToLogicalWorkspaces_snapshot.
  - intros Hnd. rewrite Hsnap. split.
    + apply restoreWindowsToLogicalWorkspaces_keys. exact Hnd.
    + intros w M Hin HMP HMn geo primaryGeo relX relY parked Hunique.
      exact (proj1 (proj2 (restoreWindowsToLogicalWorkspaces_window st w M Hnd Hin HMP HMn
                             Hunique))).
Qed.

Lemma disable_effect_witness :
  let w := sample_window 7 2100 100 400 300 None in
  let st := mkState (sample_host [left_monitor; right_monitor] 0 (10, 10) 0 [w])
                    (sample_engine [(0, 0); (1, 1)]%nat) in
  List.NoDup (window_ids st) /\
  In w (getWindowsOnMonitor (host st) 1 false) /\
  JsMap.get 7%nat (savedWindowsBeforeDisable (eng (disable st))) =
    Some (mkSavedInfo 1 1 180 100 400 300).
Proof.
  intros w st.
  assert (Hnd : List.NoDup (window_ids st)).
  { apply List.NoDup_cons; [intros [] | apply List.NoDup_nil]. }
  assert (Hin : In w (getWindowsOnMonitor (host st) 1 false)) by (left; reflexivity).
  split; [exact Hnd|]. split; [exact Hin|].
  destruct (disable_effect st) as (_ & _ & _ & _ & _ & _ & _ & _ & Hrec).
  destruct (Hrec Hnd) as (_ & Hown).
  apply (Hown w 1%nat Hin); [discriminate | simpl; lia|].
  intros [|[|M']] H1 H0; try contradiction. split; reflexivity.
Defined.

(** With three monitors the record can name another monitor than the one the
    window was on: a window of monitor 1 whose parked position has its centre
    on monitor 2 is read again in monitor 2's turn and recorded under
    monitor 2, with the offset of the parked position. *)
Lemma disable_rerecords_parked_window :
  let w := sample_window 7 3720 100 400 300 None in
  let st := mkState (sample_host [mkRect 0 0 800 600; mkRect 2720 0 1920 1080;
                                  mkRect 800 0 1920 1080] 0 (10, 10) 0 [w])
                    (sample_engine [(0, 0); (1, 1); (2, 2)]%nat) in
  getWindowMonitor (host st) w = Some 1%nat /\
  In w (getWindowsOnMonitor (host st) 1 false) /\
  savedWindowsBeforeDisable (eng (disable st)) = [(7%nat, mkSavedInfo 2 2 200 100 400 300)].
Proof.
  intros w st. split; [reflexivity|]. split; [left; reflexivity|].
  vm_compute. reflexivity.
Qed.
(** C3, on the primary path.  The offset [(relX, relY)] of window [w] inside
    monitor [M] is stashed under workspace [W], either by
    [_saveWorkspaceWindowPositions] for [W], or by the stash loop
    ([stashWindow]) of the [_simpleSwitch_Primary] that takes [M] from [W] to
    another workspace.  If that entry is still in the cache when
    [_simpleSwitch_Primary] next switches [M] to [W], with the window among
    the windows of [W] and not among the windows shown on [M], then the
    switch places the window at [(M.x + relX, M.y + relY)]: the offset it is
    restored with is the offset that was stashed.  The window keeps its size
    and the cache entry is removed. *)
Theorem stash_restore_roundtrip (st0 st1 st2 : State) (M prev W target : nat)
    (skip0 skip : bool) (w w2 : Window) :
  let id := stable_sequence w in
  let geo0 := monitor_geometry (host st0) M in
  let relX := rect_x (frame_rect w) - rect_x geo0 in
  let relY := rect_y (frame_rect w) - rect_y geo0 in
  List.NoDup (window_ids st0) ->
  (In w (getWindowsOnWorkspace (host st0) W) /\
   st1 = saveWorkspaceWindowPositions M W st0) \/
  (In w (getWindowsOnMonitor (host st0) M false) /\ W <> target /\
   st1 = simpleSwitch_Primary M W target skip0 st0) ->
  List.NoDup (window_ids st2) ->
  In w2 (getWindowsOnWorkspace (host st2) W) ->
  stable_sequence w2 = id ->
  ~ In w2 (getWindowsOnMonitor (host st2) M false) ->
  savedWindowPositions (eng st2) !! id = savedWindowPositions (eng st1) !! id ->
  let geo := monitor_geometry (host st2) M in
  let st' := simpleSwitch_Primary M prev W skip st2 in
  savedWindowPositions (eng st1) !! id = Some (mkSavedPos relX relY W) /\
  exists w',
    findWindowById st' id = Some w' /\
    rect_x (frame_rect w') = rect_x geo + relX /\
    rect_y (frame_rect w') = rect_y geo + relY /\
    rect_x (frame_rect w') - rect_x geo = relX /\
    rect_y (frame_rect w') - rect_y geo = relY /\
    rect_width (frame_rect w') = rect_width (frame_rect w2) /\
    rect_height (frame_rect w') = rect_height (frame_rect w2) /\
    savedWindowPositions (eng st') !! id = None.
Proof.
  intros id geo0 relX relY Hnd0 Hstash Hnd2 Hin2 Hid Hhidden Hcache geo st'.
  assert (Hentry : savedWindowPositions (eng st1) !! id = Some (mkSavedPos relX relY W)).
  { destruct Hstash as [(Hin0 & ->) | (Hin0 & Hne & ->)].
    - exact (proj2 (saveWorkspaceWindowPositions_stashes st0 M W w Hnd0 Hin0)).
    - exact (simpleSwitch_Primary_stash_entry st0 M W target skip0 w Hnd0 Hin0 Hne). }
  split; [exact Hentry|].
  assert (Hc2 : savedWindowPositions (eng st2) !! stable_sequence w2 =
                Some (mkSavedPos relX relY W)).
  { rewrite Hid. etransitivity; [exact Hcache | exact Hentry]. }
  destruct (simpleSwitch_Primary_restores st2 M prev W skip w2 relX relY Hnd2 Hin2 Hhidden Hc2)
    as (Hf & Hc).
  eexists. split; [rewrite <- Hid; exact Hf|]. fold geo. cbn.
  split; [reflexivity|]. split; [reflexivity|]. split; [lia|]. split; [lia|].
  split; [reflexivity|]. split; [reflexivity|]. rewrite <- Hid. exact Hc.
Qed.

Lemma stash_restore_roundtrip_witness :
  let w := sample_window 7 500 300 400 300 (Some 1%nat) in
  let w2 := mkWindow 7 (mkRect 40 40 400 300) NORMAL false true false false (Some 1%nat) 0 2 0 in
  let st0 := mkState (sample_host [left_monitor; right_monitor] 0 (10, 10) 1 [w])
                     (sample_engine [(0, 1); (1, 4)]%nat) in
  let stA := saveWorkspaceWindowPositions 0 1 st0 in
  let stB := simpleSwitch_Primary 0 1 3 false st0 in
  let st2A := mkState (sample_host [left_monitor; right_monitor] 0 (10, 10) 3 [w2]) (eng stA) in
  let st2B := mkState (sample_host [left_monitor; right_monitor] 0 (10, 10) 3 [w2]) (eng stB) in
  (savedWindowPositions (eng stA) !! 7%nat = Some (mkSavedPos 500 300 1) /\
   exists w',
     findWindowById (simpleSwitch_Primary 0 3 1 false st2A) 7 = Some w' /\
     rect_x (frame_rect w') = 0 + 500 /\
     rect_y (frame_rect w') = 0 + 300 /\
     rect_x (frame_rect w') - 0 = 500 /\
     rect_y (frame_rect w') - 0 = 300 /\
     rect_width (frame_rect w') = 400 /\
     rect_height (frame_rect w') = 300 /\
     savedWindowPositions (eng (simpleSwitch_Primary 0 3 1 false st2A)) !! 7%nat = None) /\
  (savedWindowPositions (eng stB) !! 7%nat = Some (mkSavedPos 500 300 1) /\
   exists w',
     findWindowById (simpleSwitch_Primary 0 3 1 false st2B) 7 = Some w' /\
     rect_x (frame_rect w') = 0 + 500 /\
     rect_y (frame_rect w') = 0 + 300 /\
     rect_x (frame_rect w') - 0 = 500 /\
     rect_y (frame_rect w') - 0 = 300 /\
     rect_width (frame_rect w') = 400 /\
     rect_height (frame_rect w') = 300 /\
     savedWindowPositions (eng (simpleSwitch_Primary 0 3 1 false st2B)) !! 7%nat = None).
Proof.
  intros w w2 st0 stA stB st2A st2B. split.
  - apply (stash_restore_roundtrip st0 stA st2A 0 3 1 3 false false w w2).
    + constructor; [intros [] | constructor].
    + left. split; [left; reflexivity | reflexivity].
    + constructor; [intros [] | constructor].
    + left. reflexivity.
    + reflexivity.
    + intros [].
    + reflexivity.
  - apply (stash_restore_roundtrip st0 stB st2B 0 3 1 3 false false w w2).
    + constructor; [intros [] | constructor].
    + right. split; [left; reflexivity | split; [discriminate | reflexivity]].
    + constructor; [intros [] | constructor].
    + left. reflexivity.
    + reflexivity.
    + intros [].
    + reflexivity.
Defined.

(** C3 fails on a secondary monitor.  The focused window is on secondary
    monitor 1, and [_moveWindowToWorkspace] sends it to workspace 3: its
    offset [(180, 100)] inside monitor 1 is stashed under workspace 3, and
    the window goes to the primary monitor.  When monitor 1 is then switched
    to workspace 3 the window comes back to monitor 1, but by
    [_simpleSwitch_Secondary], which carries it over from the primary monitor
    and never looks at the cache: the entry is still there afterwards. *)
Lemma secondary_restore_keeps_entry :
  let w := sample_window 7 2100 100 400 300 (Some 0%nat) in
  let st0 := mkState (with_focus_window (Some 7%nat)
                        (sample_host [left_monitor; right_monitor] 0 (2200, 200) 0 [w]))
                     (sample_engine [(0, 0); (1, 1)]%nat) in
  let st1 := moveWindowToWorkspace 3 st0 in
  let st2 := switchWorkspace 3 st1 in
  getMonitorAtPointer (host st0) = 1%nat /\
  primary_monitor (host st0) = 0%nat /\
  savedWindowPositions (eng st1) !! 7%nat = Some (mkSavedPos 180 100 3) /\
  (frame_rect <$> findWindowById st1 7) = Some (mkRect 180 100 400 300) /\
  displayed_ws st2 1 = 3%nat /\
  (frame_rect <$> findWindowById st2 7) = Some (mkRect 2100 100 400 300) /\
  (frame_rect <$> findWindowById (simpleSwitch_Secondary 1 1 3 st1) 7) =
    Some (mkRect 2100 100 400 300) /\
  savedWindowPositions (eng (simpleSwitch_Secondary 1 1 3 st1)) !! 7%nat =
    Some (mkSavedPos 180 100 3) /\
  savedWindowPositions (eng st2) !! 7%nat = Some (mkSavedPos 180 100 3) /\
  savedWindowPositions (eng st2) !! 7%nat <> None.
Proof.
  intros w st0 st1 st2.
  assert (H2 : savedWindowPositions (eng st2) !! 7%nat = Some (mkSavedPos 180 100 3))
    by (vm_compute; reflexivity).
  repeat split; try (vm_compute; reflexivity).
  rewrite H2. discriminate.
Qed.
